(** * v4l2_camera: the device layer and the node's format requests

    A shallow embedding of [src/v4l2_camera_device.cpp] (class
    [V4l2CameraDevice]) and of the two format requests of
    [src/v4l2_camera.cpp] (class [V4L2Camera]).

    The kernel is not part of the program: every system call is a field of
    a [Driver] record acting on an abstract kernel state, and each method of
    the class is a state-passing function over a [world] that pairs the
    kernel state with the chronological trace of the calls issued so far.
    Undefined behaviour of the C++ (out-of-range vector index, dereference
    of an end iterator, a system call that writes past the object it was
    given) is an explicit outcome.  Logger calls are left out, except where
    the message reads program state through a pointer that may be invalid. *)

From Stdlib Require Import ZArith List String Ascii Bool Lia.
From stdpp Require Import base list gmap strings pretty.
Import ListNotations.

Local Open Scope string_scope.
Local Open Scope list_scope.
Local Open Scope Z_scope.

(** ** Machine integers *)

(** [uint32_t] / [__u32] / [unsigned]: the value modulo 2^32. *)
Definition u32 (z : Z) : Z := z mod 2 ^ 32.

(** [int32_t] / [__s32]: two's complement, 32 bits. *)
Definition s32 (z : Z) : Z := (z + 2 ^ 31) mod 2 ^ 32 - 2 ^ 31.

(** [#define IOCTL_FAILED(x) (-1 == x)] *)
Definition IOCTL_FAILED (x : Z) : bool := -1 =? x.

(** ** Constants of <linux/videodev2.h> and <sys/mman.h> *)

Definition V4L2_CAP_READWRITE : Z := 0x01000000.
Definition V4L2_CAP_STREAMING : Z := 0x04000000.
Definition V4L2_BUF_TYPE_VIDEO_CAPTURE : Z := 1.
Definition V4L2_MEMORY_MMAP : Z := 1.
Definition V4L2_CTRL_CLASS_USER : Z := 0x00980000.
(** [#define V4L2_CID_USER_CLASS (V4L2_CTRL_CLASS_USER | 1)] *)
Definition V4L2_CID_USER_CLASS : Z := Z.lor V4L2_CTRL_CLASS_USER 1.
Definition V4L2_CTRL_FLAG_NEXT_CTRL : Z := 0x80000000.
Definition V4L2_CTRL_FLAG_DISABLED : Z := 0x0001.
Definition V4L2_CTRL_TYPE_MENU : Z := 3.
(** [MAP_FAILED] is [(void * ) -1]. *)
Definition MAP_FAILED : Z := 2 ^ 64 - 1.
Arguments MAP_FAILED : simpl never.

(** The byte of a character, 0 to 255. *)
Definition char_code (c : ascii) : Z := Z.of_N (N_of_ascii c).

(** [(__u32)(c)] for a [char c].  [char] is signed where the node is built
    (x86-64): a byte from 0x80 on is a negative [char], and the conversion
    to [__u32] sign-extends it to 0xffffff80 and up. *)
Definition char_to_u32 (c : ascii) : Z :=
  if char_code c <? 128 then char_code c else u32 (char_code c - 256).

(** [#define v4l2_fourcc(a, b, c, d)
      ((__u32)(a) | ((__u32)(b) << 8) | ((__u32)(c) << 16) | ((__u32)(d) << 24))],
    the shifts on 32 bits. *)
Definition v4l2_fourcc (a b c d : ascii) : Z :=
  Z.lor (char_to_u32 a)
    (Z.lor (u32 (Z.shiftl (char_to_u32 b) 8))
       (Z.lor (u32 (Z.shiftl (char_to_u32 c) 16))
              (u32 (Z.shiftl (char_to_u32 d) 24)))).

Definition V4L2_PIX_FMT_YUYV : Z := v4l2_fourcc "Y" "U" "Y" "V".

(** [sensor_msgs::image_encodings::YUV422_YUY2] *)
Definition YUV422_YUY2 : string := "yuv422_yuy2".

(** A four character string, as the node receives a FOURCC. *)
Definition fourcc_string (a b c d : ascii) : string :=
  String a (String b (String c (String d EmptyString))).

(** ** Kernel structures (the fields the program reads or writes) *)

Record v4l2_capability := {
  cap_driver : string;
  cap_card : string;
  cap_bus_info : string;
  cap_version : Z;
  cap_capabilities : Z
}.

Record v4l2_pix_format := {
  pix_width : Z;
  pix_height : Z;
  pix_pixelformat : Z;
  pix_bytesperline : Z;
  pix_sizeimage : Z
}.

Record v4l2_format := {
  fmt_type : Z;
  fmt_pix : v4l2_pix_format
}.

Record v4l2_fmtdesc := {
  fd_index : Z;
  fd_type : Z;
  fd_description : string;
  fd_pixelformat : Z
}.

Record v4l2_queryctrl := {
  qc_id : Z;
  qc_type : Z;
  qc_name : string;
  qc_minimum : Z;
  qc_maximum : Z;
  qc_default_value : Z;
  qc_flags : Z
}.

Record v4l2_querymenu := {
  qm_id : Z;
  qm_index : Z;
  qm_name : string
}.

Record v4l2_control := {
  vc_id : Z;
  vc_value : Z
}.

Record v4l2_requestbuffers := {
  rb_count : Z;
  rb_type : Z;
  rb_memory : Z
}.

Record v4l2_buffer := {
  vb_index : Z;
  vb_type : Z;
  vb_memory : Z;
  vb_length : Z;
  vb_offset : Z
}.

(** Value initialisation, [auto x = T{}]. *)
Definition zero_pix : v4l2_pix_format :=
  {| pix_width := 0; pix_height := 0; pix_pixelformat := 0;
     pix_bytesperline := 0; pix_sizeimage := 0 |}.
Definition zero_format : v4l2_format := {| fmt_type := 0; fmt_pix := zero_pix |}.
Definition zero_queryctrl : v4l2_queryctrl :=
  {| qc_id := 0; qc_type := 0; qc_name := ""; qc_minimum := 0; qc_maximum := 0;
     qc_default_value := 0; qc_flags := 0 |}.
Definition zero_querymenu : v4l2_querymenu :=
  {| qm_id := 0; qm_index := 0; qm_name := "" |}.
Definition zero_control : v4l2_control := {| vc_id := 0; vc_value := 0 |}.
Definition zero_requestbuffers : v4l2_requestbuffers :=
  {| rb_count := 0; rb_type := 0; rb_memory := 0 |}.
Definition zero_buffer : v4l2_buffer :=
  {| vb_index := 0; vb_type := 0; vb_memory := 0; vb_length := 0; vb_offset := 0 |}.
Definition zero_capability : v4l2_capability :=
  {| cap_driver := ""; cap_card := ""; cap_bus_info := ""; cap_version := 0;
     cap_capabilities := 0 |}.

(** ** Structures of the program *)

(** Modelled from the spec: the declaration of [PixelFormat] is in a header
    that is not part of the sources; section 3 of the specification lists
    its fields (format code, width, height, bytes per line, total image byte
    size), all [unsigned], and the constructor from a [v4l2_pix_format]
    copies the five of them. *)
Record PixelFormat := {
  width : Z;
  height : Z;
  pixelFormat : Z;
  bytesPerLine : Z;
  imageByteSize : Z
}.

Definition PixelFormat_of (pix : v4l2_pix_format) : PixelFormat :=
  {| width := pix_width pix; height := pix_height pix;
     pixelFormat := pix_pixelformat pix;
     bytesPerLine := pix_bytesperline pix;
     imageByteSize := pix_sizeimage pix |}.

(** Modelled from the spec: [ImageFormat] (same missing header), a format
    code with its human description, built from a [v4l2_fmtdesc]. *)
Record ImageFormat := {
  if_pixelFormat : Z;
  if_description : string
}.

Definition ImageFormat_of (d : v4l2_fmtdesc) : ImageFormat :=
  {| if_pixelFormat := fd_pixelformat d; if_description := fd_description d |}.

(** [Control], as [listControls] fills it; [menuItems] is a
    [std::map<int, std::string>]. *)
Record Control := {
  ctl_id : Z;
  ctl_name : string;
  ctl_type : Z;
  ctl_minimum : Z;
  ctl_maximum : Z;
  ctl_defaultValue : Z;
  ctl_menuItems : gmap Z string
}.

(** The [Control] that [listControls] makes of an answer of the device and
    the menu it collected for it. *)
Definition Control_of (q : v4l2_queryctrl) (menuItems : gmap Z string) : Control :=
  {| ctl_id := qc_id q; ctl_name := qc_name q; ctl_type := qc_type q;
     ctl_minimum := qc_minimum q; ctl_maximum := qc_maximum q;
     ctl_defaultValue := qc_default_value q; ctl_menuItems := menuItems |}.

(** [Buffer]: index, start address of the mapping, length in bytes. *)
Record Buffer := {
  buf_index : Z;
  buf_start : Z;
  buf_length : Z
}.

Definition zero_Buffer : Buffer := {| buf_index := 0; buf_start := 0; buf_length := 0 |}.

(** [sensor_msgs::msg::Image], the fields [capture] sets. *)
Record Image := {
  img_width : Z;
  img_height : Z;
  img_step : Z;
  img_encoding : string;
  img_data : list Byte.byte
}.

(** The image [capture] builds for a format and the bytes copied. *)
Definition frame_of (fmt : PixelFormat) (data : list Byte.byte) : Image :=
  {| img_width := width fmt; img_height := height fmt; img_step := bytesPerLine fmt;
     img_encoding := if pixelFormat fmt =? V4L2_PIX_FMT_YUYV then YUV422_YUY2 else "";
     img_data := data |}.

(** The object: the data members of [V4l2CameraDevice]. *)
Record V4l2CameraDevice := {
  device_ : string;
  fd_ : Z;
  capabilities_ : v4l2_capability;
  cur_data_format_ : PixelFormat;
  image_formats_ : list ImageFormat;
  controls_ : list Control;
  buffers_ : list Buffer
}.

Definition new_device (device : string) : V4l2CameraDevice :=
  {| device_ := device; fd_ := 0; capabilities_ := zero_capability;
     cur_data_format_ := PixelFormat_of zero_pix; image_formats_ := [];
     controls_ := []; buffers_ := [] |}.

Definition set_fd (d : V4l2CameraDevice) (fd : Z) :=
  {| device_ := device_ d; fd_ := fd; capabilities_ := capabilities_ d;
     cur_data_format_ := cur_data_format_ d; image_formats_ := image_formats_ d;
     controls_ := controls_ d; buffers_ := buffers_ d |}.
Definition set_capabilities (d : V4l2CameraDevice) (c : v4l2_capability) :=
  {| device_ := device_ d; fd_ := fd_ d; capabilities_ := c;
     cur_data_format_ := cur_data_format_ d; image_formats_ := image_formats_ d;
     controls_ := controls_ d; buffers_ := buffers_ d |}.
Definition set_cur_data_format (d : V4l2CameraDevice) (f : PixelFormat) :=
  {| device_ := device_ d; fd_ := fd_ d; capabilities_ := capabilities_ d;
     cur_data_format_ := f; image_formats_ := image_formats_ d;
     controls_ := controls_ d; buffers_ := buffers_ d |}.
Definition set_image_formats (d : V4l2CameraDevice) (l : list ImageFormat) :=
  {| device_ := device_ d; fd_ := fd_ d; capabilities_ := capabilities_ d;
     cur_data_format_ := cur_data_format_ d; image_formats_ := l;
     controls_ := controls_ d; buffers_ := buffers_ d |}.
Definition set_controls (d : V4l2CameraDevice) (l : list Control) :=
  {| device_ := device_ d; fd_ := fd_ d; capabilities_ := capabilities_ d;
     cur_data_format_ := cur_data_format_ d; image_formats_ := image_formats_ d;
     controls_ := l; buffers_ := buffers_ d |}.
Definition set_buffers (d : V4l2CameraDevice) (l : list Buffer) :=
  {| device_ := device_ d; fd_ := fd_ d; capabilities_ := capabilities_ d;
     cur_data_format_ := cur_data_format_ d; image_formats_ := image_formats_ d;
     controls_ := controls_ d; buffers_ := l |}.

(** ** The kernel interface *)

(** The [ioctl] requests the program issues, each with the argument
    structure as the program passed it. *)
Inductive request :=
| VIDIOC_QUERYCAP (c : v4l2_capability)
| VIDIOC_G_FMT (f : v4l2_format)
| VIDIOC_S_FMT (f : v4l2_format)
| VIDIOC_ENUM_FMT (d : v4l2_fmtdesc)
| VIDIOC_QUERYCTRL (q : v4l2_queryctrl)
| VIDIOC_QUERYMENU (m : v4l2_querymenu)
| VIDIOC_G_CTRL (c : v4l2_control)
| VIDIOC_S_CTRL (c : v4l2_control)
| VIDIOC_REQBUFS (r : v4l2_requestbuffers)
| VIDIOC_QUERYBUF (b : v4l2_buffer)
| VIDIOC_QBUF (b : v4l2_buffer)
| VIDIOC_DQBUF (b : v4l2_buffer)
| VIDIOC_STREAMON (type : Z)
| VIDIOC_STREAMOFF (type : Z).

(** What the process does that the outside can observe: a system call with
    its return value, a read of [n] bytes of mapped memory at [addr], an
    error message of the logger. *)
Inductive event :=
| EvOpen (path : string) (ret : Z)
| EvIoctl (fd : Z) (rq : request) (ret : Z)
| EvMmap (fd len off : Z) (ret : Z)
| EvMunmap (addr len : Z) (ret : Z)
| EvRead (addr n : Z)
| EvLogError (msg : string).

(** The driver: each call takes the file descriptor and the argument
    structure and gives the return value, the structure as the kernel left
    it, and the next kernel state.  [shared_mem k a] is the byte at address
    [a] of the memory the kernel shares with the process in state [k]. *)
Record Driver (K : Type) := {
  drv_open : string -> K -> Z * K;
  drv_mmap : Z -> Z -> Z -> K -> Z * K;
  drv_munmap : Z -> Z -> K -> Z * K;
  shared_mem : K -> Z -> Byte.byte;
  drv_querycap : Z -> v4l2_capability -> K -> Z * v4l2_capability * K;
  drv_g_fmt : Z -> v4l2_format -> K -> Z * v4l2_format * K;
  drv_s_fmt : Z -> v4l2_format -> K -> Z * v4l2_format * K;
  drv_enum_fmt : Z -> v4l2_fmtdesc -> K -> Z * v4l2_fmtdesc * K;
  drv_queryctrl : Z -> v4l2_queryctrl -> K -> Z * v4l2_queryctrl * K;
  drv_querymenu : Z -> v4l2_querymenu -> K -> Z * v4l2_querymenu * K;
  drv_g_ctrl : Z -> v4l2_control -> K -> Z * v4l2_control * K;
  drv_s_ctrl : Z -> v4l2_control -> K -> Z * v4l2_control * K;
  drv_reqbufs : Z -> v4l2_requestbuffers -> K -> Z * v4l2_requestbuffers * K;
  drv_querybuf : Z -> v4l2_buffer -> K -> Z * v4l2_buffer * K;
  drv_qbuf : Z -> v4l2_buffer -> K -> Z * v4l2_buffer * K;
  drv_dqbuf : Z -> v4l2_buffer -> K -> Z * v4l2_buffer * K;
  drv_streamon : Z -> Z -> K -> Z * K;
  drv_streamoff : Z -> Z -> K -> Z * K
}.

Arguments drv_open {K}.
Arguments drv_mmap {K}.
Arguments drv_munmap {K}.
Arguments shared_mem {K}.
Arguments drv_querycap {K}.
Arguments drv_g_fmt {K}.
Arguments drv_s_fmt {K}.
Arguments drv_enum_fmt {K}.
Arguments drv_queryctrl {K}.
Arguments drv_querymenu {K}.
Arguments drv_g_ctrl {K}.
Arguments drv_s_ctrl {K}.
Arguments drv_reqbufs {K}.
Arguments drv_querybuf {K}.
Arguments drv_qbuf {K}.
Arguments drv_dqbuf {K}.
Arguments drv_streamon {K}.
Arguments drv_streamoff {K}.

(** The world: kernel state and the trace so far, oldest event first. *)
Record world (K : Type) := World { kern : K; trace : list event }.
Arguments World {K}.
Arguments kern {K}.
Arguments trace {K}.

(** The state monad every method runs in. *)
Definition M (K A : Type) : Type := world K -> A * world K.

Definition ret {K A} (a : A) : M K A := fun w => (a, w).
Definition bind {K A B} (m : M K A) (f : A -> M K B) : M K B :=
  fun w => let (a, w') := m w in f a w'.

Notation "'do' x <- m ;; k" := (bind m (fun x => k))
  (at level 10, x name, m at level 99, k at level 200).
Notation "'do' ' p <- m ;; k" := (bind m (fun x => let 'p := x in k))
  (at level 10, p pattern, m at level 99, k at level 200).

Definition emit {K} (e : event) : M K unit :=
  fun w => (tt, World (kern w) (trace w ++ [e])).

(** A call that returns a value only, and a call that also rewrites its
    argument structure; both leave their event in the trace. *)
Definition call0 {K} (f : K -> Z * K) (ev : Z -> event) : M K Z :=
  fun w => let (r, k') := f (kern w) in (r, World k' (trace w ++ [ev r])).

Definition call1 {K A} (f : A -> K -> Z * A * K) (ev : A -> Z -> event) (a : A)
  : M K (Z * A) :=
  fun w => let '(r, a', k') := f a (kern w) in
           ((r, a'), World k' (trace w ++ [ev a r])).

(** Outcome of a method whose C++ may run into undefined behaviour. *)
Inductive outcome (A : Type) :=
| Returned (a : A)
| Undefined (why : string).
Arguments Returned {A}.
Arguments Undefined {A}.

(** ** The methods of [V4l2CameraDevice] *)

Section Methods.
Context {K : Type} (drv : Driver K).

Definition sys_open (path : string) : M K Z :=
  call0 (drv_open drv path) (EvOpen path).
Definition sys_mmap (fd len off : Z) : M K Z :=
  call0 (drv_mmap drv fd len off) (EvMmap fd len off).
Definition sys_munmap (addr len : Z) : M K Z :=
  call0 (drv_munmap drv addr len) (EvMunmap addr len).

Definition ioctl_QUERYCAP fd := call1 (drv_querycap drv fd) (fun a => EvIoctl fd (VIDIOC_QUERYCAP a)).
Definition ioctl_G_FMT fd := call1 (drv_g_fmt drv fd) (fun a => EvIoctl fd (VIDIOC_G_FMT a)).
Definition ioctl_S_FMT fd := call1 (drv_s_fmt drv fd) (fun a => EvIoctl fd (VIDIOC_S_FMT a)).
Definition ioctl_ENUM_FMT fd := call1 (drv_enum_fmt drv fd) (fun a => EvIoctl fd (VIDIOC_ENUM_FMT a)).
Definition ioctl_QUERYCTRL fd := call1 (drv_queryctrl drv fd) (fun a => EvIoctl fd (VIDIOC_QUERYCTRL a)).
Definition ioctl_QUERYMENU fd := call1 (drv_querymenu drv fd) (fun a => EvIoctl fd (VIDIOC_QUERYMENU a)).
Definition ioctl_G_CTRL fd := call1 (drv_g_ctrl drv fd) (fun a => EvIoctl fd (VIDIOC_G_CTRL a)).
Definition ioctl_S_CTRL fd := call1 (drv_s_ctrl drv fd) (fun a => EvIoctl fd (VIDIOC_S_CTRL a)).
Definition ioctl_REQBUFS fd := call1 (drv_reqbufs drv fd) (fun a => EvIoctl fd (VIDIOC_REQBUFS a)).
Definition ioctl_QUERYBUF fd := call1 (drv_querybuf drv fd) (fun a => EvIoctl fd (VIDIOC_QUERYBUF a)).
Definition ioctl_QBUF fd := call1 (drv_qbuf drv fd) (fun a => EvIoctl fd (VIDIOC_QBUF a)).
Definition ioctl_DQBUF fd := call1 (drv_dqbuf drv fd) (fun a => EvIoctl fd (VIDIOC_DQBUF a)).
Definition ioctl_STREAMON fd (type : Z) : M K Z :=
  call0 (drv_streamon drv fd type) (EvIoctl fd (VIDIOC_STREAMON type)).
Definition ioctl_STREAMOFF fd (type : Z) : M K Z :=
  call0 (drv_streamoff drv fd type) (EvIoctl fd (VIDIOC_STREAMOFF type)).

(** [std::copy(start, start + n, ...)]: the [n] bytes at [start], as the
    shared memory holds them at that moment. *)
Definition read_mem (start n : Z) : M K (list Byte.byte) :=
  fun w => (map (shared_mem drv (kern w)) (seqZ start n),
            World (kern w) (trace w ++ [EvRead start n])).

(** *** getControlValue *)
Definition getControlValue (self : V4l2CameraDevice) (id : Z) : M K Z :=
  let ctrl := {| vc_id := id; vc_value := 0 |} in
  do '(r, ctrl) <- ioctl_G_CTRL (fd_ self) ctrl ;;
  if IOCTL_FAILED r then ret 0 else ret (vc_value ctrl).

(** *** listImageFormats: indexed query until the device fails one.  The
    loop has no bound of its own, so the model takes fuel; [None] is a loop
    still running when the fuel is spent. *)
Fixpoint listImageFormats_loop (fuel : nat) (fd : Z) (fmtDesc : v4l2_fmtdesc)
    (image_formats : list ImageFormat) : M K (option (list ImageFormat)) :=
  match fuel with
  | O => ret None
  | S fuel =>
      do '(r, fmtDesc) <- ioctl_ENUM_FMT fd fmtDesc ;;
      if negb (IOCTL_FAILED r) then
        let image_formats := image_formats ++ [ImageFormat_of fmtDesc] in
        let fmtDesc := {| fd_index := u32 (fd_index fmtDesc + 1);
                          fd_type := fd_type fmtDesc;
                          fd_description := fd_description fmtDesc;
                          fd_pixelformat := fd_pixelformat fmtDesc |} in
        listImageFormats_loop fuel fd fmtDesc image_formats
      else ret (Some image_formats)
  end.

Definition listImageFormats (fuel : nat) (self : V4l2CameraDevice)
  : M K (option V4l2CameraDevice) :=
  let fmtDesc := {| fd_index := 0; fd_type := V4L2_BUF_TYPE_VIDEO_CAPTURE;
                    fd_description := ""; fd_pixelformat := 0 |} in
  do r <- listImageFormats_loop fuel (fd_ self) fmtDesc [] ;;
  ret (option_map (set_image_formats self) r).

(** *** listControls *)

(** The inner loop, [for (auto i = minimum; i <= maximum; i++)], with [i] an
    [__s32]. *)
Fixpoint query_menu (fuel : nat) (fd : Z) (querymenu : v4l2_querymenu)
    (i maximum : Z) (menuItems : gmap Z string) : M K (option (gmap Z string)) :=
  match fuel with
  | O => ret None
  | S fuel =>
      if i <=? maximum then
        let querymenu := {| qm_id := qm_id querymenu; qm_index := u32 i;
                            qm_name := qm_name querymenu |} in
        do '(r, querymenu) <- ioctl_QUERYMENU fd querymenu ;;
        let menuItems :=
          if negb (IOCTL_FAILED r) then <[i := qm_name querymenu]> menuItems
          else menuItems in
        query_menu fuel fd querymenu (s32 (i + 1)) maximum menuItems
      else ret (Some menuItems)
  end.

Definition set_qc_id (q : v4l2_queryctrl) (id : Z) : v4l2_queryctrl :=
  {| qc_id := id; qc_type := qc_type q; qc_name := qc_name q;
     qc_minimum := qc_minimum q; qc_maximum := qc_maximum q;
     qc_default_value := qc_default_value q; qc_flags := qc_flags q |}.

(** The outer loop, [while (!IOCTL_FAILED(ioctl(fd_, VIDIOC_QUERYCTRL,
    &queryctrl)))].  The [continue] of a disabled control goes back to the
    loop condition with [queryctrl] as the kernel left it. *)
Fixpoint listControls_loop (fuel : nat) (fd : Z) (queryctrl : v4l2_queryctrl)
    (controls : list Control) : M K (option (list Control)) :=
  match fuel with
  | O => ret None
  | S fuel =>
      do '(r, queryctrl) <- ioctl_QUERYCTRL fd queryctrl ;;
      if negb (IOCTL_FAILED r) then
        if negb (Z.land (qc_flags queryctrl) V4L2_CTRL_FLAG_DISABLED =? 0) then
          listControls_loop fuel fd queryctrl controls
        else
          do menu <-
            (if qc_type queryctrl =? V4L2_CTRL_TYPE_MENU then
               let querymenu := {| qm_id := qc_id queryctrl; qm_index := 0;
                                   qm_name := "" |} in
               query_menu fuel fd querymenu (qc_minimum queryctrl)
                 (qc_maximum queryctrl) ∅
             else ret (Some ∅)) ;;
          match menu with
          | None => ret None
          | Some menuItems =>
              let control := {| ctl_id := qc_id queryctrl;
                                ctl_name := qc_name queryctrl;
                                ctl_type := qc_type queryctrl;
                                ctl_minimum := qc_minimum queryctrl;
                                ctl_maximum := qc_maximum queryctrl;
                                ctl_defaultValue := qc_default_value queryctrl;
                                ctl_menuItems := menuItems |} in
              let controls := controls ++ [control] in
              let queryctrl :=
                set_qc_id queryctrl
                  (Z.lor (qc_id queryctrl) V4L2_CTRL_FLAG_NEXT_CTRL) in
              listControls_loop fuel fd queryctrl controls
          end
      else ret (Some controls)
  end.

Definition listControls (fuel : nat) (self : V4l2CameraDevice)
  : M K (option V4l2CameraDevice) :=
  let queryctrl :=
    set_qc_id zero_queryctrl (Z.lor V4L2_CID_USER_CLASS V4L2_CTRL_FLAG_NEXT_CTRL) in
  do r <- listControls_loop fuel (fd_ self) queryctrl [] ;;
  ret (option_map (set_controls self) r).

(** *** open *)

(** The loop of [open] that logs every control with its current value: one
    [getControlValue] per control. *)
Fixpoint log_controls (self : V4l2CameraDevice) (cs : list Control) : M K unit :=
  match cs with
  | [] => ret tt
  | control :: cs =>
      do _ <- getControlValue self (ctl_id control) ;;
      log_controls self cs
  end.

Definition open (fuel : nat) (self : V4l2CameraDevice)
  : M K (option (bool * V4l2CameraDevice)) :=
  do fd <- sys_open (device_ self) ;;
  let self := set_fd self fd in
  if fd <? 0 then ret (Some (false, self)) else
  (* List capabilities *)
  do '(_, cap) <- ioctl_QUERYCAP (fd_ self) (capabilities_ self) ;;
  let self := set_capabilities self cap in
  (* Get current data (pixel) format *)
  let formatReq := {| fmt_type := V4L2_BUF_TYPE_VIDEO_CAPTURE; fmt_pix := zero_pix |} in
  do '(_, formatReq) <- ioctl_G_FMT (fd_ self) formatReq ;;
  let self := set_cur_data_format self (PixelFormat_of (fmt_pix formatReq)) in
  (* List all available image formats and controls *)
  do r <- listImageFormats fuel self ;;
  match r with
  | None => ret None
  | Some self =>
      do r <- listControls fuel self ;;
      match r with
      | None => ret None
      | Some self =>
          do _ <- log_controls self (controls_ self) ;;
          ret (Some (true, self))
      end
  end.

(** *** initMemoryMapping *)

Definition capture_buffer (index : Z) : v4l2_buffer :=
  {| vb_index := index; vb_type := V4L2_BUF_TYPE_VIDEO_CAPTURE;
     vb_memory := V4L2_MEMORY_MMAP; vb_length := 0; vb_offset := 0 |}.

(** The loop [for (auto i = 0u; i < req.count; ++i)], with [n] the
    iterations left; it stops at the first mapping that fails. *)
Fixpoint map_buffers (n : nat) (fd i : Z) (buffers : list Buffer)
  : M K (bool * list Buffer) :=
  match n with
  | O => ret (true, buffers)
  | S n =>
      let buf := capture_buffer i in
      do '(_, buf) <- ioctl_QUERYBUF fd buf ;;
      do start <- sys_mmap fd (vb_length buf) (vb_offset buf) ;;
      let buffers :=
        <[Z.to_nat i := {| buf_index := vb_index buf; buf_start := start;
                           buf_length := vb_length buf |}]> buffers in
      if MAP_FAILED =? start then ret (false, buffers)
      else map_buffers n fd (i + 1) buffers
  end.

Definition initMemoryMapping (self : V4l2CameraDevice)
  : M K (bool * V4l2CameraDevice) :=
  (* Request 4 buffers *)
  let req := {| rb_count := 4; rb_type := V4L2_BUF_TYPE_VIDEO_CAPTURE;
                rb_memory := V4L2_MEMORY_MMAP |} in
  do '(_, req) <- ioctl_REQBUFS (fd_ self) req ;;
  (* Didn't get more than 1 buffer *)
  if rb_count req <? 2 then ret (false, self) else
  let self := set_buffers self (replicate (Z.to_nat (rb_count req)) zero_Buffer) in
  do '(ok, buffers) <- map_buffers (Z.to_nat (rb_count req)) (fd_ self) 0 (buffers_ self) ;;
  ret (ok, set_buffers self buffers).

(** *** start *)

(** [for (auto const & buffer : buffers_)]: queue every buffer, stop at the
    first failure. *)
Fixpoint queue_buffers (fd : Z) (buffers : list Buffer) : M K bool :=
  match buffers with
  | [] => ret true
  | buffer :: buffers =>
      do '(r, _) <- ioctl_QBUF fd (capture_buffer (buf_index buffer)) ;;
      if IOCTL_FAILED r then ret false else queue_buffers fd buffers
  end.

Definition start (self : V4l2CameraDevice) : M K (bool * V4l2CameraDevice) :=
  do '(ok, self) <- initMemoryMapping self ;;
  if negb ok then ret (false, self) else
  (* Queue the buffers *)
  do ok <- queue_buffers (fd_ self) (buffers_ self) ;;
  if negb ok then ret (false, self) else
  (* Start stream *)
  do r <- ioctl_STREAMON (fd_ self) V4L2_BUF_TYPE_VIDEO_CAPTURE ;;
  if IOCTL_FAILED r then ret (false, self) else ret (true, self).

(** *** stop *)

Fixpoint unmap_buffers (buffers : list Buffer) : M K unit :=
  match buffers with
  | [] => ret tt
  | buffer :: buffers =>
      do _ <- sys_munmap (buf_start buffer) (buf_length buffer) ;;
      unmap_buffers buffers
  end.

Definition stop (self : V4l2CameraDevice) : M K (bool * V4l2CameraDevice) :=
  (* Stop stream *)
  do r <- ioctl_STREAMOFF (fd_ self) V4L2_BUF_TYPE_VIDEO_CAPTURE ;;
  if IOCTL_FAILED r then ret (false, self) else
  (* De-initialize buffers *)
  do _ <- unmap_buffers (buffers_ self) ;;
  let self := set_buffers self [] in
  (* Free all buffers *)
  let req := {| rb_count := 0; rb_type := V4L2_BUF_TYPE_VIDEO_CAPTURE;
                rb_memory := V4L2_MEMORY_MMAP |} in
  do _ <- ioctl_REQBUFS (fd_ self) req ;;
  ret (true, self).

(** *** capture

    [Returned None] is the null pointer.  [buffers_[buf.index]] outside the
    vector is undefined in C++.  [std::copy] takes [imageByteSize] bytes from
    the start of the buffer on; the length of the buffer is not looked at. *)
Definition capture (self : V4l2CameraDevice) : M K (outcome (option Image)) :=
  let buf := {| vb_index := 0; vb_type := V4L2_BUF_TYPE_VIDEO_CAPTURE;
                vb_memory := V4L2_MEMORY_MMAP; vb_length := 0; vb_offset := 0 |} in
  (* Dequeue buffer with new image *)
  do '(r, buf) <- ioctl_DQBUF (fd_ self) buf ;;
  if IOCTL_FAILED r then ret (Returned None) else
  (* Requeue buffer to be reused for new captures *)
  do '(r, buf) <- ioctl_QBUF (fd_ self) buf ;;
  if IOCTL_FAILED r then ret (Returned None) else
  (* Create image object *)
  let fmt := cur_data_format_ self in
  let encoding := if pixelFormat fmt =? V4L2_PIX_FMT_YUYV then YUV422_YUY2 else "" in
  let size := imageByteSize fmt in
  match buffers_ self !! Z.to_nat (vb_index buf) with
  | None => ret (Undefined "buffers_[buf.index] is outside the vector")
  | Some buffer =>
      do data <- read_mem (buf_start buffer) size ;;
      ret (Returned (Some {| img_width := width fmt; img_height := height fmt;
                             img_step := bytesPerLine fmt;
                             img_encoding := encoding; img_data := data |}))
  end.

(** The two undefined behaviours of [setControlValue]. *)
Definition END_ITERATOR_READ : string :=
  "control->name with control == controls_.end()".
Definition QUERYCTRL_OVERRUN : string :=
  "VIDIOC_QUERYCTRL wrote a v4l2_queryctrl over a v4l2_control".

(** *** setControlValue

    [control] is the iterator [std::find_if] returns, [None] for
    [controls_.end()]; the error message reads [control->name].

    The program hands [VIDIOC_QUERYCTRL] the address of [ctrl], a
    [v4l2_control] of 8 bytes, where the request takes a [v4l2_queryctrl] of
    68.  The kernel finds the id in the first field (the fields behind it,
    which the query does not read, are written as zero here); a query it
    fails writes nothing back, a query it answers writes the whole structure
    back, over [ctrl] and over the 60 bytes of stack behind it.  From that
    write on the call has no defined behaviour: the rest of the method
    ([ctrl.value = value], [VIDIOC_S_CTRL] and its error branch) is reached
    only through it, so the value passed in does not show in any defined
    run. *)
Definition setControlValue (self : V4l2CameraDevice) (id value : Z)
  : M K (outcome bool) :=
  let control := find (fun c => ctl_id c =? id) (controls_ self) in
  let ctrl := {| vc_id := id; vc_value := 0 |} in
  (* Check whether device supports setting control *)
  do '(r, q) <- ioctl_QUERYCTRL (fd_ self) (set_qc_id zero_queryctrl (vc_id ctrl)) ;;
  if IOCTL_FAILED r then
    match control with
    | None => ret (Undefined END_ITERATOR_READ)
    | Some c =>
        do _ <- emit (EvLogError
                  ("Device does not support setting value for control " +:+ ctl_name c)) ;;
        ret (Returned false)
    end
  else ret (Undefined QUERYCTRL_OVERRUN).

(** *** requestDataFormat *)
Definition formatReq_of (format : PixelFormat) : v4l2_format :=
  {| fmt_type := V4L2_BUF_TYPE_VIDEO_CAPTURE;
     fmt_pix := {| pix_width := width format; pix_height := height format;
                   pix_pixelformat := pixelFormat format;
                   pix_bytesperline := 0; pix_sizeimage := 0 |} |}.

Definition requestDataFormat (self : V4l2CameraDevice) (format : PixelFormat)
  : M K (bool * V4l2CameraDevice) :=
  let formatReq := formatReq_of format in
  (* Perform request *)
  do '(r, formatReq) <- ioctl_S_FMT (fd_ self) formatReq ;;
  if IOCTL_FAILED r then ret (false, self) else
  ret (true, set_cur_data_format self (PixelFormat_of (fmt_pix formatReq))).

(** ** The format requests of the node, [V4L2Camera]

    [camera_] is the device object; [getCurrentDataFormat] returns a copy of
    [cur_data_format_]. *)

Definition getCurrentDataFormat (self : V4l2CameraDevice) : PixelFormat :=
  cur_data_format_ self.

Definition requestPixelFormat (camera_ : V4l2CameraDevice) (fourcc : string)
  : M K (bool * V4l2CameraDevice) :=
  match fourcc with
  | String c0 (String c1 (String c2 (String c3 EmptyString))) =>
      let code := v4l2_fourcc c0 c1 c2 c3 in
      let dataFormat := getCurrentDataFormat camera_ in
      (* Do not apply if camera already runs at given pixel format *)
      if pixelFormat dataFormat =? code then ret (true, camera_) else
      let dataFormat :=
        {| width := width dataFormat; height := height dataFormat;
           pixelFormat := code; bytesPerLine := bytesPerLine dataFormat;
           imageByteSize := imageByteSize dataFormat |} in
      requestDataFormat camera_ dataFormat
  | _ => ret (false, camera_)
  end.

(** [size] is a [std::vector<int64_t>]; the comparison with the [unsigned]
    fields is made on 64 bits, the assignment keeps the low 32. *)
Definition requestImageSize (camera_ : V4l2CameraDevice) (size : list Z)
  : M K (bool * V4l2CameraDevice) :=
  match size with
  | [size0; size1] =>
      let dataFormat := getCurrentDataFormat camera_ in
      (* Do not apply if camera already runs at given size *)
      if (width dataFormat =? size0) && (height dataFormat =? size1)
      then ret (true, camera_) else
      let dataFormat :=
        {| width := u32 size0; height := u32 size1;
           pixelFormat := pixelFormat dataFormat;
           bytesPerLine := bytesPerLine dataFormat;
           imageByteSize := imageByteSize dataFormat |} in
      requestDataFormat camera_ dataFormat
  | _ => ret (false, camera_)
  end.

End Methods.

(** ** Reading a trace *)

(** The mappings of the process after a trace: a successful [mmap] adds the
    region it returned, a successful [munmap] of a region removes it. *)
Definition same_region (addr len : Z) (r : Z * Z) : bool :=
  (fst r =? addr) && (snd r =? len).

Definition step_mappings (m : list (Z * Z)) (e : event) : list (Z * Z) :=
  match e with
  | EvMmap _ len _ ret => if MAP_FAILED =? ret then m else m ++ [(ret, len)]
  | EvMunmap addr len ret =>
      if ret =? 0 then List.filter (fun r => negb (same_region addr len r)) m else m
  | _ => m
  end.

Definition live_mappings (tr : list event) : list (Z * Z) :=
  fold_left step_mappings tr [].

Definition is_munmap (e : event) : bool :=
  match e with EvMunmap _ _ _ => true | _ => false end.

Definition is_S_FMT (e : event) : bool :=
  match e with EvIoctl _ (VIDIOC_S_FMT _) _ => true | _ => false end.

Definition is_S_CTRL (e : event) : bool :=
  match e with EvIoctl _ (VIDIOC_S_CTRL _) _ => true | _ => false end.

Definition count_S_FMT (tr : list event) : nat :=
  length (List.filter is_S_FMT tr).

(** [e] is the [munmap] of the mapping of buffer [b]. *)
Definition munmap_of (b : Buffer) (e : event) : Prop :=
  exists r : Z, e = EvMunmap (buf_start b) (buf_length b) r.

(** The zero-count request [stop] frees the kernel's buffers with. *)
Definition free_request : v4l2_requestbuffers :=
  {| rb_count := 0; rb_type := V4L2_BUF_TYPE_VIDEO_CAPTURE;
     rb_memory := V4L2_MEMORY_MMAP |}.

(** Some [mmap] of the list returned [MAP_FAILED]. *)
Definition mmap_failed_in (evs : list event) : bool :=
  existsb (fun e => match e with
                    | EvMmap _ _ _ ret => MAP_FAILED =? ret
                    | _ => false
                    end) evs.

Definition is_ioctl (e : event) : bool :=
  match e with EvIoctl _ _ _ => true | _ => false end.

(** The system calls of a trace (reads of memory and log lines dropped). *)
Definition is_call (e : event) : bool :=
  match e with EvRead _ _ | EvLogError _ => false | _ => true end.

(** ** A simulated driver

    A small deterministic V4L2 driver, configurable enough to put the
    methods in each of the situations the properties below speak of. *)
Module Sim.

Record state := {
  open_ret : Z;                  (* what open(2) returns *)
  querycap_ret : Z;              (* what VIDIOC_QUERYCAP returns *)
  active : v4l2_pix_format;      (* the format the device runs at *)
  adjust : v4l2_pix_format -> v4l2_pix_format;
                                 (* what the driver makes of a requested format *)
  s_fmt_ret : Z;                 (* what VIDIOC_S_FMT returns *)
  formats : list v4l2_fmtdesc;
  controls : list v4l2_queryctrl; (* ascending id *)
  grant : Z;                     (* the most buffers VIDIOC_REQBUFS grants *)
  buf_len : Z;                   (* length of every buffer *)
  base : Z;                      (* address the first buffer is mapped at *)
  mmap_left : nat;               (* how many more mmap calls succeed *)
  streamoff_ret : Z;             (* what VIDIOC_STREAMOFF returns *)
  queue : list Z;                (* indices of the filled buffers, oldest first *)
  generation : Z                 (* bumped whenever the device is handed a buffer *)
}.

Definition byte_of (z : Z) : Byte.byte :=
  match Byte.of_N (Z.to_N (z mod 256)) with Some b => b | None => Byte.x00 end.

Definition with_active (k : state) (p : v4l2_pix_format) : state :=
  {| open_ret := open_ret k; querycap_ret := querycap_ret k; active := p;
     adjust := adjust k; s_fmt_ret := s_fmt_ret k; formats := formats k;
     controls := controls k; grant := grant k; buf_len := buf_len k;
     base := base k; mmap_left := mmap_left k; streamoff_ret := streamoff_ret k;
     queue := queue k; generation := generation k |}.

Definition with_mmap_left (k : state) (n : nat) : state :=
  {| open_ret := open_ret k; querycap_ret := querycap_ret k; active := active k;
     adjust := adjust k; s_fmt_ret := s_fmt_ret k; formats := formats k;
     controls := controls k; grant := grant k; buf_len := buf_len k;
     base := base k; mmap_left := n; streamoff_ret := streamoff_ret k;
     queue := queue k; generation := generation k |}.

Definition with_queue (k : state) (q : list Z) (g : Z) : state :=
  {| open_ret := open_ret k; querycap_ret := querycap_ret k; active := active k;
     adjust := adjust k; s_fmt_ret := s_fmt_ret k; formats := formats k;
     controls := controls k; grant := grant k; buf_len := buf_len k;
     base := base k; mmap_left := mmap_left k; streamoff_ret := streamoff_ret k;
     queue := q; generation := g |}.

(** [VIDIOC_QUERYCTRL]: with [V4L2_CTRL_FLAG_NEXT_CTRL] the first control of
    a higher id, without it the control of exactly that id. *)
Definition queryctrl (fd : Z) (q : v4l2_queryctrl) (k : state)
  : Z * v4l2_queryctrl * state :=
  let id := Z.land (qc_id q) 0x0fffffff in
  let next := negb (Z.land (qc_id q) V4L2_CTRL_FLAG_NEXT_CTRL =? 0) in
  match find (fun c => if next then id <? qc_id c else qc_id c =? id) (controls k) with
  | Some c => (0, c, k)
  | None => (-1, q, k)
  end.

(** [VIDIOC_S_CTRL]: accepted when the control exists and the value lies
    within its range. *)
Definition s_ctrl (fd : Z) (c : v4l2_control) (k : state) : Z * v4l2_control * state :=
  match find (fun q => qc_id q =? vc_id c) (controls k) with
  | Some q =>
      if (qc_minimum q <=? vc_value c) && (vc_value c <=? qc_maximum q)
      then (0, c, k) else (-1, c, k)
  | None => (-1, c, k)
  end.

Definition g_ctrl (fd : Z) (c : v4l2_control) (k : state) : Z * v4l2_control * state :=
  match find (fun q => qc_id q =? vc_id c) (controls k) with
  | Some q => (0, {| vc_id := vc_id c; vc_value := qc_default_value q |}, k)
  | None => (-1, c, k)
  end.

Definition enum_fmt (fd : Z) (d : v4l2_fmtdesc) (k : state) : Z * v4l2_fmtdesc * state :=
  match formats k !! Z.to_nat (fd_index d) with
  | Some d' => (0, d', k)
  | None => (-1, d, k)
  end.

Definition s_fmt (fd : Z) (f : v4l2_format) (k : state) : Z * v4l2_format * state :=
  if s_fmt_ret k =? 0 then
    let p := adjust k (fmt_pix f) in
    (0, {| fmt_type := fmt_type f; fmt_pix := p |}, with_active k p)
  else (s_fmt_ret k, f, k).

Definition reqbufs (fd : Z) (r : v4l2_requestbuffers) (k : state)
  : Z * v4l2_requestbuffers * state :=
  (0, {| rb_count := Z.min (rb_count r) (grant k); rb_type := rb_type r;
         rb_memory := rb_memory r |}, k).

Definition querybuf (fd : Z) (b : v4l2_buffer) (k : state) : Z * v4l2_buffer * state :=
  (0, {| vb_index := vb_index b; vb_type := vb_type b; vb_memory := vb_memory b;
         vb_length := buf_len k; vb_offset := vb_index b * buf_len k |}, k).

Definition mmap (fd len off : Z) (k : state) : Z * state :=
  match mmap_left k with
  | O => (MAP_FAILED, k)
  | S n => (base k + off, with_mmap_left k n)
  end.

(** Handing a buffer to the device lets the device write into it. *)
Definition qbuf (fd : Z) (b : v4l2_buffer) (k : state) : Z * v4l2_buffer * state :=
  (0, b, with_queue k (queue k ++ [vb_index b]) (generation k + 1)).

Definition dqbuf (fd : Z) (b : v4l2_buffer) (k : state) : Z * v4l2_buffer * state :=
  match queue k with
  | [] => (-1, b, k)
  | i :: q =>
      (0, {| vb_index := i; vb_type := vb_type b; vb_memory := vb_memory b;
             vb_length := buf_len k; vb_offset := i * buf_len k |},
       with_queue k q (generation k))
  end.

Definition driver : Driver state :=
  {| drv_open := fun _ k => (open_ret k, k);
     drv_mmap := mmap;
     drv_munmap := fun _ _ k => (0, k);
     shared_mem := fun k _ => byte_of (generation k);
     drv_querycap := fun _ c k => (querycap_ret k, c, k);
     drv_g_fmt := fun _ f k =>
       (0, {| fmt_type := fmt_type f; fmt_pix := active k |}, k);
     drv_s_fmt := s_fmt;
     drv_enum_fmt := enum_fmt;
     drv_queryctrl := queryctrl;
     drv_querymenu := fun _ m k => (-1, m, k);
     drv_g_ctrl := g_ctrl;
     drv_s_ctrl := s_ctrl;
     drv_reqbufs := reqbufs;
     drv_querybuf := querybuf;
     drv_qbuf := qbuf;
     drv_dqbuf := dqbuf;
     drv_streamon := fun _ _ k => (0, k);
     drv_streamoff := fun _ _ k => (streamoff_ret k, k) |}.

Definition yuyv_8x4 : v4l2_pix_format :=
  {| pix_width := 8; pix_height := 4; pix_pixelformat := V4L2_PIX_FMT_YUYV;
     pix_bytesperline := 16; pix_sizeimage := 64 |}.

Definition brightness : v4l2_queryctrl :=
  {| qc_id := 0x00980900; qc_type := 1; qc_name := "Brightness";
     qc_minimum := 0; qc_maximum := 255; qc_default_value := 128; qc_flags := 0 |}.

Definition contrast : v4l2_queryctrl :=
  {| qc_id := 0x00980901; qc_type := 1; qc_name := "Contrast";
     qc_minimum := 0; qc_maximum := 100; qc_default_value := 50; qc_flags := 0 |}.

(** A control the device reports with [V4L2_CTRL_FLAG_DISABLED]. *)
Definition hue_disabled : v4l2_queryctrl :=
  {| qc_id := 0x00980903; qc_type := 1; qc_name := "Hue";
     qc_minimum := 0; qc_maximum := 10; qc_default_value := 0;
     qc_flags := V4L2_CTRL_FLAG_DISABLED |}.

Definition as_requested (p : v4l2_pix_format) : v4l2_pix_format :=
  {| pix_width := pix_width p; pix_height := pix_height p;
     pix_pixelformat := pix_pixelformat p;
     pix_bytesperline := 2 * pix_width p;
     pix_sizeimage := 2 * pix_width p * pix_height p |}.

Definition make (querycap : Z) (adj : v4l2_pix_format -> v4l2_pix_format)
    (ctrls : list v4l2_queryctrl) (mmaps : nat) (streamoff : Z) : state :=
  {| open_ret := 3; querycap_ret := querycap; active := yuyv_8x4;
     adjust := adj; s_fmt_ret := 0;
     formats := [ {| fd_index := 0; fd_type := 1; fd_description := "YUYV 4:2:2";
                     fd_pixelformat := V4L2_PIX_FMT_YUYV |} ];
     controls := ctrls;
     grant := 4; buf_len := 64; base := 0x7f0000000000; mmap_left := mmaps;
     streamoff_ret := streamoff; queue := []; generation := 0 |}.

(** A well-behaved camera: opens as descriptor 3, runs YUYV 8x4 (small
    frames keep evaluation cheap), takes every format as requested, grants
    four buffers of a full frame each. *)
Definition camera : state := make 0 as_requested [brightness; contrast] 4 0.

(** The same camera with one thing going wrong. *)
Definition camera_querycap_fails : state :=
  make (-1) as_requested [brightness; contrast] 4 0.
Definition camera_substituting : state :=
  make 0 (fun _ => yuyv_8x4) [brightness; contrast] 4 0.
Definition camera_with_disabled : state :=
  make 0 as_requested [brightness; contrast; hue_disabled] 4 0.
Definition camera_third_mmap_fails : state :=
  make 0 as_requested [brightness; contrast] 2 0.
Definition camera_streamoff_fails : state :=
  make 0 as_requested [brightness; contrast] 4 (-1).
(** The camera once it answers no control query any more. *)
Definition camera_controls_gone : state :=
  make 0 as_requested [] 4 0.

Definition boot (k : state) : world state := World k [].

(** The format a caller asks for in the examples: YUYV 640x480. *)
Definition vga : PixelFormat :=
  {| width := 640; height := 480; pixelFormat := V4L2_PIX_FMT_YUYV;
     bytesPerLine := 0; imageByteSize := 0 |}.

(** The frame the first [capture] returns on [camera]: every byte shows
    the generation the shared memory is in when it is copied. *)
Definition first_frame : Image :=
  frame_of (PixelFormat_of yuyv_8x4) (replicate 64 (byte_of 5)).

Definition device0 : V4l2CameraDevice := new_device "/dev/video0".

(** The object and the world once [open] has returned, and once [start]
    has returned after it. *)
Definition opened (k : state) : V4l2CameraDevice * world state :=
  match open driver 8 device0 (boot k) with
  | (Some (_, d), w) => (d, w)
  | (None, w) => (device0, w)
  end.

Definition started (k : state) : V4l2CameraDevice * world state :=
  let '(_, d, w) := start driver (fst (opened k)) (snd (opened k)) in (d, w).

End Sim.


(** ** What the device answers

    The answers of the driver that the statements below refer to, named
    after the call of the method they belong to. *)
Section Answers.
Context {K : Type} (drv : Driver K).


(** The answer to the settability query of [setControlValue]: return
    value, structure, next kernel state. *)
Definition settable_answer (self : V4l2CameraDevice) (id : Z) (w : world K)
  : Z * v4l2_queryctrl * K :=
  drv_queryctrl drv (fd_ self) (set_qc_id zero_queryctrl id) (kern w).

(** The answers to the dequeue and to the requeue of [capture]. *)
Definition dequeue_answer (self : V4l2CameraDevice) (w : world K)
  : Z * v4l2_buffer * K :=
  drv_dqbuf drv (fd_ self) (capture_buffer 0) (kern w).

Definition requeue_answer (self : V4l2CameraDevice) (w : world K)
  : Z * v4l2_buffer * K :=
  let '(_, buf, k) := dequeue_answer self w in drv_qbuf drv (fd_ self) buf k.

(** What [open] does between the [open(2)] call and the two enumerations:
    the capability query and the query of the current format, neither
    return value looked at. *)
Definition open_probe (self : V4l2CameraDevice) : M K V4l2CameraDevice :=
  do '(_, cap) <- ioctl_QUERYCAP drv (fd_ self) (capabilities_ self) ;;
  let self := set_capabilities self cap in
  let formatReq := {| fmt_type := V4L2_BUF_TYPE_VIDEO_CAPTURE; fmt_pix := zero_pix |} in
  do '(_, formatReq) <- ioctl_G_FMT drv (fd_ self) formatReq ;;
  ret (set_cur_data_format self (PixelFormat_of (fmt_pix formatReq))).

(** The answer of [open(2)], and the world right after it. *)
Definition open_answer (self : V4l2CameraDevice) (w : world K) : Z :=
  fst (drv_open drv (device_ self) (kern w)).

Definition world_after_open (self : V4l2CameraDevice) (w : world K) : world K :=
  World (snd (drv_open drv (device_ self) (kern w)))
        (trace w ++ [EvOpen (device_ self) (open_answer self w)]).

(** The answer to the stream-disable request of [stop]. *)
Definition streamoff_answer (self : V4l2CameraDevice) (w : world K) : Z :=
  fst (drv_streamoff drv (fd_ self) V4L2_BUF_TYPE_VIDEO_CAPTURE (kern w)).

End Answers.

(** ** More of what the device answers, and more ways to read a trace *)

(** The region of memory a buffer stands for. *)
Definition region (b : Buffer) : Z * Z := (buf_start b, buf_length b).


(** The request [initMemoryMapping] asks four buffers with. *)
Definition alloc_request : v4l2_requestbuffers :=
  {| rb_count := 4; rb_type := V4L2_BUF_TYPE_VIDEO_CAPTURE;
     rb_memory := V4L2_MEMORY_MMAP |}.

(** [e] is the successful queueing of buffer [b] on descriptor [fd]. *)
Definition queued_ok (fd : Z) (b : Buffer) (e : event) : Prop :=
  exists r : Z,
    IOCTL_FAILED r = false /\
    e = EvIoctl fd (VIDIOC_QBUF (capture_buffer (buf_index b))) r.

Definition is_STREAMON (e : event) : bool :=
  match e with EvIoctl _ (VIDIOC_STREAMON _) _ => true | _ => false end.

Definition is_read (e : event) : bool :=
  match e with EvRead _ _ => true | _ => false end.

(** A call of the trace that failed: an [ioctl] that returned -1 or an
    [mmap] that returned [MAP_FAILED]. *)
Definition call_failed (e : event) : bool :=
  match e with
  | EvIoctl _ _ r => IOCTL_FAILED r
  | EvMmap _ _ _ a => MAP_FAILED =? a
  | _ => false
  end.

Section MoreAnswers.
Context {K : Type} (drv : Driver K).

(** The answer to the buffer request of [initMemoryMapping]. *)
Definition reqbufs_answer (self : V4l2CameraDevice) (w : world K)
  : Z * v4l2_requestbuffers * K :=
  drv_reqbufs drv (fd_ self) alloc_request (kern w).

(** How many buffers the device granted. *)
Definition granted (self : V4l2CameraDevice) (w : world K) : Z :=
  rb_count (snd (fst (reqbufs_answer self w))).

End MoreAnswers.

Definition is_QBUF (e : event) : bool :=
  match e with EvIoctl _ (VIDIOC_QBUF _) _ => true | _ => false end.

(** The events [initMemoryMapping] can issue. *)
Definition is_alloc_event (e : event) : bool :=
  match e with
  | EvIoctl _ (VIDIOC_REQBUFS _) _ | EvIoctl _ (VIDIOC_QUERYBUF _) _
  | EvMmap _ _ _ _ => true
  | _ => false
  end.

(** More situations for the simulated camera. *)
Module Bench.

Definition with_grant (k : Sim.state) (g : Z) : Sim.state :=
  {| Sim.open_ret := Sim.open_ret k; Sim.querycap_ret := Sim.querycap_ret k;
     Sim.active := Sim.active k; Sim.adjust := Sim.adjust k;
     Sim.s_fmt_ret := Sim.s_fmt_ret k; Sim.formats := Sim.formats k;
     Sim.controls := Sim.controls k; Sim.grant := g; Sim.buf_len := Sim.buf_len k;
     Sim.base := Sim.base k; Sim.mmap_left := Sim.mmap_left k;
     Sim.streamoff_ret := Sim.streamoff_ret k; Sim.queue := Sim.queue k;
     Sim.generation := Sim.generation k |}.

Definition with_s_fmt_ret (k : Sim.state) (r : Z) : Sim.state :=
  {| Sim.open_ret := Sim.open_ret k; Sim.querycap_ret := Sim.querycap_ret k;
     Sim.active := Sim.active k; Sim.adjust := Sim.adjust k;
     Sim.s_fmt_ret := r; Sim.formats := Sim.formats k;
     Sim.controls := Sim.controls k; Sim.grant := Sim.grant k;
     Sim.buf_len := Sim.buf_len k;
     Sim.base := Sim.base k; Sim.mmap_left := Sim.mmap_left k;
     Sim.streamoff_ret := Sim.streamoff_ret k; Sim.queue := Sim.queue k;
     Sim.generation := Sim.generation k |}.

(** The device grants a single buffer. *)
Definition camera_one_buffer : Sim.state := with_grant Sim.camera 1.

(** The device refuses every format request. *)
Definition camera_rejecting_formats : Sim.state := with_s_fmt_ret Sim.camera (-1).


End Bench.

(** ** Devices that answer from a table *)

Section Tables.
Context {K : Type} (drv : Driver K).

(** In state [k] the device enumerates the formats [fs]: the query for an
    index within the table succeeds with that entry, the index left as it
    was asked; any other query fails; the state stays [k]. *)
Definition enumerates_formats (fd : Z) (k : K) (fs : list ImageFormat) : Prop :=
  forall d : v4l2_fmtdesc,
    0 <= fd_index d ->
    match fs !! Z.to_nat (fd_index d) with
    | Some f =>
        exists d' : v4l2_fmtdesc,
          drv_enum_fmt drv fd d k = (0, d', k) /\
          fd_index d' = fd_index d /\ ImageFormat_of d' = f
    | None =>
        exists (r : Z) (d' : v4l2_fmtdesc),
          drv_enum_fmt drv fd d k = (r, d', k) /\ IOCTL_FAILED r = true
    end.

End Tables.

(** The rule of [VIDIOC_QUERYCTRL] on a table of controls: with
    [V4L2_CTRL_FLAG_NEXT_CTRL] in the id the first control of a higher id,
    without it the control of exactly that id. *)
Definition v4l2_find_control (cs : list v4l2_queryctrl) (id : Z)
  : option v4l2_queryctrl :=
  let masked := Z.land id 0x0fffffff in
  let next := negb (Z.land id V4L2_CTRL_FLAG_NEXT_CTRL =? 0) in
  find (fun c => if next then masked <? qc_id c else qc_id c =? masked) cs.

(** The ids of [cs] go up strictly, starting above [prev], and stay within
    the 28 bits of a control id. *)
Fixpoint ascending (prev : Z) (cs : list v4l2_queryctrl) : Prop :=
  match cs with
  | [] => True
  | c :: cs => prev < qc_id c /\ qc_id c < 2 ^ 28 /\ ascending (qc_id c) cs
  end.

(** A control that is enabled and not a menu. *)
Definition plain_control (c : v4l2_queryctrl) : Prop :=
  Z.land (qc_flags c) V4L2_CTRL_FLAG_DISABLED = 0 /\
  qc_type c <> V4L2_CTRL_TYPE_MENU.

Section ControlTables.
Context {K : Type} (drv : Driver K).

(** In state [k] the device answers control queries from the table [cs],
    and stays in [k]. *)
Definition answers_controls (fd : Z) (k : K) (cs : list v4l2_queryctrl) : Prop :=
  forall q : v4l2_queryctrl,
    match v4l2_find_control cs (qc_id q) with
    | Some c => drv_queryctrl drv fd q k = (0, c, k)
    | None =>
        exists (r : Z) (q' : v4l2_queryctrl),
          drv_queryctrl drv fd q k = (r, q', k) /\ IOCTL_FAILED r = true
    end.

(** In state [k] the device labels the items of menu [id] by [label]: the
    query for an index with a label succeeds with it, any other fails; the
    id of the structure and the state stay as they are. *)
Definition labels_menu (fd : Z) (k : K) (id : Z) (label : Z -> option string) : Prop :=
  forall m : v4l2_querymenu,
    qm_id m = id ->
    match label (qm_index m) with
    | Some s =>
        exists m' : v4l2_querymenu,
          drv_querymenu drv fd m k = (0, m', k) /\ qm_name m' = s /\ qm_id m' = id
    | None =>
        exists (r : Z) (m' : v4l2_querymenu),
          drv_querymenu drv fd m k = (r, m', k) /\ IOCTL_FAILED r = true /\
          qm_id m' = id
    end.

End ControlTables.

(** A camera whose driver labels the items 0 and 2 of every menu and has
    no label for the others. *)
Module MenuBench.

Definition label (index : Z) : option string :=
  if index =? 0 then Some "Off" else if index =? 2 then Some "Auto" else None.

Definition querymenu (fd : Z) (m : v4l2_querymenu) (k : Sim.state)
  : Z * v4l2_querymenu * Sim.state :=
  match label (qm_index m) with
  | Some s => (0, {| qm_id := qm_id m; qm_index := qm_index m; qm_name := s |}, k)
  | None => (-1, m, k)
  end.

Definition driver : Driver Sim.state :=
  {| drv_open := drv_open Sim.driver;
     drv_mmap := drv_mmap Sim.driver;
     drv_munmap := drv_munmap Sim.driver;
     shared_mem := shared_mem Sim.driver;
     drv_querycap := drv_querycap Sim.driver;
     drv_g_fmt := drv_g_fmt Sim.driver;
     drv_s_fmt := drv_s_fmt Sim.driver;
     drv_enum_fmt := drv_enum_fmt Sim.driver;
     drv_queryctrl := drv_queryctrl Sim.driver;
     drv_querymenu := querymenu;
     drv_g_ctrl := drv_g_ctrl Sim.driver;
     drv_s_ctrl := drv_s_ctrl Sim.driver;
     drv_reqbufs := drv_reqbufs Sim.driver;
     drv_querybuf := drv_querybuf Sim.driver;
     drv_qbuf := drv_qbuf Sim.driver;
     drv_dqbuf := drv_dqbuf Sim.driver;
     drv_streamon := drv_streamon Sim.driver;
     drv_streamoff := drv_streamoff Sim.driver |}.

End MenuBench.

(** ** Names

    [getCameraName] of the device and the lambda [toParamName] of the node's
    [createParameters]. *)

(** [::tolower] in the "C" locale: the capital letters move to the small
    ones, every other character stays. *)
Definition is_upper (c : ascii) : bool :=
  let n := N_of_ascii c in ((65 <=? n) && (n <=? 90))%N.

Definition tolower (c : ascii) : ascii :=
  if is_upper c then ascii_of_N (N_of_ascii c + 32) else c.

(** [std::transform(s.begin(), s.end(), s.begin(), f)] *)
Fixpoint string_transform (f : ascii -> ascii) (s : string) : string :=
  match s with
  | EmptyString => EmptyString
  | String c s => String (f c) (string_transform f s)
  end.

(** [std::replace(s.begin(), s.end(), old, new)] *)
Fixpoint string_replace (old new : ascii) (s : string) : string :=
  match s with
  | EmptyString => EmptyString
  | String c s =>
      String (if Ascii.eqb c old then new else c) (string_replace old new s)
  end.

(** [s.erase(std::remove(s.begin(), s.end(), c), s.end())] *)
Fixpoint string_remove (c : ascii) (s : string) : string :=
  match s with
  | EmptyString => EmptyString
  | String c' s =>
      if Ascii.eqb c' c then string_remove c s else String c' (string_remove c s)
  end.

(** [V4l2CameraDevice::getCameraName]; the card name is the string up to
    the terminating zero of [capabilities_.card]. *)
Definition getCameraName (self : V4l2CameraDevice) : string :=
  let name := cap_card (capabilities_ self) in
  let name := string_transform tolower name in
  string_replace " " "_" name.

(** The lambda [toParamName] of [V4L2Camera::createParameters]. *)
Definition toParamName (name : string) : string :=
  let name := string_transform tolower name in
  let name := string_remove "," name in
  let name := string_remove "(" name in
  let name := string_remove ")" name in
  string_replace " " "_" name.

(** A character that [toParamName] lets through unchanged. *)
Definition param_char (c : ascii) : bool :=
  negb (is_upper c) && negb (Ascii.eqb c " ") && negb (Ascii.eqb c ",")
  && negb (Ascii.eqb c "(") && negb (Ascii.eqb c ")").

(** A character that [getCameraName] lets through unchanged. *)
Definition name_char (c : ascii) : bool :=
  negb (is_upper c) && negb (Ascii.eqb c " ").

Definition all_chars (p : ascii -> bool) (s : string) : bool :=
  forallb p (list_ascii_of_string s).

(** The format request that carries a pixel format code and a size, the
    other fields zero. *)
Definition format_request (code w h : Z) : v4l2_format :=
  {| fmt_type := V4L2_BUF_TYPE_VIDEO_CAPTURE;
     fmt_pix := {| pix_width := w; pix_height := h; pix_pixelformat := code;
                   pix_bytesperline := 0; pix_sizeimage := 0 |} |}.

(** ** The node, [V4L2Camera]: parameters

    The parameter interface of rclcpp is outside the program.  A parameter
    is a name with a typed value; the accessor for one type throws on a
    value of another.  Declaring a parameter is a call to the parameter
    server, which answers with the value to use (the override, or the
    default it was given) or throws. *)

(** [V4L2_CTRL_TYPE_INTEGER] and [V4L2_CTRL_TYPE_BOOLEAN]; [ControlType] is
    declared in a header that is not part of the sources, and the casts of
    [listControls] show that its enumerators are the kernel's type codes. *)
Definition V4L2_CTRL_TYPE_INTEGER : Z := 1.
Definition V4L2_CTRL_TYPE_BOOLEAN : Z := 2.

Inductive ParameterValue :=
| PARAMETER_NOT_SET
| PARAMETER_BOOL (b : bool)
| PARAMETER_INTEGER (i : Z)
| PARAMETER_DOUBLE
| PARAMETER_STRING (s : string)
| PARAMETER_BYTE_ARRAY
| PARAMETER_BOOL_ARRAY
| PARAMETER_INTEGER_ARRAY (a : list Z)
| PARAMETER_DOUBLE_ARRAY
| PARAMETER_STRING_ARRAY.

(** [rclcpp::Parameter] ([Parameter] is a word of Rocq). *)
Record RclParameter := {
  get_name : string;
  get_value : ParameterValue
}.

(** How a method of the node ends: it returns, it throws, or it runs into
    undefined behaviour. *)
Inductive ending (A : Type) :=
| Finished (a : A)
| Threw (what : string)
| Broke (why : string).
Arguments Finished {A}.
Arguments Threw {A}.
Arguments Broke {A}.

(** The data members of [V4L2Camera] that the parameter handling uses. *)
Record V4L2Camera := {
  camera_ : V4l2CameraDevice;
  output_encoding_ : string;
  control_name_to_id_ : gmap string Z
}.

Definition set_camera (n : V4L2Camera) (c : V4l2CameraDevice) : V4L2Camera :=
  {| camera_ := c; output_encoding_ := output_encoding_ n;
     control_name_to_id_ := control_name_to_id_ n |}.
Definition set_output_encoding (n : V4L2Camera) (e : string) : V4L2Camera :=
  {| camera_ := camera_ n; output_encoding_ := e;
     control_name_to_id_ := control_name_to_id_ n |}.
Definition set_control_id (n : V4L2Camera) (name : string) (id : Z) : V4L2Camera :=
  {| camera_ := camera_ n; output_encoding_ := output_encoding_ n;
     control_name_to_id_ := <[name := id]> (control_name_to_id_ n) |}.

(** The parameter server, with a state of its own: [declare_parameter] for
    an integer and for a boolean, [None] when it throws. *)
Record ParameterServer (P : Type) := {
  declare_integer : string -> Z -> P -> option Z * P;
  declare_bool : string -> bool -> P -> option bool * P
}.
Arguments declare_integer {P}.
Arguments declare_bool {P}.

(** [camera_info_manager::CameraInfoManager], the two calls the node makes. *)
Record CameraInfoManager := {
  validateURL : string -> bool;
  loadCameraInfo : string -> bool
}.

Section Node.
Context {K P : Type} (drv : Driver K) (server : ParameterServer P)
        (cinfo_ : CameraInfoManager).

(** What [setControlValue] gives the caller that passes it on. *)
Definition passed_on (out : outcome bool) : ending bool :=
  match out with
  | Returned b => Finished b
  | Undefined why => Broke why
  end.

(** The loop over the controls in [createParameters]: an integer, a
    boolean or a menu control becomes a parameter whose default is the
    control's current value, the value declared goes to the device, and the
    parameter name is registered for the control's id; a control of another
    type is skipped.  An [int64_t] value passed to [setControlValue] keeps
    its low 32 bits. *)
Fixpoint createParameters_controls (controls : list Control) (self : V4L2Camera) (p : P)
  : M K (ending unit * V4L2Camera * P) :=
  match controls with
  | [] => ret (Finished tt, self, p)
  | c :: controls =>
      let name := toParamName (ctl_name c) in
      if (ctl_type c =? V4L2_CTRL_TYPE_INTEGER) || (ctl_type c =? V4L2_CTRL_TYPE_MENU)
      then
        do current <- getControlValue drv (camera_ self) (ctl_id c) ;;
        match declare_integer server name current p with
        | (None, p) => ret (Threw "declare_parameter", self, p)
        | (Some value, p) =>
            do out <- setControlValue drv (camera_ self) (ctl_id c) (s32 value) ;;
            match out with
            | Undefined why => ret (Broke why, self, p)
            | Returned _ =>
                createParameters_controls controls (set_control_id self name (ctl_id c)) p
            end
        end
      else if ctl_type c =? V4L2_CTRL_TYPE_BOOLEAN then
        do current <- getControlValue drv (camera_ self) (ctl_id c) ;;
        match declare_bool server name (negb (current =? 0)) p with
        | (None, p) => ret (Threw "declare_parameter", self, p)
        | (Some value, p) =>
            do out <- setControlValue drv (camera_ self) (ctl_id c)
                        (if value then 1 else 0) ;;
            match out with
            | Undefined why => ret (Broke why, self, p)
            | Returned _ =>
                createParameters_controls controls (set_control_id self name (ctl_id c)) p
            end
        end
      else createParameters_controls controls self p
  end.

(** [V4L2Camera::handleParameter] *)
Definition handleParameter (self : V4L2Camera) (param : RclParameter)
  : M K (ending bool * V4L2Camera) :=
  let name := get_name param in
  match control_name_to_id_ self !! name with
  | Some id =>
      match get_value param with
      | PARAMETER_BOOL b =>
          do out <- setControlValue drv (camera_ self) id (if b then 1 else 0) ;;
          ret (passed_on out, self)
      | PARAMETER_INTEGER i =>
          do out <- setControlValue drv (camera_ self) id (s32 i) ;;
          ret (passed_on out, self)
      | _ => ret (Finished false, self)
      end
  | None =>
      if String.eqb name "output_encoding" then
        match get_value param with
        | PARAMETER_STRING s => ret (Finished true, set_output_encoding self s)
        | _ => ret (Threw "as_string", self)
        end
      else if String.eqb name "size" then
        do '(_, camera) <- stop drv (camera_ self) ;;
        match get_value param with
        | PARAMETER_INTEGER_ARRAY size =>
            do '(success, camera) <- requestImageSize drv camera size ;;
            do '(_, camera) <- start drv camera ;;
            ret (Finished success, set_camera self camera)
        | _ => ret (Threw "as_integer_array", set_camera self camera)
        end
      else if String.eqb name "camera_info_url" then
        match get_value param with
        | PARAMETER_STRING camera_info_url =>
            if validateURL cinfo_ camera_info_url
            then ret (Finished (loadCameraInfo cinfo_ camera_info_url), self)
            else ret (Finished false, self)
        | _ => ret (Threw "as_string", self)
        end
      else ret (Finished false, self)
  end.

(** The callback [createParameters] registers: every parameter of the
    batch is handled, [result.successful &= handleParameter(p)]. *)
Fixpoint on_parameters_set (parameters : list RclParameter) (successful : bool)
    (self : V4L2Camera) : M K (ending bool * V4L2Camera) :=
  match parameters with
  | [] => ret (Finished successful, self)
  | p :: parameters =>
      do '(e, self) <- handleParameter self p ;;
      match e with
      | Finished b => on_parameters_set parameters (successful && b) self
      | Threw what => ret (Threw what, self)
      | Broke why => ret (Broke why, self)
      end
  end.

(** Every id the registry holds is the id of a listed control. *)
Definition registry_listed (self : V4L2Camera) : Prop :=
  forall (name : string) (id : Z),
    control_name_to_id_ self !! name = Some id ->
    In id (map ctl_id (controls_ (camera_ self))).

End Node.

(** A control [createParameters] makes a parameter of. *)
Definition supported_control (c : Control) : bool :=
  (ctl_type c =? V4L2_CTRL_TYPE_INTEGER) || (ctl_type c =? V4L2_CTRL_TYPE_MENU)
  || (ctl_type c =? V4L2_CTRL_TYPE_BOOLEAN).

(** The last control of the list that is supported and whose parameter name
    is [name]. *)
Definition last_named (controls : list Control) (name : string) : option Control :=
  find (fun c => supported_control c && String.eqb (toParamName (ctl_name c)) name)
       (rev controls).

(** A parameter server that knows no overrides: it answers every
    declaration with the default. *)
Definition defaults_server : ParameterServer unit :=
  {| declare_integer := fun _ v p => (Some v, p);
     declare_bool := fun _ b p => (Some b, p) |}.

(** A camera info manager that accepts no URL. *)
Definition no_cinfo : CameraInfoManager :=
  {| validateURL := fun _ => false; loadCameraInfo := fun _ => false |}.

(** The node right after construction around an opened device. *)
Definition new_node (camera : V4l2CameraDevice) : V4L2Camera :=
  {| camera_ := camera; output_encoding_ := "rgb8"; control_name_to_id_ := ∅ |}.

(** Every live mapping of the trace is the region of a buffer of the list. *)
Definition pool_recorded {K : Type} (camera : V4l2CameraDevice) (w : world K) : Prop :=
  forall x : Z * Z,
    In x (live_mappings (trace w)) ->
    exists b : Buffer, In b (buffers_ camera) /\ region b = x.

(** The node around the opened simulated camera.  [configured] is that
    node with its registry filled by the loop of [createParameters], run
    with no overrides while the device answers no control query (a control
    the device says can be set stops the loop); the device then answers
    again. *)
Module NodeBench.

Definition fresh : V4L2Camera := new_node (fst (Sim.opened Sim.camera)).

Definition unplugged : world Sim.state := Sim.boot Sim.camera_controls_gone.

Definition configured : V4L2Camera * world Sim.state :=
  let '(_, node, _, _) :=
    createParameters_controls Sim.driver defaults_server
      (controls_ (camera_ fresh)) fresh tt unplugged in
  (node, snd (Sim.opened Sim.camera)).

Definition brightness_300 : RclParameter :=
  {| get_name := "brightness"; get_value := PARAMETER_INTEGER 300 |}.
Definition contrast_60 : RclParameter :=
  {| get_name := "contrast"; get_value := PARAMETER_INTEGER 60 |}.
Definition size_16x8 : RclParameter :=
  {| get_name := "size"; get_value := PARAMETER_INTEGER_ARRAY [16; 8] |}.
Definition zoom_2 : RclParameter :=
  {| get_name := "zoom"; get_value := PARAMETER_INTEGER 2 |}.
Definition encoding_mono8 : RclParameter :=
  {| get_name := "output_encoding"; get_value := PARAMETER_STRING "mono8" |}.

End NodeBench.

(** A node around a camera that can be mapped twice over, once the camera
    has been started. *)
Module NodeRun.

Definition camera_eight_mmaps : Sim.state :=
  Sim.make 0 Sim.as_requested [Sim.brightness; Sim.contrast] 8 0.

Definition running : V4L2Camera * world Sim.state :=
  let fresh := new_node (fst (Sim.opened camera_eight_mmaps)) in
  let '(_, camera, w) :=
    start Sim.driver (camera_ fresh) (snd (Sim.opened camera_eight_mmaps)) in
  (set_camera fresh camera, w).

End NodeRun.

(** ** The capture thread *)

(** [sensor_msgs::msg::CameraInfo]: the stamp of its header, the two fields
    the node compares and, of the calibration, the distortion model. *)
Record CameraInfo := {
  ci_stamp : Z;
  ci_height : Z;
  ci_width : Z;
  ci_distortion_model : string
}.

(** [sensor_msgs::msg::CameraInfo{}] *)
Definition CameraInfo_default : CameraInfo :=
  {| ci_stamp := 0; ci_height := 0; ci_width := 0; ci_distortion_model := "" |}.

Definition set_ci_stamp (ci : CameraInfo) (stamp : Z) : CameraInfo :=
  {| ci_stamp := stamp; ci_height := ci_height ci; ci_width := ci_width ci;
     ci_distortion_model := ci_distortion_model ci |}.

(** [V4L2Camera::checkCameraInfo] *)
Definition checkCameraInfo (img : Image) (ci : CameraInfo) : bool :=
  (ci_width ci =? img_width img) && (ci_height ci =? img_height img).

(** What one turn of the capture loop hands to its publisher: the image
    with the stamp and the frame id of its header, and with the camera
    transport the camera info as well. *)
Inductive publication :=
| PublishedImage (img : Image) (stamp : Z) (frame_id : string)
| PublishedCamera (img : Image) (stamp : Z) (frame_id : string) (ci : CameraInfo).

Section CaptureThread.
Context {K : Type} (drv : Driver K).
(** [cv_bridge::cvtColor] behind [convert], [None] when it throws; the
    camera info of the manager; the option of the node; the frame id. *)
Context (cvtColor : Image -> string -> option Image)
        (getCameraInfo : CameraInfo)
        (use_intra_process_comms : bool)
        (camera_frame_id_ : string).

(** The body of the loop of the capture thread, [stamp] the answer of
    [now()]. *)
Definition capture_iteration (self : V4L2Camera) (stamp : Z) : M K (ending publication) :=
  do out <- capture drv (camera_ self) ;;
  match out with
  | Undefined why => ret (Broke why)
  | Returned None => ret (Broke "img->encoding with img the null pointer")
  | Returned (Some img) =>
      match (if negb (String.eqb (img_encoding img) (output_encoding_ self))
             then cvtColor img (output_encoding_ self) else Some img) with
      | None => ret (Threw "cvtColor")
      | Some img =>
          if use_intra_process_comms
          then ret (Finished (PublishedImage img stamp camera_frame_id_))
          else
            let ci := getCameraInfo in
            let ci := if negb (checkCameraInfo img ci)
                      then {| ci_stamp := ci_stamp CameraInfo_default;
                              ci_height := img_height img; ci_width := img_width img;
                              ci_distortion_model := ci_distortion_model CameraInfo_default |}
                      else ci in
            let ci := set_ci_stamp ci stamp in
            ret (Finished (PublishedCamera img stamp camera_frame_id_ ci))
      end
  end.

End CaptureThread.

(** A conversion that only relabels the image, and the camera info of a
    manager that was given no calibration. *)
Module ThreadBench.

Definition relabel (img : Image) (encoding : string) : option Image :=
  Some {| img_width := img_width img; img_height := img_height img;
          img_step := img_step img; img_encoding := encoding;
          img_data := img_data img |}.

Definition uncalibrated : CameraInfo := CameraInfo_default.

End ThreadBench.


(** ** Properties *)

(** Unfolds the monad and the system-call wrappers. *)
Ltac unfold_calls :=
  unfold sys_open, sys_mmap, sys_munmap, ioctl_QUERYCAP, ioctl_G_FMT, ioctl_S_FMT,
    ioctl_ENUM_FMT, ioctl_QUERYCTRL, ioctl_QUERYMENU, ioctl_G_CTRL, ioctl_S_CTRL,
    ioctl_REQBUFS, ioctl_QUERYBUF, ioctl_QBUF, ioctl_DQBUF, ioctl_STREAMON,
    ioctl_STREAMOFF, read_mem, emit, call0, call1, bind, ret in *.

Section Negotiation.
Context {K : Type} (drv : Driver K).

Lemma requestDataFormat_run (self : V4l2CameraDevice) (format : PixelFormat) (w : world K) :
  requestDataFormat drv self format w =
  let '(r, reply, k') := drv_s_fmt drv (fd_ self) (formatReq_of format) (kern w) in
  let w' := World k' (trace w ++ [EvIoctl (fd_ self) (VIDIOC_S_FMT (formatReq_of format)) r]) in
  if IOCTL_FAILED r then (false, self, w')
  else (true, set_cur_data_format self (PixelFormat_of (fmt_pix reply)), w').
Proof.
  unfold requestDataFormat. unfold_calls.
  destruct (drv_s_fmt drv (fd_ self) (formatReq_of format) (kern w)) as [[r reply] k'].
  destruct (IOCTL_FAILED r); reflexivity.
Qed.


End Negotiation.


Example requestDataFormat_substituted :
  let d := fst (Sim.opened Sim.camera_substituting) in
  let w := snd (Sim.opened Sim.camera_substituting) in
  cur_data_format_ (snd (fst (requestDataFormat Sim.driver d Sim.vga w)))
  = PixelFormat_of Sim.yuyv_8x4.
Proof. reflexivity. Qed.

Section Idempotence.
Context {K : Type} (drv : Driver K).

Lemma count_S_FMT_snoc (tr : list event) (e : event) :
  count_S_FMT (tr ++ [e]) = (count_S_FMT tr + (if is_S_FMT e then 1 else 0))%nat.
Proof.
  unfold count_S_FMT. rewrite List.filter_app, length_app. simpl.
  destruct (is_S_FMT e); reflexivity.
Qed.

Lemma requestDataFormat_one_request (self : V4l2CameraDevice) (format : PixelFormat)
    (w : world K) :
  count_S_FMT (trace (snd (requestDataFormat drv self format w)))
  = S (count_S_FMT (trace w)).
Proof.
  rewrite requestDataFormat_run.
  destruct (drv_s_fmt drv (fd_ self) (formatReq_of format) (kern w)) as [[r reply] k'].
  destruct (IOCTL_FAILED r); simpl; rewrite count_S_FMT_snoc; simpl; lia.
Qed.

Lemma requestPixelFormat_fast (self : V4l2CameraDevice) (c0 c1 c2 c3 : ascii) (w : world K) :
  pixelFormat (cur_data_format_ self) = v4l2_fourcc c0 c1 c2 c3 ->
  requestPixelFormat drv self (fourcc_string c0 c1 c2 c3) w = (true, self, w).
Proof.
  intros H. unfold requestPixelFormat, fourcc_string, getCurrentDataFormat.
  rewrite H, Z.eqb_refl. reflexivity.
Qed.

Lemma requestImageSize_fast (self : V4l2CameraDevice) (size0 size1 : Z) (w : world K) :
  width (cur_data_format_ self) = size0 ->
  height (cur_data_format_ self) = size1 ->
  requestImageSize drv self [size0; size1] w = (true, self, w).
Proof.
  intros H0 H1. unfold requestImageSize, getCurrentDataFormat.
  rewrite H0, H1, !Z.eqb_refl. reflexivity.
Qed.

Lemma requestPixelFormat_at_most_one (self : V4l2CameraDevice) (fourcc : string)
    (w : world K) :
  (count_S_FMT (trace (snd (requestPixelFormat drv self fourcc w)))
   <= S (count_S_FMT (trace w)))%nat.
Proof.
  unfold requestPixelFormat.
  destruct fourcc as [|c0 [|c1 [|c2 [|c3 [|c4 rest]]]]]; simpl; try lia.
  destruct (_ =? _); simpl; [lia |].
  rewrite requestDataFormat_one_request. lia.
Qed.

Lemma requestImageSize_at_most_one (self : V4l2CameraDevice) (size : list Z)
    (w : world K) :
  (count_S_FMT (trace (snd (requestImageSize drv self size w)))
   <= S (count_S_FMT (trace w)))%nat.
Proof.
  unfold requestImageSize.
  destruct size as [|s0 [|s1 [|s2 rest]]]; simpl; try lia.
  destruct (_ && _); simpl; [lia |].
  rewrite requestDataFormat_one_request. lia.
Qed.

Lemma requestPixelFormat_slow (self : V4l2CameraDevice) (c0 c1 c2 c3 : ascii) (w : world K) :
  pixelFormat (cur_data_format_ self) <> v4l2_fourcc c0 c1 c2 c3 ->
  count_S_FMT (trace (snd (requestPixelFormat drv self (fourcc_string c0 c1 c2 c3) w)))
  = S (count_S_FMT (trace w)).
Proof.
  intros H. unfold requestPixelFormat, fourcc_string, getCurrentDataFormat.
  apply Z.eqb_neq in H. rewrite H. apply requestDataFormat_one_request.
Qed.

Lemma requestImageSize_slow (self : V4l2CameraDevice) (size0 size1 : Z) (w : world K) :
  width (cur_data_format_ self) <> size0 \/ height (cur_data_format_ self) <> size1 ->
  count_S_FMT (trace (snd (requestImageSize drv self [size0; size1] w)))
  = S (count_S_FMT (trace w)).
Proof.
  intros H. unfold requestImageSize, getCurrentDataFormat.
  assert (Hcmp : (width (cur_data_format_ self) =? size0)
                 && (height (cur_data_format_ self) =? size1) = false).
  { apply andb_false_iff. destruct H as [H | H]; [left | right]; apply Z.eqb_neq; exact H. }
  rewrite Hcmp. apply requestDataFormat_one_request.
Qed.

(** C6 (as amended). A request for the pixel format, or for the size, that
    the object holds as current returns success and leaves object and world
    as they were: no call reaches the device.  Of two identical requests in
    a row the second is such a no-op, and the pair costs at most one
    [VIDIOC_S_FMT], whenever the first one left the requested pixel format
    (the requested size) current.  When the first one did not, because the
    device answered another format or refused, the second goes to the
    device again: the pair costs two [VIDIOC_S_FMT]. *)
Theorem negotiation_idempotent_on_current :
  (forall (self : V4l2CameraDevice) (c0 c1 c2 c3 : ascii) (w : world K),
     pixelFormat (cur_data_format_ self) = v4l2_fourcc c0 c1 c2 c3 ->
     requestPixelFormat drv self (fourcc_string c0 c1 c2 c3) w = (true, self, w)) /\
  (forall (self : V4l2CameraDevice) (size0 size1 : Z) (w : world K),
     width (cur_data_format_ self) = size0 ->
     height (cur_data_format_ self) = size1 ->
     requestImageSize drv self [size0; size1] w = (true, self, w)) /\
  (forall (self : V4l2CameraDevice) (c0 c1 c2 c3 : ascii) (w : world K),
     let fourcc := fourcc_string c0 c1 c2 c3 in
     let d1 := snd (fst (requestPixelFormat drv self fourcc w)) in
     let w1 := snd (requestPixelFormat drv self fourcc w) in
     pixelFormat (cur_data_format_ d1) = v4l2_fourcc c0 c1 c2 c3 ->
     requestPixelFormat drv d1 fourcc w1 = (true, d1, w1) /\
     (count_S_FMT (trace (snd (requestPixelFormat drv d1 fourcc w1)))
      <= S (count_S_FMT (trace w)))%nat) /\
  (forall (self : V4l2CameraDevice) (size0 size1 : Z) (w : world K),
     let d1 := snd (fst (requestImageSize drv self [size0; size1] w)) in
     let w1 := snd (requestImageSize drv self [size0; size1] w) in
     width (cur_data_format_ d1) = size0 ->
     height (cur_data_format_ d1) = size1 ->
     requestImageSize drv d1 [size0; size1] w1 = (true, d1, w1) /\
     (count_S_FMT (trace (snd (requestImageSize drv d1 [size0; size1] w1)))
      <= S (count_S_FMT (trace w)))%nat) /\
  (forall (self : V4l2CameraDevice) (c0 c1 c2 c3 : ascii) (w : world K),
     let fourcc := fourcc_string c0 c1 c2 c3 in
     let d1 := snd (fst (requestPixelFormat drv self fourcc w)) in
     let w1 := snd (requestPixelFormat drv self fourcc w) in
     pixelFormat (cur_data_format_ d1) <> v4l2_fourcc c0 c1 c2 c3 ->
     count_S_FMT (trace w1) = S (count_S_FMT (trace w)) /\
     count_S_FMT (trace (snd (requestPixelFormat drv d1 fourcc w1)))
     = S (S (count_S_FMT (trace w)))) /\
  (forall (self : V4l2CameraDevice) (size0 size1 : Z) (w : world K),
     let d1 := snd (fst (requestImageSize drv self [size0; size1] w)) in
     let w1 := snd (requestImageSize drv self [size0; size1] w) in
     width (cur_data_format_ d1) <> size0 \/ height (cur_data_format_ d1) <> size1 ->
     count_S_FMT (trace w1) = S (count_S_FMT (trace w)) /\
     count_S_FMT (trace (snd (requestImageSize drv d1 [size0; size1] w1)))
     = S (S (count_S_FMT (trace w)))).
Proof.
  split; [exact requestPixelFormat_fast |].
  split; [exact requestImageSize_fast |].
  split; [| split; [| split]].
  - intros self c0 c1 c2 c3 w fourcc d1 w1 Hcur. subst fourcc.
    rewrite (requestPixelFormat_fast d1 c0 c1 c2 c3 w1 Hcur).
    split; [reflexivity |]. apply requestPixelFormat_at_most_one.
  - intros self size0 size1 w d1 w1 H0 H1.
    rewrite (requestImageSize_fast d1 size0 size1 w1 H0 H1).
    split; [reflexivity |]. apply requestImageSize_at_most_one.
  - intros self c0 c1 c2 c3 w fourcc d1 w1 Hne. subst fourcc.
    assert (Hfirst : pixelFormat (cur_data_format_ self) <> v4l2_fourcc c0 c1 c2 c3).
    { intros Hcur. apply Hne. subst d1.
      rewrite (requestPixelFormat_fast self c0 c1 c2 c3 w Hcur). exact Hcur. }
    assert (H1 : count_S_FMT (trace w1) = S (count_S_FMT (trace w)))
      by (apply requestPixelFormat_slow; exact Hfirst).
    split; [exact H1 |].
    rewrite (requestPixelFormat_slow d1 c0 c1 c2 c3 w1 Hne), H1. reflexivity.
  - intros self size0 size1 w d1 w1 Hne.
    assert (Hfirst : width (cur_data_format_ self) <> size0
                     \/ height (cur_data_format_ self) <> size1).
    { destruct (Z.eq_dec (width (cur_data_format_ self)) size0) as [E0 | E0]; [| left; exact E0].
      destruct (Z.eq_dec (height (cur_data_format_ self)) size1) as [E1 | E1];
        [| right; exact E1].
      exfalso. subst d1.
      rewrite (requestImageSize_fast self size0 size1 w E0 E1) in Hne.
      cbn [fst snd] in Hne. destruct Hne as [Hne | Hne]; [exact (Hne E0) | exact (Hne E1)]. }
    assert (H1 : count_S_FMT (trace w1) = S (count_S_FMT (trace w)))
      by (apply requestImageSize_slow; exact Hfirst).
    split; [exact H1 |].
    rewrite (requestImageSize_slow d1 size0 size1 w1 Hne), H1. reflexivity.
Qed.

End Idempotence.

(** The camera takes 16x8 as requested: the second of two identical size
    requests is a no-op. *)
Lemma negotiation_idempotent_on_current_witness :
  let d := fst (Sim.opened Sim.camera) in
  let w := snd (Sim.opened Sim.camera) in
  let d1 := snd (fst (requestImageSize Sim.driver d [16; 8] w)) in
  let w1 := snd (requestImageSize Sim.driver d [16; 8] w) in
  width (cur_data_format_ d1) = 16 /\
  height (cur_data_format_ d1) = 8 /\
  requestImageSize Sim.driver d1 [16; 8] w1 = (true, d1, w1) /\
  Nat.le (count_S_FMT (trace (snd (requestImageSize Sim.driver d1 [16; 8] w1))))
         (S (count_S_FMT (trace w))).
Proof.
  intros d w d1 w1.
  split; [reflexivity |]. split; [reflexivity |].
  apply (proj1 (proj2 (proj2 (proj2 (negotiation_idempotent_on_current Sim.driver))))
           d 16 8 w);
    reflexivity.
Defined.

(** C6, counterexample to the claim as stated.  The camera answers every
    size request with 8x4.  Two identical requests for 640x480 both succeed
    and both reach the device: two [VIDIOC_S_FMT], not at most one. *)
Lemma negotiation_two_identical_requests_counterexample :
  let d := fst (Sim.opened Sim.camera_substituting) in
  let w := snd (Sim.opened Sim.camera_substituting) in
  let d1 := snd (fst (requestImageSize Sim.driver d [640; 480] w)) in
  let w1 := snd (requestImageSize Sim.driver d [640; 480] w) in
  fst (fst (requestImageSize Sim.driver d [640; 480] w)) = true /\
  fst (fst (requestImageSize Sim.driver d1 [640; 480] w1)) = true /\
  count_S_FMT (trace (snd (requestImageSize Sim.driver d1 [640; 480] w1)))
  = Nat.add (count_S_FMT (trace w)) 2 /\
  ~ Nat.le (count_S_FMT (trace (snd (requestImageSize Sim.driver d1 [640; 480] w1))))
           (Nat.add (count_S_FMT (trace w)) 1).
Proof.
  vm_compute. repeat split; try reflexivity. intros H.
  repeat match goal with H : le _ _ |- _ => inversion H; clear H; subst end.
Qed.

Section Controls.
Context {K : Type} (drv : Driver K).

Lemma setControlValue_run (self : V4l2CameraDevice) (id value : Z) (w : world K) :
  setControlValue drv self id value w =
  let '(r1, q, k1) := settable_answer drv self id w in
  let t1 := trace w ++ [EvIoctl (fd_ self) (VIDIOC_QUERYCTRL (set_qc_id zero_queryctrl id)) r1] in
  let control := find (fun c => ctl_id c =? id) (controls_ self) in
  if IOCTL_FAILED r1 then
    match control with
    | None => (Undefined END_ITERATOR_READ, World k1 t1)
    | Some c =>
        (Returned false,
         World k1 (t1 ++ [EvLogError
           ("Device does not support setting value for control " +:+ ctl_name c)]))
    end
  else (Undefined QUERYCTRL_OVERRUN, World k1 t1).
Proof.
  unfold setControlValue, settable_answer. unfold_calls. simpl.
  destruct (drv_queryctrl drv (fd_ self) (set_qc_id zero_queryctrl id) (kern w))
    as [[r1 q] k1].
  destruct (IOCTL_FAILED r1); [| reflexivity].
  destruct (find _ _); reflexivity.
Qed.

Lemma find_control_None (id : Z) (cs : list Control) :
  find (fun c => ctl_id c =? id) cs = None <-> ~ In id (map ctl_id cs).
Proof.
  induction cs as [|c cs IH]; simpl.
  - tauto.
  - destruct (ctl_id c =? id) eqn:E.
    + apply Z.eqb_eq in E. split; [discriminate | tauto].
    + apply Z.eqb_neq in E. rewrite IH. tauto.
Qed.

(** C8 (what the code does). No call of [setControlValue] forwards the
    value with defined behaviour.  The one system call of every defined run
    is the settability query, made with the address of a [v4l2_control].
    When the device answers the query, the answer is written over that
    object and past its end, and the call has no defined result: this is
    the only way to the [VIDIOC_S_CTRL] the code means to forward the value
    with.  When the device fails the query, the call returns failure for a
    listed control and reads through the end iterator for an unlisted one.
    So, whatever the value and whatever minimum and maximum the list holds,
    the call never returns success. *)
Theorem setControlValue_overruns_before_forwarding
    (self : V4l2CameraDevice) (id value : Z) (w : world K) :
  let r1 := fst (fst (settable_answer drv self id w)) in
  let out := fst (setControlValue drv self id value w) in
  let w' := snd (setControlValue drv self id value w) in
  (exists evs,
     trace w' = trace w ++ evs /\
     List.filter is_call evs =
       [EvIoctl (fd_ self) (VIDIOC_QUERYCTRL (set_qc_id zero_queryctrl id)) r1]) /\
  kern w' = snd (settable_answer drv self id w) /\
  (IOCTL_FAILED r1 = false -> out = Undefined QUERYCTRL_OVERRUN) /\
  (IOCTL_FAILED r1 = true -> In id (map ctl_id (controls_ self)) -> out = Returned false) /\
  (IOCTL_FAILED r1 = true -> ~ In id (map ctl_id (controls_ self)) ->
   out = Undefined END_ITERATOR_READ) /\
  out <> Returned true.
Proof.
  cbv zeta. rewrite setControlValue_run.
  pose proof (find_control_None id (controls_ self)) as Hfind.
  destruct (settable_answer drv self id w) as [[r1 q] k1]. cbv zeta. cbn [fst snd].
  destruct (IOCTL_FAILED r1) eqn:E1.
  - destruct (find _ (controls_ self)) as [c|]; cbn [fst snd trace kern].
    + split; [eexists; split; [rewrite <- app_assoc; reflexivity | reflexivity] |].
      split; [reflexivity |]. split; [discriminate |]. split; [reflexivity |].
      split; [| discriminate].
      intros _ Hnot. apply Hfind in Hnot. discriminate.
    + split; [eexists; split; reflexivity |].
      split; [reflexivity |]. split; [discriminate |].
      split; [| split; [reflexivity | discriminate]].
      intros _ Hin. exfalso. apply (proj1 Hfind); auto.
  - cbn [fst snd trace kern].
    split; [eexists; split; reflexivity |].
    split; [reflexivity |]. split; [reflexivity |].
    split; [discriminate |]. split; discriminate.
Qed.


End Controls.

(** Brightness is listed with the range 0 to 255 and the device answers
    the settability query: the call for the value 300, as for any other,
    has no defined result, and no [VIDIOC_S_CTRL] was issued before the
    overrun. *)
Lemma setControlValue_overruns_before_forwarding_witness :
  let d := fst (Sim.opened Sim.camera) in
  let w := snd (Sim.opened Sim.camera) in
  In 0x00980900 (map ctl_id (controls_ d)) /\
  IOCTL_FAILED (fst (fst (settable_answer Sim.driver d 0x00980900 w))) = false /\
  fst (setControlValue Sim.driver d 0x00980900 300 w) = Undefined QUERYCTRL_OVERRUN /\
  fst (setControlValue Sim.driver d 0x00980900 100 w) = Undefined QUERYCTRL_OVERRUN /\
  List.filter is_S_CTRL (trace (snd (setControlValue Sim.driver d 0x00980900 300 w))) = [].
Proof.
  intros d w.
  assert (Hq : IOCTL_FAILED (fst (fst (settable_answer Sim.driver d 0x00980900 w))) = false)
    by reflexivity.
  split; [vm_compute; auto |]. split; [exact Hq |].
  split; [| split; [| vm_compute; reflexivity]].
  - exact (proj1 (proj2 (proj2
             (setControlValue_overruns_before_forwarding Sim.driver d 0x00980900 300 w))) Hq).
  - exact (proj1 (proj2 (proj2
             (setControlValue_overruns_before_forwarding Sim.driver d 0x00980900 100 w))) Hq).
Defined.

(** Brightness is in the control list of the object, 100 lies within its
    range, and the device fails the settability query: the call returns
    failure and the value never reaches the device. *)
Example setControlValue_stops_at_failed_query :
  let d := fst (Sim.opened Sim.camera) in
  let w := Sim.boot Sim.camera_controls_gone in
  map (fun c => (ctl_minimum c, ctl_maximum c))
      (List.filter (fun c => ctl_id c =? 0x00980900) (controls_ d)) = [(0, 255)] /\
  fst (setControlValue Sim.driver d 0x00980900 100 w) = Returned false /\
  List.filter is_S_CTRL (trace (snd (setControlValue Sim.driver d 0x00980900 100 w))) = [] /\
  List.filter is_call (trace (snd (setControlValue Sim.driver d 0x00980900 100 w)))
  = [EvIoctl 3 (VIDIOC_QUERYCTRL (set_qc_id zero_queryctrl 0x00980900)) (-1)].
Proof. vm_compute. repeat split; reflexivity. Qed.


Section Capture.
Context {K : Type} (drv : Driver K).

Lemma capture_run (self : V4l2CameraDevice) (w : world K) :
  capture drv self w =
  let fd := fd_ self in
  let fmt := cur_data_format_ self in
  let '(r0, b0, k0) := dequeue_answer drv self w in
  let t0 := trace w ++ [EvIoctl fd (VIDIOC_DQBUF (capture_buffer 0)) r0] in
  if IOCTL_FAILED r0 then (Returned None, World k0 t0) else
  let '(r1, b1, k1) := drv_qbuf drv fd b0 k0 in
  let t1 := t0 ++ [EvIoctl fd (VIDIOC_QBUF b0) r1] in
  if IOCTL_FAILED r1 then (Returned None, World k1 t1) else
  match buffers_ self !! Z.to_nat (vb_index b1) with
  | None => (Undefined "buffers_[buf.index] is outside the vector", World k1 t1)
  | Some buffer =>
      (Returned (Some (frame_of fmt
         (map (shared_mem drv k1) (seqZ (buf_start buffer) (imageByteSize fmt))))),
       World k1 (t1 ++ [EvRead (buf_start buffer) (imageByteSize fmt)]))
  end.
Proof.
  unfold capture, dequeue_answer, capture_buffer. unfold_calls. simpl.
  destruct (drv_dqbuf drv (fd_ self) _ (kern w)) as [[r0 b0] k0].
  destruct (IOCTL_FAILED r0); [reflexivity |]. simpl.
  destruct (drv_qbuf drv (fd_ self) b0 k0) as [[r1 b1] k1].
  destruct (IOCTL_FAILED r1); [reflexivity |]. simpl.
  destruct (buffers_ self !! Z.to_nat (vb_index b1)) as [buffer|]; reflexivity.
Qed.

(** C1 (the order the code has). In every call of [capture] that returns a
    frame the trace grows by exactly three events, in this order: the
    dequeue, the requeue of the buffer just dequeued, and only then the read
    of the buffer's mapped region. *)
Theorem capture_reads_after_requeue
    (self : V4l2CameraDevice) (w : world K) (img : Image) :
  fst (capture drv self w) = Returned (Some img) ->
  exists (r0 r1 : Z) (b0 : v4l2_buffer) (buffer : Buffer),
    In buffer (buffers_ self) /\
    trace (snd (capture drv self w)) =
    trace w ++ [ EvIoctl (fd_ self) (VIDIOC_DQBUF (capture_buffer 0)) r0;
                 EvIoctl (fd_ self) (VIDIOC_QBUF b0) r1;
                 EvRead (buf_start buffer) (imageByteSize (cur_data_format_ self)) ].
Proof.
  rewrite capture_run. cbv zeta.
  destruct (dequeue_answer drv self w) as [[r0 b0] k0].
  destruct (IOCTL_FAILED r0); [discriminate |].
  destruct (drv_qbuf drv (fd_ self) b0 k0) as [[r1 b1] k1].
  destruct (IOCTL_FAILED r1); [discriminate |].
  destruct (buffers_ self !! Z.to_nat (vb_index b1)) as [buffer|] eqn:Eb; [| discriminate].
  simpl. intros _. exists r0, r1, b0, buffer. split.
  - apply list_elem_of_In. eapply list_elem_of_lookup_2. exact Eb.
  - rewrite <- !app_assoc. reflexivity.
Qed.


End Capture.

(** The first capture on the streaming camera. *)
Lemma capture_reads_after_requeue_witness :
  let d := fst (Sim.started Sim.camera) in
  let w := snd (Sim.started Sim.camera) in
  fst (capture Sim.driver d w) = Returned (Some Sim.first_frame) /\
  exists (r0 r1 : Z) (b0 : v4l2_buffer) (buffer : Buffer),
    In buffer (buffers_ d) /\
    trace (snd (capture Sim.driver d w)) =
    trace w ++ [ EvIoctl (fd_ d) (VIDIOC_DQBUF (capture_buffer 0)) r0;
                 EvIoctl (fd_ d) (VIDIOC_QBUF b0) r1;
                 EvRead (buf_start buffer) (imageByteSize (cur_data_format_ d)) ].
Proof.
  intros d w. split; [reflexivity |].
  apply (capture_reads_after_requeue Sim.driver d w Sim.first_frame).
  reflexivity.
Defined.

(** On that camera the buffer holds generation 4 when it is dequeued; the
    requeue hands it back to the device, which moves on to generation 5,
    and generation 5 is what the frame carries. *)
Example capture_returns_bytes_written_after_requeue :
  let d := fst (Sim.started Sim.camera) in
  let w := snd (Sim.started Sim.camera) in
  let at_dequeue := snd (dequeue_answer Sim.driver d w) in
  exists buffer : Buffer,
    buffers_ d !! 0%nat = Some buffer /\
    map (shared_mem Sim.driver at_dequeue) (seqZ (buf_start buffer) 64)
    = replicate 64 (Sim.byte_of 4) /\
    fst (capture Sim.driver d w)
    = Returned (Some (frame_of (cur_data_format_ d) (replicate 64 (Sim.byte_of 5)))).
Proof.
  eexists. split; [reflexivity |]. split; reflexivity.
Qed.



Section Teardown.
Context {K : Type} (drv : Driver K).

Lemma unmap_buffers_trace (buffers : list Buffer) (w : world K) :
  exists evs : list event,
    trace (snd (unmap_buffers drv buffers w)) = trace w ++ evs /\
    Forall2 munmap_of buffers evs /\
    ((forall (a l : Z) (k : K), fst (drv_munmap drv a l k) = 0) ->
     Forall (fun e => forall a l r, e = EvMunmap a l r -> r = 0) evs).
Proof.
  revert w. induction buffers as [|b bs IH]; intros w; simpl.
  - exists []. split; [symmetry; apply app_nil_r |]. split; constructor.
  - unfold_calls. simpl.
    destruct (drv_munmap drv (buf_start b) (buf_length b) (kern w)) as [r k'] eqn:E.
    destruct (IH (World k' (trace w ++ [EvMunmap (buf_start b) (buf_length b) r])))
      as (evs & Htr & Hall & Hzero).
    exists (EvMunmap (buf_start b) (buf_length b) r :: evs). split; [| split].
    + unfold_calls. rewrite Htr. simpl. rewrite <- app_assoc. reflexivity.
    + constructor; [exists r; reflexivity | exact Hall].
    + intros Hdrv. constructor; [| exact (Hzero Hdrv)].
      intros a l r' Heq. inversion Heq; subst.
      pose proof (Hdrv (buf_start b) (buf_length b) (kern w)) as H0.
      rewrite E in H0. exact H0.
Qed.

(** A run of [munmap]s adds no mapping. *)
Lemma munmaps_only_remove (buffers : list Buffer) (unmaps : list event) :
  Forall2 munmap_of buffers unmaps ->
  forall (m : list (Z * Z)) (x : Z * Z),
    In x (fold_left step_mappings unmaps m) -> In x m.
Proof.
  intros Hall. induction Hall as [|b e bs evs [r He] Hrest IH]; intros m x Hx.
  - exact Hx.
  - subst e. cbn [fold_left step_mappings] in Hx. apply IH in Hx.
    destruct (r =? 0); [| exact Hx].
    apply filter_In in Hx. tauto.
Qed.

(** Unmapping the buffers of a list, every [munmap] succeeding, leaves
    none of their regions among the mappings. *)
Lemma unmapped_regions_gone (buffers : list Buffer) (unmaps : list event) :
  Forall2 munmap_of buffers unmaps ->
  Forall (fun e => forall a l r, e = EvMunmap a l r -> r = 0) unmaps ->
  forall (m : list (Z * Z)) (b : Buffer),
    In b buffers ->
    ~ In (buf_start b, buf_length b) (fold_left step_mappings unmaps m).
Proof.
  intros Hall. induction Hall as [|b0 e bs evs [r He] Hrest IH]; intros Hok m b Hin.
  - destruct Hin.
  - inversion Hok as [|e' evs' Hr Hok']; subst.
    pose proof (Hr _ _ _ eq_refl) as ->.
    cbn [fold_left step_mappings]. rewrite Z.eqb_refl.
    destruct Hin as [-> | Hin]; [| apply IH; assumption].
    intros Hx. apply (munmaps_only_remove bs evs Hrest) in Hx.
    apply filter_In in Hx. destruct Hx as [_ Hx].
    unfold same_region in Hx. cbn [fst snd] in Hx.
    rewrite !Z.eqb_refl in Hx. discriminate.
Qed.

Lemma fold_step_ioctl (fd : Z) (rq : request) (r : Z) (m : list (Z * Z)) :
  step_mappings m (EvIoctl fd rq r) = m.
Proof. reflexivity. Qed.

(** C2 (as amended). When the device fails the stream-disable request,
    [stop] returns failure at once: the object is as it was and nothing but
    that request was issued.  When the request succeeds, [stop] issues one
    [munmap] per buffer of the list, in order, with the buffer's own start
    and length, empties the list, issues the zero-count buffer request and
    returns success; on a system where [munmap] does not fail, no buffer of
    the list is mapped any more when it returns. *)
Theorem stop_cleans_up_once_stream_disabled (self : V4l2CameraDevice) (w : world K) :
  let r := streamoff_answer drv self w in
  let off := EvIoctl (fd_ self) (VIDIOC_STREAMOFF V4L2_BUF_TYPE_VIDEO_CAPTURE) r in
  let ok := fst (fst (stop drv self w)) in
  let self' := snd (fst (stop drv self w)) in
  let w' := snd (stop drv self w) in
  (IOCTL_FAILED r = true ->
   ok = false /\ self' = self /\ trace w' = trace w ++ [off]) /\
  (IOCTL_FAILED r = false ->
   ok = true /\ buffers_ self' = [] /\
   (exists (unmaps : list event) (r' : Z),
      Forall2 munmap_of (buffers_ self) unmaps /\
      trace w' = trace w ++ [off] ++ unmaps
                 ++ [EvIoctl (fd_ self) (VIDIOC_REQBUFS free_request) r']) /\
   ((forall (a l : Z) (k : K), fst (drv_munmap drv a l k) = 0) ->
    forall b : Buffer,
      In b (buffers_ self) ->
      ~ In (buf_start b, buf_length b) (live_mappings (trace w')))).
Proof.
  cbv zeta. unfold stop, streamoff_answer. unfold_calls. simpl.
  destruct (drv_streamoff drv (fd_ self) V4L2_BUF_TYPE_VIDEO_CAPTURE (kern w))
    as [r k1] eqn:E1. simpl.
  destruct (IOCTL_FAILED r) eqn:Er; simpl.
  - split; [intros _; auto | discriminate].
  - split; [discriminate | intros _].
    pose proof (unmap_buffers_trace (buffers_ self)
      (World k1 (trace w ++ [EvIoctl (fd_ self)
                               (VIDIOC_STREAMOFF V4L2_BUF_TYPE_VIDEO_CAPTURE) r])))
      as (unmaps & Htr & Hall & Hzero).
    unfold_calls.
    destruct (unmap_buffers drv (buffers_ self) _) as [[] w1] eqn:E2. simpl in *.
    destruct (drv_reqbufs drv (fd_ self) _ (kern w1)) as [[r' req'] k2] eqn:E3. simpl.
    split; [reflexivity |]. split; [reflexivity |].
    split.
    + exists unmaps, r'. split; [exact Hall |].
      rewrite Htr. rewrite <- !app_assoc. reflexivity.
    + intros Hdrv b Hin. rewrite Htr. unfold live_mappings.
      rewrite !fold_left_app. cbn [fold_left]. rewrite fold_step_ioctl.
      apply (unmapped_regions_gone (buffers_ self) unmaps Hall (Hzero Hdrv)).
      exact Hin.
Qed.

End Teardown.

Lemma stop_cleans_up_once_stream_disabled_witness :
  let d := fst (Sim.started Sim.camera) in
  let w := snd (Sim.started Sim.camera) in
  IOCTL_FAILED (streamoff_answer Sim.driver d w) = false /\
  fst (fst (stop Sim.driver d w)) = true /\
  buffers_ (snd (fst (stop Sim.driver d w))) = [] /\
  (exists (unmaps : list event) (r' : Z),
     Forall2 munmap_of (buffers_ d) unmaps /\
     trace (snd (stop Sim.driver d w)) =
     trace w ++ [EvIoctl (fd_ d) (VIDIOC_STREAMOFF V4L2_BUF_TYPE_VIDEO_CAPTURE)
                   (streamoff_answer Sim.driver d w)] ++ unmaps
             ++ [EvIoctl (fd_ d) (VIDIOC_REQBUFS free_request) r']) /\
  forall b : Buffer,
    In b (buffers_ d) ->
    ~ In (buf_start b, buf_length b) (live_mappings (trace (snd (stop Sim.driver d w)))).
Proof.
  intros d w.
  assert (H : IOCTL_FAILED (streamoff_answer Sim.driver d w) = false) by reflexivity.
  split; [exact H |].
  destruct (proj2 (stop_cleans_up_once_stream_disabled Sim.driver d w) H)
    as (Hok & Hbufs & Htrace & Hlive).
  split; [exact Hok |]. split; [exact Hbufs |]. split; [exact Htrace |].
  apply Hlive. intros a l k. reflexivity.
Defined.

(** C2, counterexample to the claim as stated.  The camera is streaming
    with four mapped buffers and fails the stream-disable request: [stop]
    returns failure, no [munmap] and no buffer request is issued, the four
    buffers stay in the list and their four mappings stay live. *)
Lemma stop_leaves_buffers_mapped_counterexample :
  let d := fst (Sim.started Sim.camera_streamoff_fails) in
  let w := snd (Sim.started Sim.camera_streamoff_fails) in
  fst (fst (stop Sim.driver d w)) = false /\
  length (buffers_ (snd (fst (stop Sim.driver d w)))) = 4%nat /\
  length (live_mappings (trace (snd (stop Sim.driver d w)))) = 4%nat /\
  List.filter is_munmap (trace (snd (stop Sim.driver d w))) = [] /\
  ~ In (EvIoctl (fd_ d) (VIDIOC_REQBUFS free_request) 0) (trace (snd (stop Sim.driver d w))).
Proof.
  vm_compute. repeat split; try reflexivity.
  intros H. repeat (destruct H as [H|H]; [discriminate H |]). exact H.
Qed.

Example stop_releases_every_mapping_example :
  let d := fst (Sim.started Sim.camera) in
  let w := snd (Sim.started Sim.camera) in
  length (live_mappings (trace w)) = 4%nat /\
  live_mappings (trace (snd (stop Sim.driver d w))) = [].
Proof. split; reflexivity. Qed.

(** *** Mappings along a trace *)

Lemma step_mappings_no_unmap (evs : list event) :
  List.filter is_munmap evs = [] ->
  forall m : list (Z * Z),
    fold_left step_mappings evs m = m ++ fold_left step_mappings evs [].
Proof.
  induction evs as [|e evs IH]; intros Hno m.
  - simpl. symmetry. apply app_nil_r.
  - destruct e as [| | fd len off a | | |];
      cbn [List.filter is_munmap negb] in Hno; try discriminate;
      cbn [fold_left step_mappings]; try (apply IH; exact Hno).
    destruct (MAP_FAILED =? a); [apply IH; exact Hno |].
    change ([] ++ [(a, len)]) with [(a, len)].
    rewrite (IH Hno (m ++ [(a, len)])), (IH Hno [(a, len)]).
    rewrite <- app_assoc. reflexivity.
Qed.

Lemma live_mappings_app_no_unmap (tr evs : list event) :
  List.filter is_munmap evs = [] ->
  live_mappings (tr ++ evs) = live_mappings tr ++ live_mappings evs.
Proof.
  intros Hno. unfold live_mappings. rewrite fold_left_app.
  apply step_mappings_no_unmap. exact Hno.
Qed.

Lemma ioctls_no_unmap (evs : list event) :
  forallb is_ioctl evs = true ->
  List.filter is_munmap evs = [] /\ mmap_failed_in evs = false.
Proof.
  induction evs as [|e evs IH]; simpl; [auto |].
  destruct e; simpl; try discriminate. exact IH.
Qed.

Lemma no_unmap_app (evs1 evs2 : list event) :
  List.filter is_munmap evs1 = [] -> List.filter is_munmap evs2 = [] ->
  List.filter is_munmap (evs1 ++ evs2) = [].
Proof. intros H1 H2. rewrite List.filter_app, H1, H2. reflexivity. Qed.

Lemma mmap_failed_in_app (evs1 evs2 : list event) :
  mmap_failed_in (evs1 ++ evs2) = mmap_failed_in evs1 || mmap_failed_in evs2.
Proof. unfold mmap_failed_in. apply existsb_app. Qed.

Section Allocation.
Context {K : Type} (drv : Driver K).

Lemma map_buffers_S (n : nat) (fd i : Z) (buffers : list Buffer) (w : world K) :
  map_buffers drv (S n) fd i buffers w =
  let '(r, buf, k1) := drv_querybuf drv fd (capture_buffer i) (kern w) in
  let '(start, k2) := drv_mmap drv fd (vb_length buf) (vb_offset buf) k1 in
  let w2 := World k2 (trace w ++ [EvIoctl fd (VIDIOC_QUERYBUF (capture_buffer i)) r;
                                  EvMmap fd (vb_length buf) (vb_offset buf) start]) in
  let buffers' :=
    <[Z.to_nat i := {| buf_index := vb_index buf; buf_start := start;
                       buf_length := vb_length buf |}]> buffers in
  if MAP_FAILED =? start then (false, buffers', w2)
  else map_buffers drv n fd (i + 1) buffers' w2.
Proof.
  cbn [map_buffers]. unfold_calls. cbn [kern trace].
  destruct (drv_querybuf drv fd (capture_buffer i) (kern w)) as [[r buf] k1].
  cbn [kern trace].
  destruct (drv_mmap drv fd (vb_length buf) (vb_offset buf) k1) as [start k2].
  rewrite <- app_assoc. cbn [app].
  destruct (MAP_FAILED =? start); reflexivity.
Qed.

Lemma map_buffers_trace (n : nat) :
  forall (fd i : Z) (buffers : list Buffer) (w : world K),
  exists evs : list event,
    trace (snd (map_buffers drv n fd i buffers w)) = trace w ++ evs /\
    List.filter is_munmap evs = [] /\
    fst (fst (map_buffers drv n fd i buffers w)) = negb (mmap_failed_in evs).
Proof.
  induction n as [|n IH]; intros fd i buffers w.
  - exists []. simpl. rewrite app_nil_r. auto.
  - rewrite map_buffers_S.
    destruct (drv_querybuf drv fd (capture_buffer i) (kern w)) as [[r buf] k1].
    destruct (drv_mmap drv fd (vb_length buf) (vb_offset buf) k1) as [start k2].
    cbv zeta.
    destruct (MAP_FAILED =? start) eqn:Efail.
    + eexists [_; _]. cbn [snd fst trace].
      split; [reflexivity |]. split; [reflexivity |].
      cbn [mmap_failed_in existsb]. rewrite Efail. reflexivity.
    + match goal with |- context [map_buffers drv n fd (i + 1) ?bs ?w1] =>
        destruct (IH fd (i + 1) bs w1) as (evs & Htr & Hno & Hok)
      end.
      exists ([EvIoctl fd (VIDIOC_QUERYBUF (capture_buffer i)) r;
               EvMmap fd (vb_length buf) (vb_offset buf) start] ++ evs).
      rewrite Htr, Hok. cbn [trace]. rewrite <- app_assoc.
      split; [reflexivity |]. split; [exact Hno |].
      rewrite mmap_failed_in_app. cbn [mmap_failed_in existsb].
      rewrite Efail. reflexivity.
Qed.

Lemma initMemoryMapping_trace (self : V4l2CameraDevice) (w : world K) :
  exists evs : list event,
    trace (snd (initMemoryMapping drv self w)) = trace w ++ evs /\
    List.filter is_munmap evs = [] /\
    (fst (fst (initMemoryMapping drv self w)) = true -> mmap_failed_in evs = false).
Proof.
  unfold initMemoryMapping. unfold_calls. simpl.
  destruct (drv_reqbufs drv (fd_ self) _ (kern w)) as [[r req] k1]. simpl.
  destruct (rb_count req <? 2).
  - eexists [_]. simpl. split; [reflexivity |]. split; [reflexivity | discriminate].
  - match goal with |- context [map_buffers drv ?n ?fd ?i ?bs ?w1] =>
      destruct (map_buffers_trace n fd i bs w1) as (evs & Htr & Hno & Hok);
      destruct (map_buffers drv n fd i bs w1) as [[ok buffers] w2]
    end.
    simpl in *. eexists (_ :: evs). rewrite Htr, <- app_assoc. simpl.
    split; [reflexivity |]. split; [exact Hno |].
    intros ->. destruct (mmap_failed_in evs); [discriminate | reflexivity].
Qed.

Lemma queue_buffers_trace (fd : Z) (buffers : list Buffer) :
  forall w : world K,
  exists evs : list event,
    trace (snd (queue_buffers drv fd buffers w)) = trace w ++ evs /\
    forallb is_ioctl evs = true.
Proof.
  induction buffers as [|b bs IH]; intros w; simpl.
  - exists []. rewrite app_nil_r. auto.
  - unfold_calls. simpl.
    destruct (drv_qbuf drv fd (capture_buffer (buf_index b)) (kern w)) as [[r buf] k1].
    simpl. destruct (IOCTL_FAILED r).
    + eexists [_]. simpl. auto.
    + match goal with |- context [queue_buffers drv fd bs ?w1] =>
        destruct (IH w1) as (evs & Htr & Hio)
      end.
      unfold_calls. rewrite Htr. simpl. eexists (_ :: evs).
      rewrite <- app_assoc. simpl. auto.
Qed.

Lemma start_run (self : V4l2CameraDevice) (w : world K) :
  start drv self w =
  let '(ok1, self1, w1) := initMemoryMapping drv self w in
  if ok1 then
    let '(ok2, w2) := queue_buffers drv (fd_ self1) (buffers_ self1) w1 in
    if ok2 then
      let '(r, k3) := drv_streamon drv (fd_ self1) V4L2_BUF_TYPE_VIDEO_CAPTURE (kern w2) in
      (negb (IOCTL_FAILED r), self1,
       World k3 (trace w2 ++ [EvIoctl (fd_ self1)
                                (VIDIOC_STREAMON V4L2_BUF_TYPE_VIDEO_CAPTURE) r]))
    else (false, self1, w2)
  else (false, self1, w1).
Proof.
  unfold start, bind.
  destruct (initMemoryMapping drv self w) as [[ok1 self1] w1].
  destruct ok1; [| reflexivity]. cbn [negb].
  destruct (queue_buffers drv (fd_ self1) (buffers_ self1) w1) as [ok2 w2].
  destruct ok2; [| reflexivity]. cbn [negb].
  unfold ioctl_STREAMON, call0, ret.
  destruct (drv_streamon drv (fd_ self1) V4L2_BUF_TYPE_VIDEO_CAPTURE (kern w2)) as [r k3].
  destruct (IOCTL_FAILED r); reflexivity.
Qed.

Lemma start_trace (self : V4l2CameraDevice) (w : world K) :
  exists evs : list event,
    trace (snd (start drv self w)) = trace w ++ evs /\
    List.filter is_munmap evs = [] /\
    (fst (fst (start drv self w)) = true -> mmap_failed_in evs = false).
Proof.
  rewrite start_run.
  destruct (initMemoryMapping_trace self w) as (evs1 & Htr1 & Hno1 & Hok1).
  destruct (initMemoryMapping drv self w) as [[ok1 self1] w1]. cbn [fst snd] in *.
  destruct ok1.
  - destruct (queue_buffers_trace (fd_ self1) (buffers_ self1) w1) as (evs2 & Htr2 & Hio2).
    destruct (queue_buffers drv (fd_ self1) (buffers_ self1) w1) as [ok2 w2].
    cbn [fst snd] in *.
    destruct (ioctls_no_unmap evs2 Hio2) as [Hno2 Hmm2].
    destruct ok2.
    + destruct (drv_streamon drv (fd_ self1) V4L2_BUF_TYPE_VIDEO_CAPTURE (kern w2))
        as [r k3]. cbn [fst snd trace].
      exists (evs1 ++ evs2 ++ [EvIoctl (fd_ self1)
                                 (VIDIOC_STREAMON V4L2_BUF_TYPE_VIDEO_CAPTURE) r]).
      split; [rewrite Htr2, Htr1, <- !app_assoc; reflexivity |].
      split; [repeat apply no_unmap_app; auto |].
      intros _. rewrite !mmap_failed_in_app, Hmm2, (Hok1 eq_refl). reflexivity.
    + exists (evs1 ++ evs2). cbn [fst snd]. rewrite Htr2, Htr1, <- app_assoc.
      split; [reflexivity |]. split; [apply no_unmap_app; auto | discriminate].
  - exists evs1. cbn [fst snd]. split; [exact Htr1 |]. split; [exact Hno1 | discriminate].
Qed.

(** C3 (as amended). Neither [initMemoryMapping] nor [start] ever unmaps:
    whatever they return, the events of the call hold no [munmap], so every
    mapping made in the call is still live at return, after those that were
    live before.  A mapping that fails makes both return failure. *)
Theorem start_keeps_every_mapping (self : V4l2CameraDevice) (w : world K) :
  (exists evs : list event,
     trace (snd (initMemoryMapping drv self w)) = trace w ++ evs /\
     List.filter is_munmap evs = [] /\
     live_mappings (trace (snd (initMemoryMapping drv self w)))
     = live_mappings (trace w) ++ live_mappings evs /\
     (mmap_failed_in evs = true -> fst (fst (initMemoryMapping drv self w)) = false)) /\
  (exists evs : list event,
     trace (snd (start drv self w)) = trace w ++ evs /\
     List.filter is_munmap evs = [] /\
     live_mappings (trace (snd (start drv self w)))
     = live_mappings (trace w) ++ live_mappings evs /\
     (mmap_failed_in evs = true -> fst (fst (start drv self w)) = false)).
Proof.
  split.
  - destruct (initMemoryMapping_trace self w) as (evs & Htr & Hno & Hok).
    exists evs. rewrite Htr. repeat split; auto.
    + apply live_mappings_app_no_unmap. exact Hno.
    + intros Hfail. destruct (fst (fst (initMemoryMapping drv self w))); [| reflexivity].
      rewrite (Hok eq_refl) in Hfail. discriminate.
  - destruct (start_trace self w) as (evs & Htr & Hno & Hok).
    exists evs. rewrite Htr. repeat split; auto.
    + apply live_mappings_app_no_unmap. exact Hno.
    + intros Hfail. destruct (fst (fst (start drv self w))); [| reflexivity].
      rewrite (Hok eq_refl) in Hfail. discriminate.
Qed.

End Allocation.

(** The third [mmap] fails: [start] returns failure and what the call
    mapped before it is part of the live mappings at return. *)
Lemma start_keeps_every_mapping_witness :
  let d := fst (Sim.opened Sim.camera_third_mmap_fails) in
  let w := snd (Sim.opened Sim.camera_third_mmap_fails) in
  exists evs : list event,
    trace (snd (start Sim.driver d w)) = trace w ++ evs /\
    mmap_failed_in evs = true /\
    fst (fst (start Sim.driver d w)) = false /\
    live_mappings (trace (snd (start Sim.driver d w)))
    = live_mappings (trace w) ++ live_mappings evs.
Proof.
  intros d w.
  destruct (proj2 (start_keeps_every_mapping Sim.driver d w))
    as (evs & Htr & Hno & Hlive & Hfail).
  assert (Hm : mmap_failed_in evs = true).
  { pose proof Htr as Hcopy. vm_compute in Hcopy.
    inversion Hcopy; subst evs. reflexivity. }
  exists evs. split; [exact Htr |]. split; [exact Hm |].
  split; [exact (Hfail Hm) | exact Hlive].
Defined.

(** C3, counterexample to the claim as stated.  The device grants four
    buffers and the third [mmap] fails.  [start] returns failure; no
    [munmap] was issued, and the two buffers mapped before the failure are
    still mapped and still in the buffer list. *)
Lemma start_leaks_partial_mappings_counterexample :
  let d := fst (Sim.opened Sim.camera_third_mmap_fails) in
  let w := snd (Sim.opened Sim.camera_third_mmap_fails) in
  fst (fst (initMemoryMapping Sim.driver d w)) = false /\
  fst (fst (start Sim.driver d w)) = false /\
  live_mappings (trace w) = [] /\
  live_mappings (trace (snd (start Sim.driver d w)))
  = [(0x7f0000000000, 64); (0x7f0000000040, 64)] /\
  List.filter is_munmap (trace (snd (start Sim.driver d w))) = [] /\
  map buf_start (buffers_ (snd (fst (start Sim.driver d w))))
  = [0x7f0000000000; 0x7f0000000040; MAP_FAILED; 0].
Proof. vm_compute. repeat split; reflexivity. Qed.

Section Opening.
Context {K : Type} (drv : Driver K).

Lemma open_run (fuel : nat) (self : V4l2CameraDevice) (w : world K) :
  open drv fuel self w =
  let fd := open_answer drv self w in
  let w0 := world_after_open drv self w in
  if fd <? 0 then (Some (false, set_fd self fd), w0) else
  let '(self0, w1) := open_probe drv (set_fd self fd) w0 in
  let '(r1, w2) := listImageFormats drv fuel self0 w1 in
  match r1 with
  | None => (None, w2)
  | Some self1 =>
      let '(r2, w3) := listControls drv fuel self1 w2 in
      match r2 with
      | None => (None, w3)
      | Some self2 =>
          (Some (true, self2), snd (log_controls drv self2 (controls_ self2) w3))
      end
  end.
Proof.
  unfold open, world_after_open, open_answer, open_probe.
  unfold sys_open, call0. unfold bind at 1.
  destruct (drv_open drv (device_ self) (kern w)) as [fd k0]. cbn [fst snd].
  destruct (fd <? 0); [reflexivity |].
  unfold ioctl_QUERYCAP, ioctl_G_FMT, call1, bind, ret. cbn [kern trace fd_ set_fd].
  destruct (drv_querycap drv fd (capabilities_ (set_fd self fd)) k0) as [[rc cap] k1].
  cbn [kern trace fd_ set_capabilities].
  destruct (drv_g_fmt drv _ _ k1) as [[rf fmt] k2].
  destruct (listImageFormats drv fuel _ _) as [[self1|] w2]; [| reflexivity].
  destruct (listControls drv fuel self1 w2) as [[self2|] w3]; [| reflexivity].
  destruct (log_controls drv self2 (controls_ self2) w3) as [[] w4]. reflexivity.
Qed.

(** C5 (as amended). [open] returns failure whenever the path cannot be
    opened, for any fuel.  Once the path is opened the answer of the
    capability query is not looked at: [open] never returns failure, and it
    returns success as soon as the two enumerations come to an end. *)
Theorem open_fails_only_when_path_cannot_be_opened
    (fuel : nat) (self : V4l2CameraDevice) (w : world K) :
  let fd := open_answer drv self w in
  let w0 := world_after_open drv self w in
  (fd < 0 -> open drv fuel self w = (Some (false, set_fd self fd), w0)) /\
  (0 <= fd ->
   (forall (b : bool) (self' : V4l2CameraDevice),
      fst (open drv fuel self w) = Some (b, self') -> b = true) /\
   (forall (self1 self2 : V4l2CameraDevice) (w2 w3 : world K),
      listImageFormats drv fuel (fst (open_probe drv (set_fd self fd) w0))
        (snd (open_probe drv (set_fd self fd) w0)) = (Some self1, w2) ->
      listControls drv fuel self1 w2 = (Some self2, w3) ->
      fst (open drv fuel self w) = Some (true, self2))).
Proof.
  cbv zeta. rewrite open_run. cbv zeta.
  split.
  - intros Hneg. apply Z.ltb_lt in Hneg. rewrite Hneg. reflexivity.
  - intros Hpos. apply Z.ltb_ge in Hpos. rewrite Hpos.
    destruct (open_probe drv _ _) as [self0 w1]. cbn [fst snd].
    split.
    + intros b self'.
      destruct (listImageFormats drv fuel self0 w1) as [[self1|] w2]; [| discriminate].
      destruct (listControls drv fuel self1 w2) as [[self2|] w3]; [| discriminate].
      cbn [fst]. intros H. inversion H. reflexivity.
    + intros self1 self2 w2 w3 H1 H2. rewrite H1, H2. reflexivity.
Qed.

End Opening.

(** The path opens as descriptor 3 and the capability query fails. *)
Lemma open_fails_only_when_path_cannot_be_opened_witness :
  let d := Sim.device0 in
  let w := Sim.boot Sim.camera_querycap_fails in
  0 <= open_answer Sim.driver d w /\
  forall (b : bool) (self' : V4l2CameraDevice),
    fst (open Sim.driver 8 d w) = Some (b, self') -> b = true.
Proof.
  intros d w.
  assert (H : 0 <= open_answer Sim.driver d w) by (vm_compute; discriminate).
  split; [exact H |].
  exact (proj1 (proj2 (open_fails_only_when_path_cannot_be_opened Sim.driver 8 d w) H)).
Defined.

(** C5, counterexample to the claim as stated.  The capability query
    returns -1 and [open] returns success all the same. *)
Lemma open_succeeds_without_capabilities_counterexample :
  let d := Sim.device0 in
  let w := Sim.boot Sim.camera_querycap_fails in
  In (EvIoctl 3 (VIDIOC_QUERYCAP zero_capability) (-1))
     (trace (snd (open Sim.driver 8 d w))) /\
  option_map fst (fst (open Sim.driver 8 d w)) = Some true.
Proof.
  vm_compute. split; [| reflexivity]. right. left. reflexivity.
Qed.

Section Enumeration.
Context {K : Type} (drv : Driver K).

(** One turn of the loop of [listControls] on a control the device marks
    disabled: the [continue] takes the structure back to the query as the
    kernel left it, with nothing added to the list. *)
Lemma listControls_loop_disabled
    (fuel : nat) (fd : Z) (queryctrl : v4l2_queryctrl) (controls : list Control)
    (w : world K) (r : Z) (q : v4l2_queryctrl) (k : K) :
  drv_queryctrl drv fd queryctrl (kern w) = (r, q, k) ->
  IOCTL_FAILED r = false ->
  Z.land (qc_flags q) V4L2_CTRL_FLAG_DISABLED <> 0 ->
  listControls_loop drv (S fuel) fd queryctrl controls w =
  listControls_loop drv fuel fd q controls
    (World k (trace w ++ [EvIoctl fd (VIDIOC_QUERYCTRL queryctrl) r])).
Proof.
  intros Hq Hr Hd. cbn [listControls_loop].
  unfold ioctl_QUERYCTRL, call1. unfold bind at 1. rewrite Hq, Hr.
  apply Z.eqb_neq in Hd. rewrite Hd. reflexivity.
Qed.

(** One turn on an enabled control that is not a menu: the control joins
    the list and the next query carries its id with the next-control flag. *)
Lemma listControls_loop_enabled
    (fuel : nat) (fd : Z) (queryctrl : v4l2_queryctrl) (controls : list Control)
    (w : world K) (r : Z) (q : v4l2_queryctrl) (k : K) :
  drv_queryctrl drv fd queryctrl (kern w) = (r, q, k) ->
  IOCTL_FAILED r = false ->
  Z.land (qc_flags q) V4L2_CTRL_FLAG_DISABLED = 0 ->
  qc_type q <> V4L2_CTRL_TYPE_MENU ->
  listControls_loop drv (S fuel) fd queryctrl controls w =
  listControls_loop drv fuel fd
    (set_qc_id q (Z.lor (qc_id q) V4L2_CTRL_FLAG_NEXT_CTRL))
    (controls ++ [Control_of q ∅])
    (World k (trace w ++ [EvIoctl fd (VIDIOC_QUERYCTRL queryctrl) r])).
Proof.
  intros Hq Hr He Hm. cbn [listControls_loop].
  unfold ioctl_QUERYCTRL, call1. unfold bind at 1. rewrite Hq, Hr.
  apply Z.eqb_eq in He. rewrite He. apply Z.eqb_neq in Hm. rewrite Hm.
  reflexivity.
Qed.

(** A device that answers the query for the exact id of a disabled control
    with that control, its state unchanged, keeps the loop turning for
    ever: no fuel is enough. *)
Lemma listControls_loop_stuck (fd : Z) (q : v4l2_queryctrl) (k : K) (r : Z) :
  Z.land (qc_flags q) V4L2_CTRL_FLAG_DISABLED <> 0 ->
  drv_queryctrl drv fd q k = (r, q, k) ->
  IOCTL_FAILED r = false ->
  forall (fuel : nat) (controls : list Control) (tr : list event),
    fst (listControls_loop drv fuel fd q controls (World k tr)) = None.
Proof.
  intros Hd Hq Hr. induction fuel as [|fuel IH]; intros controls tr.
  - reflexivity.
  - rewrite (listControls_loop_disabled fuel fd q controls (World k tr) r q k Hq Hr Hd).
    apply IH.
Qed.

End Enumeration.

Lemma Sim_exact_query_of_hue (fd : Z) (k : Sim.state) :
  Sim.controls k = [Sim.brightness; Sim.contrast; Sim.hue_disabled] ->
  Sim.queryctrl fd Sim.hue_disabled k = (0, Sim.hue_disabled, k).
Proof. intros H. unfold Sim.queryctrl. rewrite H. reflexivity. Qed.

(** C4 (what the code does). A device lists Brightness, Contrast and Hue,
    Hue disabled.  Its next-control queries come to an end: after Brightness
    comes Contrast, after Contrast Hue, after Hue the query fails.  Yet
    [listControls] does not return on it, whatever the fuel: the [continue]
    for Hue skips the step that sets the next-control flag, so Hue is
    queried again and again by its exact id. *)
Theorem listControls_never_returns_with_disabled_control :
  let k := Sim.camera_with_disabled in
  let next (id : Z) :=
    fst (Sim.queryctrl 3 (set_qc_id zero_queryctrl (Z.lor id V4L2_CTRL_FLAG_NEXT_CTRL)) k) in
  next V4L2_CID_USER_CLASS = (0, Sim.brightness) /\
  next (qc_id Sim.brightness) = (0, Sim.contrast) /\
  next (qc_id Sim.contrast) = (0, Sim.hue_disabled) /\
  fst (next (qc_id Sim.hue_disabled)) = -1 /\
  forall fuel : nat,
    fst (listControls Sim.driver fuel (set_fd Sim.device0 3) (Sim.boot k)) = None.
Proof.
  cbv zeta.
  split; [reflexivity |]. split; [reflexivity |]. split; [reflexivity |].
  split; [reflexivity |].
  intros [|[|[|fuel]]]; [reflexivity | reflexivity | reflexivity |].
  assert (H : forall (tr : list event) (acc : list Control),
             fst (listControls_loop Sim.driver fuel 3 Sim.hue_disabled acc
                    (World Sim.camera_with_disabled tr)) = None).
  { intros tr acc.
    apply (listControls_loop_stuck Sim.driver 3 Sim.hue_disabled
             Sim.camera_with_disabled 0); [discriminate | | reflexivity].
    apply Sim_exact_query_of_hue. reflexivity. }
  unfold listControls, bind, Sim.boot.
  cbn [fd_ set_fd].
  erewrite (listControls_loop_enabled Sim.driver (S (S fuel)) 3 _ _ _ 0 Sim.brightness
              Sim.camera_with_disabled);
    [| reflexivity | reflexivity | reflexivity | discriminate].
  erewrite (listControls_loop_enabled Sim.driver (S fuel) 3 _ _ _ 0 Sim.contrast
              Sim.camera_with_disabled);
    [| reflexivity | reflexivity | reflexivity | discriminate].
  erewrite (listControls_loop_disabled Sim.driver fuel 3 _ _ _ 0 Sim.hue_disabled
              Sim.camera_with_disabled);
    [| reflexivity | reflexivity | discriminate].
  match goal with |- context [listControls_loop Sim.driver fuel 3 _ ?acc (World _ ?tr)] =>
    pose proof (H tr acc) as Hstuck;
    destruct (listControls_loop Sim.driver fuel 3 Sim.hue_disabled acc
                (World Sim.camera_with_disabled tr)) as [o w']
  end.
  simpl in Hstuck. subst o. reflexivity.
Qed.

(** Without the disabled control the same enumeration returns after three
    queries, with both controls. *)
Example listControls_returns_without_disabled_control :
  let r := listControls Sim.driver 3 (set_fd Sim.device0 3) (Sim.boot Sim.camera) in
  option_map (fun d => map ctl_name (controls_ d)) (fst r)
  = Some ["Brightness"; "Contrast"] /\
  length (trace (snd r)) = 3%nat.
Proof. split; reflexivity. Qed.

(** * Further properties of the device layer *)

(** ** The buffer pool *)

Lemma live_mappings_ioctl_cons (fd : Z) (rq : request) (r : Z) (evs : list event) :
  live_mappings (EvIoctl fd rq r :: evs) = live_mappings evs.
Proof. reflexivity. Qed.

Section Pool.
Context {K : Type} (drv : Driver K).

(** The mapping loop writes the slots [i], [i+1], ... of the vector, one per
    mapping: after it the mappings the loop made are the regions of the
    slots it filled, in order, and the rest of the vector is as it was. *)
Lemma map_buffers_records (n : nat) :
  forall (fd i : Z) (buffers : list Buffer) (w : world K),
    0 <= i ->
    (Z.to_nat i + n <= length buffers)%nat ->
    exists (evs : list event) (m : nat),
      trace (snd (map_buffers drv n fd i buffers w)) = trace w ++ evs /\
      List.filter is_munmap evs = [] /\
      length (snd (fst (map_buffers drv n fd i buffers w))) = length buffers /\
      (m <= n)%nat /\
      live_mappings evs
      = map region (take m (drop (Z.to_nat i)
                              (snd (fst (map_buffers drv n fd i buffers w))))) /\
      Forall (fun b => buf_start b <> MAP_FAILED)
        (take m (drop (Z.to_nat i) (snd (fst (map_buffers drv n fd i buffers w))))) /\
      take (Z.to_nat i) (snd (fst (map_buffers drv n fd i buffers w)))
      = take (Z.to_nat i) buffers /\
      (fst (fst (map_buffers drv n fd i buffers w)) = true -> m = n).
Proof.
  induction n as [|n IH]; intros fd i buffers w Hi Hlen.
  - exists [], 0%nat. simpl. rewrite app_nil_r. repeat split; auto.
  - rewrite map_buffers_S.
    destruct (drv_querybuf drv fd (capture_buffer i) (kern w)) as [[r buf] k1].
    destruct (drv_mmap drv fd (vb_length buf) (vb_offset buf) k1) as [start k2].
    cbv zeta.
    set (b := {| buf_index := vb_index buf; buf_start := start;
                 buf_length := vb_length buf |}).
    destruct (MAP_FAILED =? start) eqn:Efail.
    + exists [EvIoctl fd (VIDIOC_QUERYBUF (capture_buffer i)) r;
              EvMmap fd (vb_length buf) (vb_offset buf) start], 0%nat.
      cbn [fst snd trace].
      split; [reflexivity |]. split; [reflexivity |].
      split; [apply length_insert |]. split; [lia |].
      split; [unfold live_mappings; cbn [fold_left step_mappings]; rewrite Efail;
              reflexivity |].
      split; [constructor |].
      split; [| discriminate].
      apply take_insert_ge. lia.
    + match goal with |- context [map_buffers drv n fd (i + 1) ?bs ?w1] =>
        destruct (IH fd (i + 1) bs w1) as
          (evs & m & Htr & Hno & Hlen' & Hm & Hlive & Hok & Htake & Hall)
      end; [lia | rewrite length_insert; lia |].
      set (res := map_buffers drv n fd (i + 1) (<[Z.to_nat i:=b]> buffers)
                    {| kern := k2;
                       trace := trace w ++
                                [EvIoctl fd (VIDIOC_QUERYBUF (capture_buffer i)) r;
                                 EvMmap fd (vb_length buf) (vb_offset buf) start] |}) in *.
      cbn [trace] in Htr.
      rewrite length_insert in Hlen'.
      assert (Hsucc : Z.to_nat (i + 1) = S (Z.to_nat i)) by lia.
      rewrite Hsucc in *.
      assert (Hat : snd (fst res) !! Z.to_nat i = Some b).
      { assert (H1 : take (S (Z.to_nat i)) (snd (fst res)) !! Z.to_nat i = Some b).
        { rewrite Htake. rewrite lookup_take_lt by lia.
          apply list_lookup_insert_eq. lia. }
        rewrite lookup_take_lt in H1 by lia. exact H1. }
      exists ([EvIoctl fd (VIDIOC_QUERYBUF (capture_buffer i)) r;
               EvMmap fd (vb_length buf) (vb_offset buf) start] ++ evs), (S m).
      split; [rewrite Htr, <- app_assoc; reflexivity |].
      split; [exact Hno |].
      split; [exact Hlen' |].
      split; [lia |].
      rewrite (drop_S _ _ _ Hat). cbn [take map].
      split.
      { rewrite live_mappings_app_no_unmap by exact Hno.
        rewrite <- Hlive. unfold live_mappings at 1.
        cbn [fold_left step_mappings]. rewrite Efail. reflexivity. }
      split.
      { constructor; [| exact Hok]. subst b. cbn [buf_start].
        intros Heq. rewrite Heq, Z.eqb_refl in Efail. discriminate. }
      split.
      { assert (H2 : take (Z.to_nat i) (take (S (Z.to_nat i)) (snd (fst res)))
                     = take (Z.to_nat i) (take (S (Z.to_nat i))
                                            (<[Z.to_nat i:=b]> buffers)))
          by (rewrite Htake; reflexivity).
        rewrite !take_take in H2.
        replace (Z.to_nat i `min` S (Z.to_nat i))%nat with (Z.to_nat i) in H2 by lia.
        rewrite H2. apply take_insert_ge. lia. }
      intros Htrue. rewrite (Hall Htrue). reflexivity.
Qed.

End Pool.

Section PoolAllocation.
Context {K : Type} (drv : Driver K).

Lemma initMemoryMapping_run (self : V4l2CameraDevice) (w : world K) :
  initMemoryMapping drv self w =
  let '(r, req, k1) := reqbufs_answer drv self w in
  let w1 := World k1 (trace w ++ [EvIoctl (fd_ self) (VIDIOC_REQBUFS alloc_request) r]) in
  if rb_count req <? 2 then (false, self, w1) else
  let '(ok, buffers, w2) :=
    map_buffers drv (Z.to_nat (rb_count req)) (fd_ self) 0
      (replicate (Z.to_nat (rb_count req)) zero_Buffer) w1 in
  (ok, set_buffers self buffers, w2).
Proof.
  unfold initMemoryMapping, reqbufs_answer, alloc_request.
  unfold ioctl_REQBUFS, call1, bind, ret.
  destruct (drv_reqbufs drv (fd_ self) _ (kern w)) as [[r req] k1].
  destruct (rb_count req <? 2); [reflexivity |].
  cbn [fd_ set_buffers buffers_].
  destruct (map_buffers drv _ _ _ _ _) as [[ok buffers] w2]. reflexivity.
Qed.

(** What a call of [initMemoryMapping] leaves behind, whatever it returns:
    the mappings it made are the regions of the first [m] buffers of the
    list, none of them [MAP_FAILED]; on success [m] is the whole list. *)
Lemma initMemoryMapping_records (self : V4l2CameraDevice) (w : world K) :
  2 <= granted drv self w ->
  exists (evs : list event) (m : nat),
    trace (snd (initMemoryMapping drv self w)) = trace w ++ evs /\
    List.filter is_munmap evs = [] /\
    length (buffers_ (snd (fst (initMemoryMapping drv self w))))
    = Z.to_nat (granted drv self w) /\
    live_mappings evs
    = map region (take m (buffers_ (snd (fst (initMemoryMapping drv self w))))) /\
    Forall (fun b => buf_start b <> MAP_FAILED)
      (take m (buffers_ (snd (fst (initMemoryMapping drv self w))))) /\
    (fst (fst (initMemoryMapping drv self w)) = true ->
     m = Z.to_nat (granted drv self w)).
Proof.
  unfold granted. rewrite initMemoryMapping_run.
  destruct (reqbufs_answer drv self w) as [[r req] k1]. cbn [fst snd].
  intros Hge. apply Z.ltb_ge in Hge. rewrite Hge. cbv zeta.
  match goal with |- context [map_buffers drv ?n ?fd 0 ?bs ?w1] =>
    destruct (map_buffers_records drv n fd 0 bs w1) as
      (evs & m & Htr & Hno & Hlen & Hm & Hlive & Hok & _ & Hall);
      [lia | rewrite length_replicate; simpl; lia |];
    destruct (map_buffers drv n fd 0 bs w1) as [[ok buffers] w2]
  end.
  cbn [fst snd trace buffers_ set_buffers] in *.
  change (Z.to_nat 0) with 0%nat in *. rewrite drop_0 in *.
  rewrite length_replicate in Hlen.
  exists (EvIoctl (fd_ self) (VIDIOC_REQBUFS alloc_request) r :: evs), m.
  split; [rewrite Htr, <- app_assoc; reflexivity |].
  split; [exact Hno |]. split; [exact Hlen |].
  split; [rewrite live_mappings_ioctl_cons; exact Hlive |].
  split; [exact Hok | exact Hall].
Qed.

Lemma initMemoryMapping_refuses_fewer_than_two_aux
    (self : V4l2CameraDevice) (w : world K) :
  granted drv self w < 2 -> fst (fst (initMemoryMapping drv self w)) = false.
Proof.
  unfold granted. rewrite initMemoryMapping_run.
  destruct (reqbufs_answer drv self w) as [[r req] k1]. cbn [fst snd].
  intros Hlt. apply Z.ltb_lt in Hlt. rewrite Hlt. reflexivity.
Qed.

(** X1. When the device grants fewer than two buffers, [initMemoryMapping]
    returns failure having issued the buffer request and nothing else: no
    buffer is queried or mapped, and the object, its buffer list included,
    is as it was. *)
Theorem initMemoryMapping_refuses_fewer_than_two
    (self : V4l2CameraDevice) (w : world K) :
  granted drv self w < 2 ->
  initMemoryMapping drv self w =
  (false, self,
   World (snd (reqbufs_answer drv self w))
         (trace w ++ [EvIoctl (fd_ self) (VIDIOC_REQBUFS alloc_request)
                        (fst (fst (reqbufs_answer drv self w)))])).
Proof.
  unfold granted. rewrite initMemoryMapping_run.
  destruct (reqbufs_answer drv self w) as [[r req] k1]. cbn [fst snd].
  intros Hlt. apply Z.ltb_lt in Hlt. rewrite Hlt. reflexivity.
Qed.

(** X2. When [initMemoryMapping] returns success, the buffer list has
    exactly as many buffers as the device granted, at least two, none with
    [MAP_FAILED] as its start, and the mappings the call made are exactly
    the regions of the list, in the order of the list. *)
Theorem initMemoryMapping_success_records_pool
    (self : V4l2CameraDevice) (w : world K) :
  fst (fst (initMemoryMapping drv self w)) = true ->
  let self' := snd (fst (initMemoryMapping drv self w)) in
  2 <= granted drv self w /\
  Z.of_nat (length (buffers_ self')) = granted drv self w /\
  Forall (fun b => buf_start b <> MAP_FAILED) (buffers_ self') /\
  exists evs : list event,
    trace (snd (initMemoryMapping drv self w)) = trace w ++ evs /\
    live_mappings evs = map region (buffers_ self').
Proof.
  intros Hok self'.
  assert (Hge : 2 <= granted drv self w).
  { destruct (Z.lt_ge_cases (granted drv self w) 2) as [Hlt | Hge]; [| exact Hge].
    rewrite (initMemoryMapping_refuses_fewer_than_two_aux self w Hlt) in Hok.
    discriminate. }
  destruct (initMemoryMapping_records self w Hge)
    as (evs & m & Htr & Hno & Hlen & Hlive & Hstart & Hall).
  specialize (Hall Hok). subst self'.
  rewrite Hall, <- Hlen, firstn_all in Hlive, Hstart.
  split; [exact Hge |]. split; [rewrite Hlen; lia |].
  split; [exact Hstart |].
  exists evs. split; [exact Htr | exact Hlive].
Qed.

End PoolAllocation.

Lemma initMemoryMapping_refuses_fewer_than_two_witness :
  let d := fst (Sim.opened Bench.camera_one_buffer) in
  let w := snd (Sim.opened Bench.camera_one_buffer) in
  granted Sim.driver d w < 2 /\
  initMemoryMapping Sim.driver d w =
  (false, d,
   World (snd (reqbufs_answer Sim.driver d w))
         (trace w ++ [EvIoctl (fd_ d) (VIDIOC_REQBUFS alloc_request)
                        (fst (fst (reqbufs_answer Sim.driver d w)))])).
Proof.
  intros d w.
  assert (H : granted Sim.driver d w < 2) by (vm_compute; reflexivity).
  split; [exact H |].
  exact (initMemoryMapping_refuses_fewer_than_two Sim.driver d w H).
Defined.

Lemma initMemoryMapping_success_records_pool_witness :
  let d := fst (Sim.opened Sim.camera) in
  let w := snd (Sim.opened Sim.camera) in
  let self' := snd (fst (initMemoryMapping Sim.driver d w)) in
  fst (fst (initMemoryMapping Sim.driver d w)) = true /\
  2 <= granted Sim.driver d w /\
  Z.of_nat (length (buffers_ self')) = granted Sim.driver d w /\
  Forall (fun b => buf_start b <> MAP_FAILED) (buffers_ self') /\
  exists evs : list event,
    trace (snd (initMemoryMapping Sim.driver d w)) = trace w ++ evs /\
    live_mappings evs = map region (buffers_ self').
Proof.
  intros d w self'.
  assert (H : fst (fst (initMemoryMapping Sim.driver d w)) = true) by reflexivity.
  split; [exact H |].
  exact (initMemoryMapping_success_records_pool Sim.driver d w H).
Defined.

(** ** Starting and stopping *)

Lemma ioctls_keep_mappings (evs : list event) :
  forallb is_ioctl evs = true ->
  forall m : list (Z * Z), fold_left step_mappings evs m = m.
Proof.
  induction evs as [|e evs IH]; intros H m; [reflexivity |].
  destruct e; try discriminate. cbn [forallb is_ioctl andb] in H.
  cbn [fold_left step_mappings]. apply IH. exact H.
Qed.

Lemma ioctls_map_nothing (evs : list event) :
  forallb is_ioctl evs = true -> live_mappings evs = [].
Proof. intros H. apply (ioctls_keep_mappings evs H). Qed.

Section Lifecycle.
Context {K : Type} (drv : Driver K).

Lemma initMemoryMapping_keeps_fd (self : V4l2CameraDevice) (w : world K) :
  fd_ (snd (fst (initMemoryMapping drv self w))) = fd_ self.
Proof.
  rewrite initMemoryMapping_run.
  destruct (reqbufs_answer drv self w) as [[r req] k1].
  destruct (rb_count req <? 2); [reflexivity |]. cbv zeta.
  destruct (map_buffers drv _ _ _ _ _) as [[ok buffers] w2]. reflexivity.
Qed.

(** Every mapping [initMemoryMapping] made is the region of a buffer of the
    list it leaves, whether it succeeded or not. *)
Lemma initMemoryMapping_live_recorded (self : V4l2CameraDevice) (w : world K) :
  exists evs : list event,
    trace (snd (initMemoryMapping drv self w)) = trace w ++ evs /\
    List.filter is_munmap evs = [] /\
    forall x : Z * Z,
      In x (live_mappings evs) ->
      exists b : Buffer,
        In b (buffers_ (snd (fst (initMemoryMapping drv self w)))) /\ region b = x.
Proof.
  destruct (Z.lt_ge_cases (granted drv self w) 2) as [Hlt | Hge].
  - unfold granted in Hlt. rewrite initMemoryMapping_run.
    destruct (reqbufs_answer drv self w) as [[r req] k1]. cbn [fst snd] in *.
    apply Z.ltb_lt in Hlt. rewrite Hlt. cbn [fst snd trace].
    eexists [_]. split; [reflexivity |]. split; [reflexivity |].
    intros x Hx. destruct Hx.
  - destruct (initMemoryMapping_records drv self w Hge)
      as (evs & m & Htr & Hno & Hlen & Hlive & Hstart & Hall).
    exists evs. split; [exact Htr |]. split; [exact Hno |].
    intros x Hx. rewrite Hlive in Hx. apply in_map_iff in Hx.
    destruct Hx as (b & Hb & Hin). exists b. split; [| exact Hb].
    apply list_elem_of_In. apply list_elem_of_In in Hin.
    apply elem_of_take in Hin. destruct Hin as (i & Hi & _).
    eapply list_elem_of_lookup_2. exact Hi.
Qed.

Lemma queue_buffers_cons (fd : Z) (b : Buffer) (bs : list Buffer) (w : world K) :
  queue_buffers drv fd (b :: bs) w =
  let '(r, _, k1) := drv_qbuf drv fd (capture_buffer (buf_index b)) (kern w) in
  let w1 := World k1 (trace w ++ [EvIoctl fd (VIDIOC_QBUF (capture_buffer (buf_index b))) r]) in
  if IOCTL_FAILED r then (false, w1) else queue_buffers drv fd bs w1.
Proof.
  cbn [queue_buffers]. unfold ioctl_QBUF, call1, bind, ret.
  destruct (drv_qbuf drv fd (capture_buffer (buf_index b)) (kern w)) as [[r buf] k1].
  destruct (IOCTL_FAILED r); reflexivity.
Qed.

Lemma queue_buffers_ok (fd : Z) (buffers : list Buffer) :
  forall w : world K,
    fst (queue_buffers drv fd buffers w) = true ->
    exists evs : list event,
      trace (snd (queue_buffers drv fd buffers w)) = trace w ++ evs /\
      Forall2 (queued_ok fd) buffers evs.
Proof.
  induction buffers as [|b bs IH]; intros w.
  - intros _. exists []. cbn. rewrite app_nil_r. split; [reflexivity | constructor].
  - rewrite queue_buffers_cons.
    destruct (drv_qbuf drv fd (capture_buffer (buf_index b)) (kern w)) as [[r buf] k1].
    cbv zeta. destruct (IOCTL_FAILED r) eqn:Er; [discriminate |].
    intros Hok. destruct (IH _ Hok) as (evs & Htr & Hall).
    exists (EvIoctl fd (VIDIOC_QBUF (capture_buffer (buf_index b))) r :: evs).
    rewrite Htr. cbn [trace]. rewrite <- app_assoc.
    split; [reflexivity |]. constructor; [| exact Hall].
    exists r. auto.
Qed.

Lemma stop_run (self : V4l2CameraDevice) (w : world K) :
  stop drv self w =
  let r := streamoff_answer drv self w in
  let w1 := World (snd (drv_streamoff drv (fd_ self) V4L2_BUF_TYPE_VIDEO_CAPTURE (kern w)))
              (trace w ++ [EvIoctl (fd_ self)
                             (VIDIOC_STREAMOFF V4L2_BUF_TYPE_VIDEO_CAPTURE) r]) in
  if IOCTL_FAILED r then (false, self, w1) else
  let w2 := snd (unmap_buffers drv (buffers_ self) w1) in
  let '(r', _, k3) := drv_reqbufs drv (fd_ self) free_request (kern w2) in
  (true, set_buffers self [],
   World k3 (trace w2 ++ [EvIoctl (fd_ self) (VIDIOC_REQBUFS free_request) r'])).
Proof.
  unfold stop, streamoff_answer, free_request.
  unfold ioctl_STREAMOFF, ioctl_REQBUFS, call0, call1, bind, ret.
  destruct (drv_streamoff drv (fd_ self) V4L2_BUF_TYPE_VIDEO_CAPTURE (kern w)) as [r k1].
  cbn [fst snd]. destruct (IOCTL_FAILED r); [reflexivity |].
  destruct (unmap_buffers drv (buffers_ self) _) as [[] w2]. cbn [fst snd fd_ set_buffers].
  destruct (drv_reqbufs drv (fd_ self) _ (kern w2)) as [[r' req'] k3]. reflexivity.
Qed.

End Lifecycle.

Section StartStop.
Context {K : Type} (drv : Driver K).

Lemma map_buffers_alloc_events (n : nat) :
  forall (fd i : Z) (buffers : list Buffer) (w : world K),
  exists evs : list event,
    trace (snd (map_buffers drv n fd i buffers w)) = trace w ++ evs /\
    forallb is_alloc_event evs = true.
Proof.
  induction n as [|n IH]; intros fd i buffers w.
  - exists []. cbn. rewrite app_nil_r. auto.
  - rewrite map_buffers_S.
    destruct (drv_querybuf drv fd (capture_buffer i) (kern w)) as [[r buf] k1].
    destruct (drv_mmap drv fd (vb_length buf) (vb_offset buf) k1) as [start k2].
    cbv zeta. destruct (MAP_FAILED =? start).
    + eexists [_; _]. cbn [snd trace]. split; reflexivity.
    + match goal with |- context [map_buffers drv n fd (i + 1) ?bs ?w1] =>
        destruct (IH fd (i + 1) bs w1) as (evs & Htr & Hall)
      end.
      eexists ([_; _] ++ evs). rewrite Htr. cbn [trace]. rewrite <- app_assoc.
      split; [reflexivity |]. cbn. exact Hall.
Qed.

Lemma initMemoryMapping_alloc_events (self : V4l2CameraDevice) (w : world K) :
  exists evs : list event,
    trace (snd (initMemoryMapping drv self w)) = trace w ++ evs /\
    forallb is_alloc_event evs = true.
Proof.
  rewrite initMemoryMapping_run.
  destruct (reqbufs_answer drv self w) as [[r req] k1].
  destruct (rb_count req <? 2).
  - eexists [_]. split; reflexivity.
  - cbv zeta.
    match goal with |- context [map_buffers drv ?n ?fd ?i ?bs ?w1] =>
      destruct (map_buffers_alloc_events n fd i bs w1) as (evs & Htr & Hall);
      destruct (map_buffers drv n fd i bs w1) as [[ok buffers] w2]
    end.
    cbn [fst snd trace] in *. eexists (_ :: evs). rewrite Htr, <- app_assoc.
    split; [reflexivity |]. cbn. exact Hall.
Qed.

Lemma queue_buffers_events (fd : Z) (buffers : list Buffer) :
  forall w : world K,
  exists evs : list event,
    trace (snd (queue_buffers drv fd buffers w)) = trace w ++ evs /\
    forallb is_QBUF evs = true.
Proof.
  induction buffers as [|b bs IH]; intros w.
  - exists []. cbn. rewrite app_nil_r. auto.
  - rewrite queue_buffers_cons.
    destruct (drv_qbuf drv fd (capture_buffer (buf_index b)) (kern w)) as [[r buf] k1].
    cbv zeta. destruct (IOCTL_FAILED r).
    + eexists [_]. split; reflexivity.
    + match goal with |- context [queue_buffers drv fd bs ?w1] =>
        destruct (IH w1) as (evs & Htr & Hall)
      end.
      eexists (_ :: evs). rewrite Htr. cbn [trace]. rewrite <- app_assoc.
      split; [reflexivity |]. cbn. exact Hall.
Qed.

(** The shape of the events of [start]: those of the allocation, then the
    queueing of buffers, then at most one stream-enable request, issued
    only once the allocation succeeded and every buffer was queued. *)
Lemma start_shape (self : V4l2CameraDevice) (w : world K) :
  exists (evs1 evs2 tail : list event),
    trace (snd (initMemoryMapping drv self w)) = trace w ++ evs1 /\
    forallb is_alloc_event evs1 = true /\
    forallb is_QBUF evs2 = true /\
    trace (snd (start drv self w)) = trace w ++ evs1 ++ evs2 ++ tail /\
    snd (fst (start drv self w)) = snd (fst (initMemoryMapping drv self w)) /\
    ((tail = [] /\ fst (fst (start drv self w)) = false) \/
     (exists r : Z,
        tail = [EvIoctl (fd_ self) (VIDIOC_STREAMON V4L2_BUF_TYPE_VIDEO_CAPTURE) r] /\
        fst (fst (start drv self w)) = negb (IOCTL_FAILED r) /\
        fst (fst (initMemoryMapping drv self w)) = true /\
        Forall2 (queued_ok (fd_ self))
          (buffers_ (snd (fst (initMemoryMapping drv self w)))) evs2)).
Proof.
  rewrite start_run.
  destruct (initMemoryMapping_alloc_events self w) as (evs1 & Htr1 & Hall1).
  pose proof (initMemoryMapping_keeps_fd drv self w) as Hfd.
  destruct (initMemoryMapping drv self w) as [[ok1 self1] w1]. cbn [fst snd] in *.
  destruct ok1.
  - destruct (queue_buffers_events (fd_ self1) (buffers_ self1) w1) as (evs2 & Htr2 & Hall2).
    pose proof (queue_buffers_ok drv (fd_ self1) (buffers_ self1) w1) as Hq.
    destruct (queue_buffers drv (fd_ self1) (buffers_ self1) w1) as [ok2 w2].
    cbn [fst snd] in *.
    destruct ok2.
    + destruct (Hq eq_refl) as (evs2' & Htr2' & Hq2).
      assert (evs2' = evs2) by (rewrite Htr2 in Htr2'; eapply app_inv_head; eauto).
      subst evs2'.
      destruct (drv_streamon drv (fd_ self1) V4L2_BUF_TYPE_VIDEO_CAPTURE (kern w2))
        as [r k3]. cbn [fst snd trace].
      exists evs1, evs2,
        [EvIoctl (fd_ self) (VIDIOC_STREAMON V4L2_BUF_TYPE_VIDEO_CAPTURE) r].
      rewrite Hfd in *.
      split; [exact Htr1 |]. split; [exact Hall1 |]. split; [exact Hall2 |].
      split; [rewrite Htr2, Htr1, <- !app_assoc; reflexivity |].
      split; [reflexivity |].
      right. exists r. auto.
    + exists evs1, evs2, []. rewrite app_nil_r. cbn [fst snd].
      split; [exact Htr1 |]. split; [exact Hall1 |]. split; [exact Hall2 |].
      split; [rewrite Htr2, Htr1, <- app_assoc; reflexivity |].
      split; [reflexivity |]. left. auto.
  - exists evs1, [], []. rewrite !app_nil_r. cbn [fst snd].
    split; [exact Htr1 |]. split; [exact Hall1 |]. split; [reflexivity |].
    split; [exact Htr1 |]. split; [reflexivity |]. left. auto.
Qed.

Lemma alloc_events_no_streamon (evs : list event) :
  forallb is_alloc_event evs = true -> List.filter is_STREAMON evs = [].
Proof.
  induction evs as [|e evs IH]; [reflexivity |]. cbn [forallb].
  intros H. apply andb_true_iff in H. destruct H as [He H].
  destruct e as [| fd rq r | | | |]; try discriminate; cbn [List.filter is_STREAMON].
  - destruct rq; try discriminate; apply IH; exact H.
  - apply IH; exact H.
Qed.

Lemma qbuf_events_no_streamon (evs : list event) :
  forallb is_QBUF evs = true -> List.filter is_STREAMON evs = [].
Proof.
  induction evs as [|e evs IH]; [reflexivity |]. cbn [forallb].
  intros H. apply andb_true_iff in H. destruct H as [He H].
  destruct e as [| fd rq r | | | |]; try discriminate.
  destruct rq; try discriminate. cbn [List.filter is_STREAMON]. apply IH; exact H.
Qed.

(** X3. When [start] returns success, what it did after the allocation is
    to queue every buffer of the list once, in the order of the list and
    each with success, and then, as the last call, to enable the stream,
    with success. *)
Theorem start_success_queues_pool_then_streams
    (self : V4l2CameraDevice) (w : world K) :
  fst (fst (start drv self w)) = true ->
  exists (evs1 qbufs : list event) (r : Z),
    trace (snd (initMemoryMapping drv self w)) = trace w ++ evs1 /\
    Forall2 (queued_ok (fd_ self)) (buffers_ (snd (fst (start drv self w)))) qbufs /\
    IOCTL_FAILED r = false /\
    trace (snd (start drv self w)) =
    trace w ++ evs1 ++ qbufs
            ++ [EvIoctl (fd_ self) (VIDIOC_STREAMON V4L2_BUF_TYPE_VIDEO_CAPTURE) r].
Proof.
  intros Hok.
  destruct (start_shape self w)
    as (evs1 & evs2 & tail & Htr1 & _ & _ & Htr & Hself & Hcase).
  destruct Hcase as [[_ Hfalse] | (r & Htail & Hres & _ & Hq)].
  - rewrite Hfalse in Hok. discriminate.
  - exists evs1, evs2, r. rewrite Hself, Htr, Htail.
    split; [exact Htr1 |]. split; [exact Hq |]. split; [| reflexivity].
    rewrite Hok in Hres. destruct (IOCTL_FAILED r); [discriminate | reflexivity].
Qed.

(** X4. When [start] returns failure it has not enabled the stream: among
    the events of the call there is no stream-enable request that the
    device accepted. *)
Theorem start_failure_never_streams (self : V4l2CameraDevice) (w : world K) :
  fst (fst (start drv self w)) = false ->
  exists evs : list event,
    trace (snd (start drv self w)) = trace w ++ evs /\
    List.filter (fun e => is_STREAMON e && negb (call_failed e)) evs = [].
Proof.
  intros Hfail.
  destruct (start_shape self w)
    as (evs1 & evs2 & tail & _ & Hall1 & Hall2 & Htr & _ & Hcase).
  exists (evs1 ++ evs2 ++ tail). split; [exact Htr |].
  assert (Hnone : forall evs, List.filter is_STREAMON evs = [] ->
            List.filter (fun e => is_STREAMON e && negb (call_failed e)) evs = []).
  { intros evs. induction evs as [|e evs IH]; [reflexivity |].
    cbn [List.filter]. destruct (is_STREAMON e); [discriminate |]. exact IH. }
  rewrite !List.filter_app.
  rewrite (Hnone _ (alloc_events_no_streamon evs1 Hall1)).
  rewrite (Hnone _ (qbuf_events_no_streamon evs2 Hall2)).
  destruct Hcase as [[-> _] | (r & -> & Hres & _)]; [reflexivity |].
  rewrite Hfail in Hres. cbn [List.filter is_STREAMON call_failed app].
  destruct (IOCTL_FAILED r); [reflexivity | discriminate].
Qed.

End StartStop.

Lemma qbuf_events_are_ioctls (evs : list event) :
  forallb is_QBUF evs = true -> forallb is_ioctl evs = true.
Proof.
  induction evs as [|e evs IH]; [reflexivity |]. cbn [forallb].
  intros H. apply andb_true_iff in H. destruct H as [He H].
  destruct e; try discriminate. cbn. apply IH. exact H.
Qed.

Lemma live_mappings_app (tr evs : list event) :
  live_mappings (tr ++ evs) = fold_left step_mappings evs (live_mappings tr).
Proof. unfold live_mappings. apply fold_left_app. Qed.

Section Release.
Context {K : Type} (drv : Driver K).

(** If every live mapping is the region of a buffer of the list, a [stop]
    whose stream-disable request succeeds leaves nothing mapped (on a system
    where [munmap] does not fail). *)
Lemma stop_releases_recorded (self : V4l2CameraDevice) (w : world K) :
  (forall (a l : Z) (k : K), fst (drv_munmap drv a l k) = 0) ->
  (forall x : Z * Z, In x (live_mappings (trace w)) ->
     exists b : Buffer, In b (buffers_ self) /\ region b = x) ->
  IOCTL_FAILED (streamoff_answer drv self w) = false ->
  live_mappings (trace (snd (stop drv self w))) = [] /\
  buffers_ (snd (fst (stop drv self w))) = [].
Proof.
  intros Hmunmap Hrec Hoff. rewrite stop_run. cbv zeta. rewrite Hoff.
  match goal with |- context [unmap_buffers drv (buffers_ self) ?w1] =>
    destruct (unmap_buffers_trace drv (buffers_ self) w1) as (unmaps & Htr & Hall & Hzero);
    set (w2 := snd (unmap_buffers drv (buffers_ self) w1)) in *
  end.
  destruct (drv_reqbufs drv (fd_ self) free_request (kern w2)) as [[r' req'] k3].
  cbn [fst snd trace buffers_ set_buffers] in *.
  split; [| reflexivity].
  rewrite Htr, !live_mappings_app. cbn [fold_left step_mappings].
  destruct (fold_left step_mappings unmaps (live_mappings (trace w))) as [|x rest] eqn:E;
    [reflexivity | exfalso].
  assert (Hx : In x (fold_left step_mappings unmaps (live_mappings (trace w))))
    by (rewrite E; left; reflexivity).
  pose proof (munmaps_only_remove (buffers_ self) unmaps Hall _ _ Hx) as Hlive.
  destruct (Hrec x Hlive) as (b & Hb & Hreg).
  apply (unmapped_regions_gone (buffers_ self) unmaps Hall (Hzero Hmunmap)
           (live_mappings (trace w)) b Hb).
  unfold region in Hreg. rewrite Hreg. exact Hx.
Qed.

(** After [start], whatever it returned, every live mapping is recorded in
    the buffer list, provided nothing was mapped before. *)
Lemma start_live_recorded (self : V4l2CameraDevice) (w : world K) :
  live_mappings (trace w) = [] ->
  forall x : Z * Z,
    In x (live_mappings (trace (snd (start drv self w)))) ->
    exists b : Buffer, In b (buffers_ (snd (fst (start drv self w)))) /\ region b = x.
Proof.
  intros Hnone x.
  destruct (start_shape drv self w)
    as (evs1 & evs2 & tail & Htr1 & _ & Hall2 & Htr & Hself & Hcase).
  destruct (initMemoryMapping_live_recorded drv self w) as (evs1' & Htr1' & Hno & Hrec).
  assert (evs1' = evs1) by (rewrite Htr1 in Htr1'; eapply app_inv_head; eauto).
  subst evs1'.
  rewrite Hself, Htr.
  rewrite !app_assoc, <- (app_assoc (trace w ++ evs1)).
  rewrite live_mappings_app.
  rewrite ioctls_keep_mappings.
  - rewrite live_mappings_app_no_unmap by exact Hno. rewrite Hnone. cbn [app].
    apply Hrec.
  - rewrite forallb_app, (qbuf_events_are_ioctls evs2 Hall2).
    destruct Hcase as [[-> _] | (r & -> & _)]; reflexivity.
Qed.

(** X5. A [start] followed by a [stop] leaves nothing mapped: if no mapping
    was live before [start] and the stream-disable request of [stop]
    succeeds, then after [stop] no mapping is live and the buffer list is
    empty, whether [start] had succeeded or failed part-way (on a system
    where [munmap] does not fail). *)
Theorem start_then_stop_releases_everything
    (self : V4l2CameraDevice) (w : world K) :
  (forall (a l : Z) (k : K), fst (drv_munmap drv a l k) = 0) ->
  live_mappings (trace w) = [] ->
  let self1 := snd (fst (start drv self w)) in
  let w1 := snd (start drv self w) in
  IOCTL_FAILED (streamoff_answer drv self1 w1) = false ->
  live_mappings (trace (snd (stop drv self1 w1))) = [] /\
  buffers_ (snd (fst (stop drv self1 w1))) = [].
Proof.
  intros Hmunmap Hnone self1 w1 Hoff.
  apply stop_releases_recorded; [exact Hmunmap | | exact Hoff].
  apply start_live_recorded. exact Hnone.
Qed.

(** X6. Once [stop] has returned success the buffer list is empty, and a
    further [stop] unmaps nothing and leaves the list empty, whether its
    own stream-disable request succeeds or not. *)
Theorem stop_again_unmaps_nothing (self : V4l2CameraDevice) (w : world K) :
  fst (fst (stop drv self w)) = true ->
  let self1 := snd (fst (stop drv self w)) in
  let w1 := snd (stop drv self w) in
  buffers_ self1 = [] /\
  buffers_ (snd (fst (stop drv self1 w1))) = [] /\
  exists evs : list event,
    trace (snd (stop drv self1 w1)) = trace w1 ++ evs /\
    List.filter is_munmap evs = [] /\
    live_mappings (trace (snd (stop drv self1 w1))) = live_mappings (trace w1).
Proof.
  intros Hok self1 w1.
  assert (Hempty : buffers_ self1 = []).
  { subst self1. revert Hok. rewrite stop_run. cbv zeta.
    destruct (IOCTL_FAILED (streamoff_answer drv self w)); [discriminate |].
    destruct (drv_reqbufs drv _ _ _) as [[r' req'] k3]. reflexivity. }
  split; [exact Hempty |].
  rewrite (stop_run drv self1 w1). cbv zeta. rewrite Hempty.
  destruct (IOCTL_FAILED (streamoff_answer drv self1 w1)).
  - cbn [fst snd trace]. split; [exact Hempty |].
    eexists [_]. split; [reflexivity |]. split; [reflexivity |].
    rewrite live_mappings_app. reflexivity.
  - cbn [unmap_buffers]. unfold ret. cbn [fst snd].
    destruct (drv_reqbufs drv _ _ _) as [[r' req'] k3].
    cbn [fst snd trace buffers_ set_buffers]. split; [reflexivity |].
    eexists [_; _]. rewrite <- app_assoc. split; [reflexivity |].
    split; [reflexivity |].
    rewrite live_mappings_app. reflexivity.
Qed.

End Release.

Lemma start_success_queues_pool_then_streams_witness :
  let d := fst (Sim.opened Sim.camera) in
  let w := snd (Sim.opened Sim.camera) in
  fst (fst (start Sim.driver d w)) = true /\
  exists (evs1 qbufs : list event) (r : Z),
    trace (snd (initMemoryMapping Sim.driver d w)) = trace w ++ evs1 /\
    Forall2 (queued_ok (fd_ d)) (buffers_ (snd (fst (start Sim.driver d w)))) qbufs /\
    IOCTL_FAILED r = false /\
    trace (snd (start Sim.driver d w)) =
    trace w ++ evs1 ++ qbufs
            ++ [EvIoctl (fd_ d) (VIDIOC_STREAMON V4L2_BUF_TYPE_VIDEO_CAPTURE) r].
Proof.
  intros d w.
  assert (H : fst (fst (start Sim.driver d w)) = true) by reflexivity.
  split; [exact H |].
  exact (start_success_queues_pool_then_streams Sim.driver d w H).
Defined.

Lemma start_failure_never_streams_witness :
  let d := fst (Sim.opened Sim.camera_third_mmap_fails) in
  let w := snd (Sim.opened Sim.camera_third_mmap_fails) in
  fst (fst (start Sim.driver d w)) = false /\
  exists evs : list event,
    trace (snd (start Sim.driver d w)) = trace w ++ evs /\
    List.filter (fun e => is_STREAMON e && negb (call_failed e)) evs = [].
Proof.
  intros d w.
  assert (H : fst (fst (start Sim.driver d w)) = false) by reflexivity.
  split; [exact H |].
  exact (start_failure_never_streams Sim.driver d w H).
Defined.

(** Here [start] fails at the third mapping and [stop] still releases the
    two mappings made before it. *)
Lemma start_then_stop_releases_everything_witness :
  let d := fst (Sim.opened Sim.camera_third_mmap_fails) in
  let w := snd (Sim.opened Sim.camera_third_mmap_fails) in
  let self1 := snd (fst (start Sim.driver d w)) in
  let w1 := snd (start Sim.driver d w) in
  (forall (a l : Z) (k : Sim.state), fst (drv_munmap Sim.driver a l k) = 0) /\
  live_mappings (trace w) = [] /\
  length (live_mappings (trace w1)) = 2%nat /\
  IOCTL_FAILED (streamoff_answer Sim.driver self1 w1) = false /\
  live_mappings (trace (snd (stop Sim.driver self1 w1))) = [] /\
  buffers_ (snd (fst (stop Sim.driver self1 w1))) = [].
Proof.
  intros d w self1 w1.
  assert (H0 : forall (a l : Z) (k : Sim.state), fst (drv_munmap Sim.driver a l k) = 0)
    by (intros; reflexivity).
  assert (H1 : live_mappings (trace w) = []) by reflexivity.
  assert (H2 : IOCTL_FAILED (streamoff_answer Sim.driver self1 w1) = false)
    by reflexivity.
  split; [exact H0 |]. split; [exact H1 |]. split; [reflexivity |].
  split; [exact H2 |].
  exact (start_then_stop_releases_everything Sim.driver d w H0 H1 H2).
Defined.

Lemma stop_again_unmaps_nothing_witness :
  let d := fst (Sim.started Sim.camera) in
  let w := snd (Sim.started Sim.camera) in
  let self1 := snd (fst (stop Sim.driver d w)) in
  let w1 := snd (stop Sim.driver d w) in
  fst (fst (stop Sim.driver d w)) = true /\
  buffers_ self1 = [] /\
  buffers_ (snd (fst (stop Sim.driver self1 w1))) = [] /\
  exists evs : list event,
    trace (snd (stop Sim.driver self1 w1)) = trace w1 ++ evs /\
    List.filter is_munmap evs = [] /\
    live_mappings (trace (snd (stop Sim.driver self1 w1))) = live_mappings (trace w1).
Proof.
  intros d w self1 w1.
  assert (H : fst (fst (stop Sim.driver d w)) = true) by reflexivity.
  split; [exact H |].
  exact (stop_again_unmaps_nothing Sim.driver d w H).
Defined.

(** ** Capturing *)

Section CaptureFailure.
Context {K : Type} (drv : Driver K).

(** X7. [capture] returns the null pointer exactly when the dequeue fails
    or, the dequeue having succeeded, the requeue fails.  It has then read
    no memory, and after a failed dequeue it has not requeued anything: the
    dequeue is the only call it made. *)
Theorem capture_null_exactly_when_a_request_fails
    (self : V4l2CameraDevice) (w : world K) :
  let r0 := fst (fst (dequeue_answer drv self w)) in
  let b0 := snd (fst (dequeue_answer drv self w)) in
  let r1 := fst (fst (requeue_answer drv self w)) in
  let dq := EvIoctl (fd_ self) (VIDIOC_DQBUF (capture_buffer 0)) r0 in
  (fst (capture drv self w) = Returned None <->
   IOCTL_FAILED r0 = true \/ (IOCTL_FAILED r0 = false /\ IOCTL_FAILED r1 = true)) /\
  (IOCTL_FAILED r0 = true -> trace (snd (capture drv self w)) = trace w ++ [dq]) /\
  (IOCTL_FAILED r0 = false -> IOCTL_FAILED r1 = true ->
   trace (snd (capture drv self w))
   = trace w ++ [dq; EvIoctl (fd_ self) (VIDIOC_QBUF b0) r1]).
Proof.
  cbv zeta. rewrite capture_run. unfold requeue_answer. cbv zeta.
  destruct (dequeue_answer drv self w) as [[r0 b0] k0]. cbn [fst snd].
  destruct (IOCTL_FAILED r0) eqn:E0.
  - cbn [fst snd trace]. split; [| split]; [| reflexivity | discriminate].
    split; [intros _; left; reflexivity | reflexivity].
  - destruct (drv_qbuf drv (fd_ self) b0 k0) as [[r1 b1] k1]. cbn [fst snd].
    destruct (IOCTL_FAILED r1) eqn:E1.
    + cbn [fst snd trace]. split; [| split]; [| discriminate |].
      * split; [intros _; right; auto | reflexivity].
      * intros _ _. rewrite <- app_assoc. reflexivity.
    + split; [| split]; [| discriminate | discriminate].
      split; [| intros [H | [_ H]]; discriminate].
      destruct (buffers_ self !! Z.to_nat (vb_index b1)) as [buffer|]; discriminate.
Qed.

End CaptureFailure.

(** The streaming camera once its queue of filled buffers has run dry. *)
Lemma capture_null_exactly_when_a_request_fails_witness :
  let d := fst (Sim.opened Sim.camera) in
  let w := snd (Sim.opened Sim.camera) in
  IOCTL_FAILED (fst (fst (dequeue_answer Sim.driver d w))) = true /\
  fst (capture Sim.driver d w) = Returned None /\
  trace (snd (capture Sim.driver d w))
  = trace w ++ [EvIoctl (fd_ d) (VIDIOC_DQBUF (capture_buffer 0))
                  (fst (fst (dequeue_answer Sim.driver d w)))].
Proof.
  intros d w.
  assert (H : IOCTL_FAILED (fst (fst (dequeue_answer Sim.driver d w))) = true)
    by reflexivity.
  destruct (capture_null_exactly_when_a_request_fails Sim.driver d w)
    as (Hiff & Hdq & _).
  split; [exact H |]. split; [apply Hiff; left; exact H | exact (Hdq H)].
Defined.

(** ** Enumerating the formats *)

Section FormatEnumeration.
Context {K : Type} (drv : Driver K).

Lemma listImageFormats_loop_S (fuel : nat) (fd : Z) (fmtDesc : v4l2_fmtdesc)
    (acc : list ImageFormat) (w : world K) :
  listImageFormats_loop drv (S fuel) fd fmtDesc acc w =
  let '(r, d', k1) := drv_enum_fmt drv fd fmtDesc (kern w) in
  let w1 := World k1 (trace w ++ [EvIoctl fd (VIDIOC_ENUM_FMT fmtDesc) r]) in
  if IOCTL_FAILED r then (Some acc, w1)
  else listImageFormats_loop drv fuel fd
         {| fd_index := u32 (fd_index d' + 1); fd_type := fd_type d';
            fd_description := fd_description d'; fd_pixelformat := fd_pixelformat d' |}
         (acc ++ [ImageFormat_of d']) w1.
Proof.
  cbn [listImageFormats_loop]. unfold ioctl_ENUM_FMT, call1, bind, ret.
  destruct (drv_enum_fmt drv fd fmtDesc (kern w)) as [[r d'] k1].
  destruct (IOCTL_FAILED r); reflexivity.
Qed.

Lemma listImageFormats_loop_table (fd : Z) (k : K) (fs : list ImageFormat) :
  enumerates_formats drv fd k fs ->
  Z.of_nat (length fs) < 2 ^ 32 ->
  forall (m : nat) (fuel : nat) (d : v4l2_fmtdesc) (acc : list ImageFormat)
         (tr : list event),
    0 <= fd_index d ->
    (Z.to_nat (fd_index d) + m = length fs)%nat ->
    (m < fuel)%nat ->
    exists tr' : list event,
      listImageFormats_loop drv fuel fd d acc (World k tr)
      = (Some (acc ++ drop (Z.to_nat (fd_index d)) fs), World k tr') /\
      length tr' = (length tr + m + 1)%nat.
Proof.
  intros Htable Hsmall.
  induction m as [|m IH]; intros fuel d acc tr Hpos Hlen Hfuel;
    (destruct fuel as [|fuel]; [lia |]); rewrite listImageFormats_loop_S;
    pose proof (Htable d Hpos) as Hd; cbn [kern trace].
  - rewrite lookup_ge_None_2 in Hd by lia.
    destruct Hd as (r & d' & -> & ->).
    rewrite drop_ge by lia. rewrite app_nil_r.
    eexists. split; [reflexivity |]. rewrite length_app. simpl. lia.
  - destruct (fs !! Z.to_nat (fd_index d)) as [f|] eqn:Ef;
      [| apply lookup_ge_None_1 in Ef; lia].
    destruct Hd as (d' & -> & Hidx & Hf). cbn [IOCTL_FAILED Z.eqb].
    change (IOCTL_FAILED 0) with false. cbv iota.
    match goal with |- context [listImageFormats_loop drv fuel fd ?d1 ?acc1 (World k ?tr1)] =>
      destruct (IH fuel d1 acc1 tr1) as (tr' & Hrun & Hcount)
    end.
    + cbn [fd_index]. unfold u32. rewrite Hidx. apply Z.mod_pos_bound. lia.
    + cbn [fd_index]. unfold u32. rewrite Hidx, Z.mod_small by lia. lia.
    + lia.
    + exists tr'. rewrite Hrun. split.
      * cbn [fd_index]. unfold u32. rewrite Hidx, Z.mod_small by lia.
        replace (Z.to_nat (fd_index d + 1)) with (S (Z.to_nat (fd_index d))) by lia.
        rewrite (drop_S _ _ _ Ef), Hf, <- app_assoc. reflexivity.
      * rewrite Hcount, length_app. simpl. lia.
Qed.

(** X8. On a device that enumerates a table of formats, [listImageFormats]
    returns once it has more fuel than the table has entries: the list of
    the object is then exactly the table, in order, whatever the list held
    before, and the device was queried once per entry and once more. *)
Theorem listImageFormats_returns_the_table
    (fuel : nat) (self : V4l2CameraDevice) (k : K) (tr : list event)
    (fs : list ImageFormat) :
  enumerates_formats drv (fd_ self) k fs ->
  Z.of_nat (length fs) < 2 ^ 32 ->
  (length fs < fuel)%nat ->
  exists tr' : list event,
    listImageFormats drv fuel self (World k tr)
    = (Some (set_image_formats self fs), World k tr') /\
    length tr' = (length tr + length fs + 1)%nat.
Proof.
  intros Htable Hsmall Hfuel. unfold listImageFormats, bind, ret.
  match goal with |- context [listImageFormats_loop drv fuel ?fd ?d ?acc ?w] =>
    destruct (listImageFormats_loop_table fd k fs Htable Hsmall (length fs) fuel d acc tr)
      as (tr' & Hrun & Hcount); [cbn; lia | cbn; lia | exact Hfuel |]
  end.
  rewrite Hrun. exists tr'. split; [reflexivity | exact Hcount].
Qed.

End FormatEnumeration.

Lemma Sim_enumerates_formats (fd : Z) (k : Sim.state) :
  (forall (i : nat) (d : v4l2_fmtdesc),
     Sim.formats k !! i = Some d -> fd_index d = Z.of_nat i) ->
  enumerates_formats Sim.driver fd k (map ImageFormat_of (Sim.formats k)).
Proof.
  intros Hidx d Hpos. rewrite list_lookup_fmap. cbn [drv_enum_fmt Sim.driver].
  unfold Sim.enum_fmt.
  destruct (Sim.formats k !! Z.to_nat (fd_index d)) as [d'|] eqn:E; cbn [fmap option_fmap option_map].
  - exists d'. split; [reflexivity |]. split; [| reflexivity].
    rewrite (Hidx _ _ E). lia.
  - exists (-1), d. split; reflexivity.
Qed.

Lemma listImageFormats_returns_the_table_witness :
  let d := set_fd Sim.device0 3 in
  let fs := map ImageFormat_of (Sim.formats Sim.camera) in
  enumerates_formats Sim.driver (fd_ d) Sim.camera fs /\
  Z.of_nat (length fs) < 2 ^ 32 /\
  (length fs < 2)%nat /\
  exists tr' : list event,
    listImageFormats Sim.driver 2 d (World Sim.camera [])
    = (Some (set_image_formats d fs), World Sim.camera tr') /\
    length tr' = (length (@nil event) + length fs + 1)%nat.
Proof.
  intros d fs.
  assert (H0 : enumerates_formats Sim.driver (fd_ d) Sim.camera fs).
  { apply Sim_enumerates_formats. intros [|[|i]] e He; cbn in He; inversion He.
    reflexivity. }
  assert (H1 : Z.of_nat (length fs) < 2 ^ 32) by (vm_compute; reflexivity).
  assert (H2 : (length fs < 2)%nat) by (vm_compute; lia).
  split; [exact H0 |]. split; [exact H1 |]. split; [exact H2 |].
  exact (listImageFormats_returns_the_table Sim.driver 2 d Sim.camera [] fs H0 H1 H2).
Defined.

(** ** Enumerating the controls *)

Lemma next_ctrl_masked (id : Z) :
  0 <= id < 2 ^ 28 ->
  Z.land (Z.lor id V4L2_CTRL_FLAG_NEXT_CTRL) 0x0fffffff = id.
Proof.
  intros Hid. rewrite Z.land_lor_distr_l.
  change (Z.land V4L2_CTRL_FLAG_NEXT_CTRL 0xfffffff) with 0.
  rewrite Z.lor_0_r. change 0xfffffff with (Z.ones 28).
  rewrite Z.land_ones by lia. apply Z.mod_small. exact Hid.
Qed.

Lemma next_ctrl_flagged (id : Z) :
  Z.land (Z.lor id V4L2_CTRL_FLAG_NEXT_CTRL) V4L2_CTRL_FLAG_NEXT_CTRL <> 0.
Proof.
  rewrite Z.land_lor_distr_l.
  change (Z.land V4L2_CTRL_FLAG_NEXT_CTRL V4L2_CTRL_FLAG_NEXT_CTRL)
    with V4L2_CTRL_FLAG_NEXT_CTRL.
  intros H. apply Z.lor_eq_0_iff in H. destruct H as [_ H]. discriminate H.
Qed.

Lemma find_skip {A : Type} (p : A -> bool) (l1 l2 : list A) :
  Forall (fun x => p x = false) l1 -> find p (l1 ++ l2) = find p l2.
Proof.
  induction 1 as [|x l1 Hx _ IH]; [reflexivity |]. cbn [app find].
  rewrite Hx. exact IH.
Qed.

Lemma find_next_control (done rest : list v4l2_queryctrl) (prev : Z) :
  0 <= prev < 2 ^ 28 ->
  Forall (fun c => qc_id c <= prev) done ->
  ascending prev rest ->
  v4l2_find_control (done ++ rest) (Z.lor prev V4L2_CTRL_FLAG_NEXT_CTRL) = head rest.
Proof.
  intros Hprev Hdone Hrest. unfold v4l2_find_control.
  rewrite (next_ctrl_masked prev Hprev).
  pose proof (next_ctrl_flagged prev) as Hflag. apply Z.eqb_neq in Hflag.
  rewrite Hflag. cbn [negb].
  rewrite find_skip.
  - destruct rest as [|c rest]; [reflexivity |]. cbn [find head].
    destruct Hrest as [Hlt _]. apply Z.ltb_lt in Hlt. rewrite Hlt. reflexivity.
  - eapply Forall_impl; [exact Hdone |]. intros c Hc. apply Z.ltb_ge. exact Hc.
Qed.

Section ControlEnumeration.
Context {K : Type} (drv : Driver K).

Lemma listControls_loop_done
    (fuel : nat) (fd : Z) (queryctrl : v4l2_queryctrl) (controls : list Control)
    (w : world K) (r : Z) (q : v4l2_queryctrl) (k : K) :
  drv_queryctrl drv fd queryctrl (kern w) = (r, q, k) ->
  IOCTL_FAILED r = true ->
  listControls_loop drv (S fuel) fd queryctrl controls w =
  (Some controls, World k (trace w ++ [EvIoctl fd (VIDIOC_QUERYCTRL queryctrl) r])).
Proof.
  intros Hq Hr. cbn [listControls_loop].
  unfold ioctl_QUERYCTRL, call1. unfold bind at 1. rewrite Hq, Hr. reflexivity.
Qed.

Lemma listControls_loop_table (fd : Z) (k : K) (cs : list v4l2_queryctrl) :
  answers_controls drv fd k cs ->
  forall (rest done : list v4l2_queryctrl) (prev : Z) (fuel : nat)
         (q : v4l2_queryctrl) (acc : list Control) (tr : list event),
    cs = done ++ rest ->
    qc_id q = Z.lor prev V4L2_CTRL_FLAG_NEXT_CTRL ->
    0 <= prev < 2 ^ 28 ->
    Forall (fun c => qc_id c <= prev) done ->
    ascending prev rest ->
    Forall plain_control rest ->
    (length rest < fuel)%nat ->
    exists tr' : list event,
      listControls_loop drv fuel fd q acc (World k tr)
      = (Some (acc ++ map (fun c => Control_of c ∅) rest), World k tr') /\
      length tr' = (length tr + length rest + 1)%nat.
Proof.
  intros Htable.
  induction rest as [|c rest IH];
    intros done prev fuel q acc tr Hcs Hq Hprev Hdone Hasc Hplain Hfuel;
    (destruct fuel as [|fuel]; [cbn in Hfuel; lia |]);
    pose proof (Htable q) as Hans;
    rewrite Hq, Hcs, (find_next_control done _ prev Hprev Hdone Hasc) in Hans;
    cbn [head] in Hans.
  - destruct Hans as (r & q' & Hrun & Hr).
    rewrite (listControls_loop_done fuel fd q acc (World k tr) r q' k Hrun Hr).
    cbn [map]. rewrite app_nil_r. eexists. split; [reflexivity |].
    cbn [trace]. rewrite length_app. simpl. lia.
  - destruct Hasc as (Hlt & Hbound & Hasc).
    inversion Hplain as [|c' rest' [Hen Hmenu] Hplain']; subst.
    rewrite (listControls_loop_enabled drv fuel fd q acc (World k tr) 0 c k Hans
               eq_refl Hen Hmenu).
    destruct (IH (done ++ [c]) (qc_id c) fuel
                (set_qc_id c (Z.lor (qc_id c) V4L2_CTRL_FLAG_NEXT_CTRL))
                (acc ++ [Control_of c ∅])
                (trace (World k tr) ++ [EvIoctl fd (VIDIOC_QUERYCTRL q) 0]))
      as (tr' & Hrun & Hcount).
    + rewrite <- app_assoc. reflexivity.
    + reflexivity.
    + lia.
    + apply Forall_app. split.
      * eapply Forall_impl; [exact Hdone |]. intros x Hx. cbn beta in Hx. lia.
      * constructor; [lia | constructor].
    + exact Hasc.
    + exact Hplain'.
    + cbn in Hfuel. lia.
    + exists tr'. rewrite Hrun. split.
      * cbn [map]. rewrite <- app_assoc. reflexivity.
      * rewrite Hcount. cbn [trace]. rewrite length_app. simpl. lia.
Qed.

(** X9. On a device that answers control queries from a table whose ids go
    up from above the user class, every control enabled and none a menu,
    [listControls] returns once it has more fuel than the table has
    entries: the list of the object is then exactly the table, in order and
    with empty menus, whatever the list held before, and the device was
    queried once per control and once more. *)
Theorem listControls_returns_the_table
    (fuel : nat) (self : V4l2CameraDevice) (k : K) (tr : list event)
    (cs : list v4l2_queryctrl) :
  answers_controls drv (fd_ self) k cs ->
  ascending V4L2_CID_USER_CLASS cs ->
  Forall plain_control cs ->
  (length cs < fuel)%nat ->
  exists tr' : list event,
    listControls drv fuel self (World k tr)
    = (Some (set_controls self (map (fun c => Control_of c ∅) cs)), World k tr') /\
    length tr' = (length tr + length cs + 1)%nat.
Proof.
  intros Htable Hasc Hplain Hfuel. unfold listControls, bind, ret.
  match goal with |- context [listControls_loop drv fuel ?fd ?q ?acc ?w] =>
    destruct (listControls_loop_table fd k cs Htable cs [] V4L2_CID_USER_CLASS fuel q acc tr)
      as (tr' & Hrun & Hcount);
      [reflexivity | reflexivity | vm_compute; split; [discriminate | reflexivity]
      | constructor | exact Hasc | exact Hplain | exact Hfuel |]
  end.
  rewrite Hrun. exists tr'. split; [reflexivity | exact Hcount].
Qed.

End ControlEnumeration.

Lemma Sim_answers_controls (fd : Z) (k : Sim.state) :
  answers_controls Sim.driver fd k (Sim.controls k).
Proof.
  intros q. cbn [drv_queryctrl Sim.driver]. unfold Sim.queryctrl, v4l2_find_control.
  cbv zeta. destruct (find _ (Sim.controls k)) as [c|]; [reflexivity |].
  exists (-1), q. split; reflexivity.
Qed.

Lemma listControls_returns_the_table_witness :
  let d := set_fd Sim.device0 3 in
  let cs := Sim.controls Sim.camera in
  answers_controls Sim.driver (fd_ d) Sim.camera cs /\
  ascending V4L2_CID_USER_CLASS cs /\
  Forall plain_control cs /\
  (length cs < 3)%nat /\
  exists tr' : list event,
    listControls Sim.driver 3 d (World Sim.camera [])
    = (Some (set_controls d (map (fun c => Control_of c ∅) cs)), World Sim.camera tr') /\
    length tr' = (length (@nil event) + length cs + 1)%nat.
Proof.
  intros d cs.
  assert (H0 : answers_controls Sim.driver (fd_ d) Sim.camera cs)
    by apply Sim_answers_controls.
  assert (H1 : ascending V4L2_CID_USER_CLASS cs)
    by (vm_compute; repeat split; reflexivity).
  assert (H2 : Forall plain_control cs)
    by (repeat constructor; vm_compute; discriminate).
  assert (H3 : (length cs < 3)%nat) by (vm_compute; lia).
  split; [exact H0 |]. split; [exact H1 |]. split; [exact H2 |]. split; [exact H3 |].
  exact (listControls_returns_the_table Sim.driver 3 d Sim.camera [] cs H0 H1 H2 H3).
Defined.

(** ** The items of a menu *)

Section MenuItems.
Context {K : Type} (drv : Driver K).

Lemma query_menu_S (fuel : nat) (fd : Z) (querymenu : v4l2_querymenu)
    (i maximum : Z) (menuItems : gmap Z string) (w : world K) :
  query_menu drv (S fuel) fd querymenu i maximum menuItems w =
  if i <=? maximum then
    let asked := {| qm_id := qm_id querymenu; qm_index := u32 i;
                    qm_name := qm_name querymenu |} in
    let '(r, m', k1) := drv_querymenu drv fd asked (kern w) in
    query_menu drv fuel fd m' (s32 (i + 1)) maximum
      (if negb (IOCTL_FAILED r) then <[i := qm_name m']> menuItems else menuItems)
      (World k1 (trace w ++ [EvIoctl fd (VIDIOC_QUERYMENU asked) r]))
  else (Some menuItems, w).
Proof.
  cbn [query_menu]. destruct (i <=? maximum); [| reflexivity].
  unfold ioctl_QUERYMENU, call1, bind.
  destruct (drv_querymenu drv fd _ (kern w)) as [[r m'] k1]. reflexivity.
Qed.

Lemma query_menu_table (fd : Z) (k : K) (id : Z) (label : Z -> option string)
    (maximum : Z) :
  labels_menu drv fd k id label ->
  maximum < 2 ^ 31 - 1 ->
  forall (n : nat) (fuel : nat) (m : v4l2_querymenu) (i : Z)
         (acc : gmap Z string) (tr : list event),
    qm_id m = id ->
    0 <= i ->
    i + Z.of_nat n = maximum + 1 ->
    (n < fuel)%nat ->
    (forall j : Z, i <= j -> acc !! j = None) ->
    exists (menu : gmap Z string) (tr' : list event),
      query_menu drv fuel fd m i maximum acc (World k tr) = (Some menu, World k tr') /\
      length tr' = (length tr + n)%nat /\
      forall j : Z,
        menu !! j = if (i <=? j) && (j <=? maximum) then label j else acc !! j.
Proof.
  intros Htable Hmax.
  induction n as [|n IH]; intros fuel m i acc tr Hid Hi Hn Hfuel Hfresh;
    (destruct fuel as [|fuel]; [lia |]); rewrite query_menu_S.
  - assert (Hgt : (i <=? maximum) = false) by (apply Z.leb_gt; lia).
    rewrite Hgt. exists acc, tr. split; [reflexivity |]. split; [lia |].
    intros j. destruct (i <=? j) eqn:E1; [| reflexivity].
    destruct (j <=? maximum) eqn:E2; [| reflexivity].
    apply Z.leb_le in E1, E2. lia.
  - assert (Hle : (i <=? maximum) = true) by (apply Z.leb_le; lia).
    rewrite Hle. cbv zeta.
    assert (Hu : u32 i = i) by (unfold u32; apply Z.mod_small; lia).
    assert (Hs : s32 (i + 1) = i + 1) by (unfold s32; rewrite Z.mod_small; lia).
    rewrite Hu, Hs.
    pose proof (Htable {| qm_id := qm_id m; qm_index := i; qm_name := qm_name m |} Hid)
      as Hans. cbn [qm_index kern trace] in *.
    destruct (label i) as [s|] eqn:El.
    + destruct Hans as (m' & -> & Hname & Hid').
      change (IOCTL_FAILED 0) with false. cbn [negb]. rewrite Hname.
      destruct (IH fuel m' (i + 1) (<[i:=s]> acc)
                  (tr ++ [EvIoctl fd (VIDIOC_QUERYMENU
                            {| qm_id := qm_id m; qm_index := i; qm_name := qm_name m |}) 0]))
        as (menu & tr' & Hrun & Hcount & Hmenu); [exact Hid' | lia | lia | lia | |].
      { intros j Hj. rewrite lookup_insert_ne by lia. apply Hfresh. lia. }
      exists menu, tr'. split; [exact Hrun |].
      split; [rewrite Hcount, length_app; simpl; lia |].
      intros j. rewrite Hmenu.
      destruct (Z.eq_dec j i) as [-> | Hne].
      * assert (H1 : (i + 1 <=? i) = false) by (apply Z.leb_gt; lia).
        rewrite H1, Z.leb_refl, Hle. cbn [andb]. rewrite lookup_insert_eq. symmetry. exact El.
      * rewrite lookup_insert_ne by lia.
        destruct (i + 1 <=? j) eqn:E1, (i <=? j) eqn:E2; try reflexivity;
          apply Z.leb_le in E1 || apply Z.leb_gt in E1;
          apply Z.leb_le in E2 || apply Z.leb_gt in E2; lia.
    + destruct Hans as (r & m' & -> & Hr & Hid'). rewrite Hr. cbn [negb].
      destruct (IH fuel m' (i + 1) acc
                  (tr ++ [EvIoctl fd (VIDIOC_QUERYMENU
                            {| qm_id := qm_id m; qm_index := i; qm_name := qm_name m |}) r]))
        as (menu & tr' & Hrun & Hcount & Hmenu); [exact Hid' | lia | lia | lia | |].
      { intros j Hj. apply Hfresh. lia. }
      exists menu, tr'. split; [exact Hrun |].
      split; [rewrite Hcount, length_app; simpl; lia |].
      intros j. rewrite Hmenu.
      destruct (Z.eq_dec j i) as [-> | Hne].
      * assert (H1 : (i + 1 <=? i) = false) by (apply Z.leb_gt; lia).
        rewrite H1, Z.leb_refl, Hle. cbn [andb]. rewrite El. apply Hfresh. lia.
      * destruct (i + 1 <=? j) eqn:E1, (i <=? j) eqn:E2; try reflexivity;
          apply Z.leb_le in E1 || apply Z.leb_gt in E1;
          apply Z.leb_le in E2 || apply Z.leb_gt in E2; lia.
Qed.

(** X10. The loop that collects the items of a menu, on a device that
    labels them by [label]: for a range from a minimum of at least 0 up to
    a maximum below the largest [__s32], it ends after one query per index
    of the range, and the map it built holds, for every index of the range
    the device has a label for, that label, and nothing else: indices the
    device does not label are left out. *)
Theorem query_menu_collects_the_labels
    (fuel : nat) (fd : Z) (k : K) (tr : list event) (m : v4l2_querymenu)
    (label : Z -> option string) (minimum maximum : Z) :
  labels_menu drv fd k (qm_id m) label ->
  0 <= minimum ->
  minimum <= maximum + 1 ->
  maximum < 2 ^ 31 - 1 ->
  (Z.to_nat (maximum + 1 - minimum) < fuel)%nat ->
  exists (menu : gmap Z string) (tr' : list event),
    query_menu drv fuel fd m minimum maximum ∅ (World k tr) = (Some menu, World k tr') /\
    length tr' = (length tr + Z.to_nat (maximum + 1 - minimum))%nat /\
    forall j : Z,
      menu !! j = if (minimum <=? j) && (j <=? maximum) then label j else None.
Proof.
  intros Htable Hmin Hrange Hmax Hfuel.
  destruct (query_menu_table fd k (qm_id m) label maximum Htable Hmax
              (Z.to_nat (maximum + 1 - minimum)) fuel m minimum ∅ tr)
    as (menu & tr' & Hrun & Hcount & Hmenu);
    [reflexivity | exact Hmin | lia | exact Hfuel | intros; apply lookup_empty |].
  exists menu, tr'. split; [exact Hrun |]. split; [exact Hcount |].
  intros j. rewrite Hmenu, lookup_empty. reflexivity.
Qed.

End MenuItems.

Lemma MenuBench_labels_menu (fd : Z) (k : Sim.state) (id : Z) :
  labels_menu MenuBench.driver fd k id MenuBench.label.
Proof.
  intros m Hid. cbn [drv_querymenu MenuBench.driver]. unfold MenuBench.querymenu.
  destruct (MenuBench.label (qm_index m)) as [s|].
  - eexists. split; [reflexivity |]. split; [reflexivity | exact Hid].
  - exists (-1), m. split; [reflexivity |]. split; [reflexivity | exact Hid].
Qed.

(** A menu with the range 0..3, of which the device labels 0 and 2. *)
Lemma query_menu_collects_the_labels_witness :
  let m := {| qm_id := 0x009a0901; qm_index := 0; qm_name := "" |} in
  labels_menu MenuBench.driver 3 Sim.camera (qm_id m) MenuBench.label /\
  exists (menu : gmap Z string) (tr' : list event),
    query_menu MenuBench.driver 5 3 m 0 3 ∅ (World Sim.camera [])
    = (Some menu, World Sim.camera tr') /\
    length tr' = (length (@nil event) + Z.to_nat (3 + 1 - 0))%nat /\
    forall j : Z,
      menu !! j = if (0 <=? j) && (j <=? 3) then MenuBench.label j else None.
Proof.
  intros m.
  assert (H0 : labels_menu MenuBench.driver 3 Sim.camera (qm_id m) MenuBench.label)
    by apply MenuBench_labels_menu.
  split; [exact H0 |].
  apply (query_menu_collects_the_labels MenuBench.driver 5 3 Sim.camera [] m
           MenuBench.label 0 3 H0); [lia | lia | lia | simpl; lia].
Defined.

(** * Names *)

Lemma tolower_cases (c : ascii) :
  is_upper (tolower c) = false /\
  Ascii.eqb (tolower c) " " = Ascii.eqb c " " /\
  Ascii.eqb (tolower c) "," = Ascii.eqb c "," /\
  Ascii.eqb (tolower c) "(" = Ascii.eqb c "(" /\
  Ascii.eqb (tolower c) ")" = Ascii.eqb c ")" /\
  (is_upper c = false -> tolower c = c).
Proof.
  destruct c as [[] [] [] [] [] [] [] []]; vm_compute;
    repeat split; try reflexivity; discriminate.
Qed.

Lemma all_chars_String (p : ascii -> bool) (c : ascii) (s : string) :
  all_chars p (String c s) = p c && all_chars p s.
Proof. reflexivity. Qed.

Lemma string_transform_length (f : ascii -> ascii) (s : string) :
  String.length (string_transform f s) = String.length s.
Proof. induction s as [|c s IH]; simpl; congruence. Qed.

Lemma string_replace_length (old new : ascii) (s : string) :
  String.length (string_replace old new s) = String.length s.
Proof. induction s as [|c s IH]; simpl; congruence. Qed.

Lemma string_remove_length (c : ascii) (s : string) :
  (String.length (string_remove c s) <= String.length s)%nat.
Proof.
  induction s as [|c' s IH]; simpl; [lia |].
  destruct (Ascii.eqb c' c); simpl; lia.
Qed.

Lemma string_remove_all_chars (p : ascii -> bool) (c : ascii) (s : string) :
  all_chars p s = true -> all_chars p (string_remove c s) = true.
Proof.
  induction s as [|c' s IH]; [reflexivity |]. rewrite all_chars_String.
  intros H. apply andb_true_iff in H. destruct H as [Hc Hs]. cbn [string_remove].
  destruct (Ascii.eqb c' c); [apply IH; exact Hs |].
  rewrite all_chars_String, Hc. apply IH. exact Hs.
Qed.

Lemma string_remove_gone (c : ascii) (s : string) :
  all_chars (fun x => negb (Ascii.eqb x c)) (string_remove c s) = true.
Proof.
  induction s as [|c' s IH]; [reflexivity |]. cbn [string_remove].
  destruct (Ascii.eqb c' c) eqn:E; [exact IH |].
  rewrite all_chars_String, E. exact IH.
Qed.

Lemma string_remove_absent (c : ascii) (s : string) :
  all_chars (fun x => negb (Ascii.eqb x c)) s = true -> string_remove c s = s.
Proof.
  induction s as [|c' s IH]; [reflexivity |]. rewrite all_chars_String.
  intros H. apply andb_true_iff in H. destruct H as [Hc Hs]. cbn [string_remove].
  destruct (Ascii.eqb c' c); [discriminate |]. rewrite (IH Hs). reflexivity.
Qed.

Lemma all_chars_and (p q : ascii -> bool) (s : string) :
  all_chars (fun c => p c && q c) s = all_chars p s && all_chars q s.
Proof.
  induction s as [|c s IH]; [reflexivity |]. rewrite !all_chars_String, IH.
  destruct (p c), (q c), (all_chars p s), (all_chars q s); reflexivity.
Qed.

Lemma all_chars_impl (p q : ascii -> bool) (s : string) :
  (forall c, p c = true -> q c = true) -> all_chars p s = true -> all_chars q s = true.
Proof.
  intros Hpq. induction s as [|c s IH]; [reflexivity |]. rewrite !all_chars_String.
  intros H. apply andb_true_iff in H. destruct H as [Hc Hs].
  rewrite (Hpq c Hc), (IH Hs). reflexivity.
Qed.

Lemma lowered_no_upper (s : string) :
  all_chars (fun c => negb (is_upper c)) (string_transform tolower s) = true.
Proof.
  induction s as [|c s IH]; [reflexivity |]. cbn [string_transform].
  rewrite all_chars_String, IH. destruct (tolower_cases c) as [-> _]. reflexivity.
Qed.

Lemma lowered_fixed (s : string) :
  all_chars (fun c => negb (is_upper c)) s = true -> string_transform tolower s = s.
Proof.
  induction s as [|c s IH]; [reflexivity |]. rewrite all_chars_String.
  intros H. apply andb_true_iff in H. destruct H as [Hc Hs]. cbn [string_transform].
  destruct (tolower_cases c) as (_ & _ & _ & _ & _ & Hfix).
  rewrite Hfix, (IH Hs); [reflexivity |]. destruct (is_upper c); [discriminate | reflexivity].
Qed.

Lemma replaced_space (p : ascii -> bool) (s : string) :
  p "_"%char = true ->
  all_chars (fun c => p c || Ascii.eqb c " ") s = true ->
  all_chars (fun c => p c && negb (Ascii.eqb c " ")) (string_replace " " "_" s) = true.
Proof.
  intros Hus. induction s as [|c s IH]; [reflexivity |]. rewrite all_chars_String.
  intros H. apply andb_true_iff in H. destruct H as [Hc Hs]. cbn [string_replace].
  rewrite all_chars_String, (IH Hs), andb_true_r.
  destruct (Ascii.eqb c " ") eqn:E.
  - rewrite Hus. reflexivity.
  - rewrite E. rewrite orb_false_r in Hc. rewrite Hc. reflexivity.
Qed.

Lemma replace_absent (s : string) :
  all_chars (fun c => negb (Ascii.eqb c " ")) s = true -> string_replace " " "_" s = s.
Proof.
  induction s as [|c s IH]; [reflexivity |]. rewrite all_chars_String.
  intros H. apply andb_true_iff in H. destruct H as [Hc Hs]. cbn [string_replace].
  destruct (Ascii.eqb c " "); [discriminate |]. rewrite (IH Hs). reflexivity.
Qed.

(** X11. The camera name is as long as the card name the device reported,
    holds no capital letter and no space, and is the card name itself when
    that already has neither. *)
Theorem getCameraName_normalises (self : V4l2CameraDevice) :
  String.length (getCameraName self) = String.length (cap_card (capabilities_ self)) /\
  all_chars name_char (getCameraName self) = true /\
  (all_chars name_char (cap_card (capabilities_ self)) = true ->
   getCameraName self = cap_card (capabilities_ self)).
Proof.
  unfold getCameraName. cbv zeta.
  split; [rewrite string_replace_length, string_transform_length; reflexivity |].
  split.
  - apply (replaced_space (fun c => negb (is_upper c))); [reflexivity |].
    eapply all_chars_impl; [| apply lowered_no_upper].
    intros c Hc. cbn beta in Hc. rewrite Hc. reflexivity.
  - intros Hclean. unfold name_char in Hclean. rewrite all_chars_and in Hclean.
    apply andb_true_iff in Hclean. destruct Hclean as [Hup Hsp].
    rewrite (lowered_fixed _ Hup). apply replace_absent. exact Hsp.
Qed.

(** X12. The parameter name made of a control name holds no capital
    letter, space, comma or bracket and is no longer than the control name;
    a name that already holds none of them is its own parameter name, so
    making a parameter name of a parameter name changes nothing. *)
Theorem toParamName_normalises (name : string) :
  all_chars param_char (toParamName name) = true /\
  (String.length (toParamName name) <= String.length name)%nat /\
  (all_chars param_char name = true -> toParamName name = name) /\
  toParamName (toParamName name) = toParamName name.
Proof.
  assert (Hclean : all_chars param_char (toParamName name) = true).
  { unfold toParamName. cbv zeta.
    set (s := string_remove ")" _).
    assert (Hs : all_chars (fun c => negb (is_upper c) && negb (Ascii.eqb c ",")
                                     && negb (Ascii.eqb c "(") && negb (Ascii.eqb c ")")) s
                 = true).
    { subst s. rewrite !all_chars_and.
      repeat (apply andb_true_iff; split).
      - repeat apply string_remove_all_chars. apply lowered_no_upper.
      - do 2 apply string_remove_all_chars. apply string_remove_gone.
      - apply string_remove_all_chars. apply string_remove_gone.
      - apply string_remove_gone. }
    eapply all_chars_impl;
      [| apply (replaced_space
                  (fun c => negb (is_upper c) && negb (Ascii.eqb c ",")
                            && negb (Ascii.eqb c "(") && negb (Ascii.eqb c ")")));
         [reflexivity |];
         eapply all_chars_impl; [| exact Hs];
         intros c Hc; cbn beta in Hc; rewrite Hc; reflexivity].
    intros c Hc. cbn beta in Hc. unfold param_char.
    destruct (is_upper c), (Ascii.eqb c " "), (Ascii.eqb c ","), (Ascii.eqb c "("),
      (Ascii.eqb c ")"); try discriminate; reflexivity. }
  assert (Hfix : forall s, all_chars param_char s = true -> toParamName s = s).
  { intros s Hs. unfold toParamName. cbv zeta.
    assert (Hup : all_chars (fun c => negb (is_upper c)) s = true)
      by (eapply all_chars_impl; [| exact Hs]; intros c Hc; unfold param_char in Hc;
          destruct (is_upper c); [discriminate | reflexivity]).
    assert (Hsp : all_chars (fun c => negb (Ascii.eqb c " ")) s = true)
      by (eapply all_chars_impl; [| exact Hs]; intros c Hc; unfold param_char in Hc;
          destruct (is_upper c), (Ascii.eqb c " "); try discriminate; reflexivity).
    assert (Hco : all_chars (fun c => negb (Ascii.eqb c ",")) s = true)
      by (eapply all_chars_impl; [| exact Hs]; intros c Hc; unfold param_char in Hc;
          destruct (is_upper c), (Ascii.eqb c " "), (Ascii.eqb c ",");
          try discriminate; reflexivity).
    assert (Hop : all_chars (fun c => negb (Ascii.eqb c "(")) s = true)
      by (eapply all_chars_impl; [| exact Hs]; intros c Hc; unfold param_char in Hc;
          destruct (is_upper c), (Ascii.eqb c " "), (Ascii.eqb c ","), (Ascii.eqb c "(");
          try discriminate; reflexivity).
    assert (Hcl : all_chars (fun c => negb (Ascii.eqb c ")")) s = true)
      by (eapply all_chars_impl; [| exact Hs]; intros c Hc; unfold param_char in Hc;
          destruct (is_upper c), (Ascii.eqb c " "), (Ascii.eqb c ","), (Ascii.eqb c "("),
            (Ascii.eqb c ")"); try discriminate; reflexivity).
    rewrite (lowered_fixed s Hup), (string_remove_absent "," s Hco),
      (string_remove_absent "(" s Hop), (string_remove_absent ")" s Hcl).
    apply replace_absent. exact Hsp. }
  split; [exact Hclean |]. split.
  - unfold toParamName. cbv zeta. rewrite string_replace_length.
    eapply Nat.le_trans; [apply string_remove_length |].
    eapply Nat.le_trans; [apply string_remove_length |].
    eapply Nat.le_trans; [apply string_remove_length |].
    rewrite string_transform_length. lia.
  - split; [apply Hfix | apply Hfix; exact Hclean].
Qed.

Lemma getCameraName_normalises_witness :
  let d := set_capabilities Sim.device0
             {| cap_driver := "uvcvideo"; cap_card := "hd_webcam_c270";
                cap_bus_info := "usb-1"; cap_version := 0; cap_capabilities := 0 |} in
  all_chars name_char (cap_card (capabilities_ d)) = true /\
  getCameraName d = cap_card (capabilities_ d).
Proof.
  intros d.
  assert (H : all_chars name_char (cap_card (capabilities_ d)) = true) by reflexivity.
  split; [exact H |].
  exact (proj2 (proj2 (getCameraName_normalises d)) H).
Defined.

Example getCameraName_example :
  getCameraName (set_capabilities Sim.device0
                   {| cap_driver := "uvcvideo"; cap_card := "HD Webcam C270";
                      cap_bus_info := "usb-1"; cap_version := 0; cap_capabilities := 0 |})
  = "hd_webcam_c270".
Proof. reflexivity. Qed.

Lemma toParamName_normalises_witness :
  all_chars param_char "exposure_absolute" = true /\
  toParamName "exposure_absolute" = "exposure_absolute".
Proof.
  assert (H : all_chars param_char "exposure_absolute" = true) by reflexivity.
  split; [exact H |].
  exact (proj1 (proj2 (proj2 (toParamName_normalises "exposure_absolute"))) H).
Defined.

Example toParamName_example :
  toParamName "Exposure (Absolute)" = "exposure_absolute" /\
  toParamName "White Balance Temperature, Auto" = "white_balance_temperature_auto".
Proof. split; reflexivity. Qed.

(** * Further properties of the format requests *)

Section Requests.
Context {K : Type} (drv : Driver K).

Lemma requestDataFormat_failure_keeps (self : V4l2CameraDevice) (format : PixelFormat)
    (w : world K) :
  fst (fst (requestDataFormat drv self format w)) = false ->
  snd (fst (requestDataFormat drv self format w)) = self.
Proof.
  rewrite requestDataFormat_run.
  destruct (drv_s_fmt drv (fd_ self) (formatReq_of format) (kern w)) as [[r reply] k'].
  destruct (IOCTL_FAILED r); [reflexivity | discriminate].
Qed.

Lemma requestDataFormat_trace (self : V4l2CameraDevice) (format : PixelFormat)
    (w : world K) :
  trace (snd (requestDataFormat drv self format w))
  = trace w ++ [EvIoctl (fd_ self) (VIDIOC_S_FMT (formatReq_of format))
                  (fst (fst (drv_s_fmt drv (fd_ self) (formatReq_of format) (kern w))))].
Proof.
  rewrite requestDataFormat_run.
  destruct (drv_s_fmt drv (fd_ self) (formatReq_of format) (kern w)) as [[r reply] k'].
  destruct (IOCTL_FAILED r); reflexivity.
Qed.

(** X13. A pixel format given by a string that is not four characters
    long, and a size given by a vector that has not two elements, are
    refused without any call to the device; and whenever one of the two
    requests returns failure, for that reason or because the device refused,
    the object, its current format included, is as it was. *)
Theorem negotiation_failure_changes_nothing :
  (forall (self : V4l2CameraDevice) (fourcc : string) (w : world K),
     String.length fourcc <> 4%nat ->
     requestPixelFormat drv self fourcc w = (false, self, w)) /\
  (forall (self : V4l2CameraDevice) (size : list Z) (w : world K),
     length size <> 2%nat ->
     requestImageSize drv self size w = (false, self, w)) /\
  (forall (self : V4l2CameraDevice) (fourcc : string) (w : world K),
     fst (fst (requestPixelFormat drv self fourcc w)) = false ->
     snd (fst (requestPixelFormat drv self fourcc w)) = self) /\
  (forall (self : V4l2CameraDevice) (size : list Z) (w : world K),
     fst (fst (requestImageSize drv self size w)) = false ->
     snd (fst (requestImageSize drv self size w)) = self).
Proof.
  split; [| split; [| split]].
  - intros self fourcc w Hlen. unfold requestPixelFormat.
    destruct fourcc as [|c0 [|c1 [|c2 [|c3 [|c4 rest]]]]]; try reflexivity.
    exfalso. apply Hlen. reflexivity.
  - intros self size w Hlen. unfold requestImageSize.
    destruct size as [|s0 [|s1 [|s2 rest]]]; try reflexivity.
    exfalso. apply Hlen. reflexivity.
  - intros self fourcc w. unfold requestPixelFormat.
    destruct fourcc as [|c0 [|c1 [|c2 [|c3 [|c4 rest]]]]]; try reflexivity.
    destruct (_ =? _); [discriminate |]. apply requestDataFormat_failure_keeps.
  - intros self size w. unfold requestImageSize.
    destruct size as [|s0 [|s1 [|s2 rest]]]; try reflexivity.
    destruct (_ && _); [discriminate |]. apply requestDataFormat_failure_keeps.
Qed.

(** X14. What a request that is not for the current value asks of the
    device is one [VIDIOC_S_FMT]: for a pixel format, the new code with the
    current width and height; for a size, the current code with the two
    given numbers reduced modulo 2^32.  So a size that differs from the
    current one by a multiple of 2^32 asks the device for the current
    size. *)
Theorem negotiation_asks_device_once :
  (forall (self : V4l2CameraDevice) (c0 c1 c2 c3 : ascii) (w : world K),
     let cur := cur_data_format_ self in
     let rq := format_request (v4l2_fourcc c0 c1 c2 c3) (width cur) (height cur) in
     pixelFormat cur <> v4l2_fourcc c0 c1 c2 c3 ->
     trace (snd (requestPixelFormat drv self (fourcc_string c0 c1 c2 c3) w))
     = trace w ++ [EvIoctl (fd_ self) (VIDIOC_S_FMT rq)
                     (fst (fst (drv_s_fmt drv (fd_ self) rq (kern w))))]) /\
  (forall (self : V4l2CameraDevice) (size0 size1 : Z) (w : world K),
     let cur := cur_data_format_ self in
     let rq := format_request (pixelFormat cur) (size0 mod 2 ^ 32) (size1 mod 2 ^ 32) in
     width cur <> size0 \/ height cur <> size1 ->
     trace (snd (requestImageSize drv self [size0; size1] w))
     = trace w ++ [EvIoctl (fd_ self) (VIDIOC_S_FMT rq)
                     (fst (fst (drv_s_fmt drv (fd_ self) rq (kern w))))]).
Proof.
  split.
  - intros self c0 c1 c2 c3 w cur rq Hne.
    unfold requestPixelFormat, fourcc_string, getCurrentDataFormat.
    apply Z.eqb_neq in Hne. fold cur. rewrite Hne.
    rewrite requestDataFormat_trace. reflexivity.
  - intros self size0 size1 w cur rq Hne.
    unfold requestImageSize, getCurrentDataFormat. fold cur.
    assert (Hcmp : (width cur =? size0) && (height cur =? size1) = false).
    { apply andb_false_iff. destruct Hne as [H | H]; [left | right];
        apply Z.eqb_neq; exact H. }
    rewrite Hcmp. rewrite requestDataFormat_trace. reflexivity.
Qed.

End Requests.

Lemma negotiation_failure_changes_nothing_witness :
  let d := fst (Sim.opened Bench.camera_rejecting_formats) in
  let w := snd (Sim.opened Bench.camera_rejecting_formats) in
  String.length "MJPEG" <> 4%nat /\
  requestPixelFormat Sim.driver d "MJPEG" w = (false, d, w) /\
  fst (fst (requestImageSize Sim.driver d [640; 480] w)) = false /\
  snd (fst (requestImageSize Sim.driver d [640; 480] w)) = d.
Proof.
  intros d w.
  assert (H0 : String.length "MJPEG" <> 4%nat) by (simpl; lia).
  assert (H1 : fst (fst (requestImageSize Sim.driver d [640; 480] w)) = false)
    by reflexivity.
  destruct (negotiation_failure_changes_nothing Sim.driver) as (Hp & _ & _ & Hs).
  split; [exact H0 |]. split; [exact (Hp d "MJPEG" w H0) |].
  split; [exact H1 | exact (Hs d [640; 480] w H1)].
Defined.

(** The camera runs 8x4; asked for 4294967304 x 4, which is 8 + 2^32 by 4,
    the node asks the device for 8x4. *)
Lemma negotiation_asks_device_once_witness :
  let d := fst (Sim.opened Sim.camera) in
  let w := snd (Sim.opened Sim.camera) in
  let cur := cur_data_format_ d in
  let rq := format_request (pixelFormat cur) 8 4 in
  (width cur <> 4294967304 \/ height cur <> 4) /\
  trace (snd (requestImageSize Sim.driver d [4294967304; 4] w))
  = trace w ++ [EvIoctl (fd_ d) (VIDIOC_S_FMT rq)
                  (fst (fst (drv_s_fmt Sim.driver (fd_ d) rq (kern w))))].
Proof.
  intros d w cur rq.
  assert (H : width cur <> 4294967304 \/ height cur <> 4)
    by (left; vm_compute; discriminate).
  split; [exact H |].
  exact (proj2 (negotiation_asks_device_once Sim.driver) d 4294967304 4 w H).
Defined.

(** * The node: parameters and controls *)

Lemma find_snoc {A : Type} (p : A -> bool) (l : list A) (x : A) :
  find p (l ++ [x]) =
  match find p l with
  | Some y => Some y
  | None => if p x then Some x else None
  end.
Proof.
  induction l as [|a l IH]; cbn [app find]; [destruct (p x); reflexivity |].
  destruct (p a); [reflexivity | exact IH].
Qed.

Section NodeControls.
Context {K P : Type} (drv : Driver K) (server : ParameterServer P).

Lemma setControlValue_listed_outcome (self : V4l2CameraDevice) (id value : Z)
    (w : world K) :
  In id (map ctl_id (controls_ self)) ->
  fst (setControlValue drv self id value w) = Returned false \/
  fst (setControlValue drv self id value w) = Undefined QUERYCTRL_OVERRUN.
Proof.
  intros Hin. rewrite setControlValue_run.
  pose proof (find_control_None id (controls_ self)) as Hfind.
  destruct (settable_answer drv self id w) as [[r1 q] k1]. cbv zeta.
  destruct (find _ (controls_ self)) as [c|]; [| exfalso; apply (proj1 Hfind); auto].
  destruct (IOCTL_FAILED r1); [left | right]; reflexivity.
Qed.

Lemma createParameters_controls_cons (c : Control) (controls : list Control)
    (self : V4L2Camera) (p : P) (w : world K) :
  createParameters_controls drv server (c :: controls) self p w =
  let name := toParamName (ctl_name c) in
  if (ctl_type c =? V4L2_CTRL_TYPE_INTEGER) || (ctl_type c =? V4L2_CTRL_TYPE_MENU) then
    let '(current, w1) := getControlValue drv (camera_ self) (ctl_id c) w in
    match declare_integer server name current p with
    | (None, p) => (Threw "declare_parameter", self, p, w1)
    | (Some value, p) =>
        let '(out, w2) := setControlValue drv (camera_ self) (ctl_id c) (s32 value) w1 in
        match out with
        | Undefined why => (Broke why, self, p, w2)
        | Returned _ =>
            createParameters_controls drv server controls
              (set_control_id self name (ctl_id c)) p w2
        end
    end
  else if ctl_type c =? V4L2_CTRL_TYPE_BOOLEAN then
    let '(current, w1) := getControlValue drv (camera_ self) (ctl_id c) w in
    match declare_bool server name (negb (current =? 0)) p with
    | (None, p) => (Threw "declare_parameter", self, p, w1)
    | (Some value, p) =>
        let '(out, w2) := setControlValue drv (camera_ self) (ctl_id c)
                            (if value then 1 else 0) w1 in
        match out with
        | Undefined why => (Broke why, self, p, w2)
        | Returned _ =>
            createParameters_controls drv server controls
              (set_control_id self name (ctl_id c)) p w2
        end
    end
  else createParameters_controls drv server controls self p w.
Proof.
  cbn [createParameters_controls]. cbv zeta.
  destruct (_ || _).
  - unfold bind at 1. destruct (getControlValue drv _ _ w) as [current w1].
    destruct (declare_integer server _ current p) as [[value|] p']; [| reflexivity].
    unfold bind at 1. destruct (setControlValue drv _ _ _ w1) as [[b|why] w2]; reflexivity.
  - destruct (_ =? _); [| reflexivity].
    unfold bind at 1. destruct (getControlValue drv _ _ w) as [current w1].
    destruct (declare_bool server _ _ p) as [[value|] p']; [| reflexivity].
    unfold bind at 1. destruct (setControlValue drv _ _ _ w1) as [[b|why] w2]; reflexivity.
Qed.

Lemma createParameters_controls_invariant (controls : list Control) :
  forall (self : V4L2Camera) (p : P) (w : world K),
    (forall c, In c controls -> In (ctl_id c) (map ctl_id (controls_ (camera_ self)))) ->
    let e := fst (fst (fst (createParameters_controls drv server controls self p w))) in
    let self' := snd (fst (fst (createParameters_controls drv server controls self p w))) in
    (forall why, e = Broke why -> why = QUERYCTRL_OVERRUN) /\
    camera_ self' = camera_ self /\
    (registry_listed self -> registry_listed self') /\
    (e = Finished tt ->
     forall name : string,
       control_name_to_id_ self' !! name =
       match last_named controls name with
       | Some c => Some (ctl_id c)
       | None => control_name_to_id_ self !! name
       end).
Proof.
  induction controls as [|c cs IH]; intros self p w Hlisted.
  - cbn. split; [discriminate |]. split; [reflexivity |]. split; [auto |].
    intros _ name. reflexivity.
  - assert (Hc : In (ctl_id c) (map ctl_id (controls_ (camera_ self))))
      by (apply Hlisted; left; reflexivity).
    assert (Hcs : forall self1 : V4L2Camera,
              camera_ self1 = camera_ self ->
              forall c', In c' cs ->
                In (ctl_id c') (map ctl_id (controls_ (camera_ self1)))).
    { intros self1 Hcam c' Hin. rewrite Hcam. apply Hlisted. right. exact Hin. }
    assert (Hreg : registry_listed self ->
              registry_listed (set_control_id self (toParamName (ctl_name c)) (ctl_id c))).
    { intros Hr name id. cbn [control_name_to_id_ set_control_id camera_].
      destruct (decide (toParamName (ctl_name c) = name)) as [-> | Hne].
      - rewrite lookup_insert_eq. intros Heq. inversion Heq; subst. exact Hc.
      - rewrite lookup_insert_ne by exact Hne. apply Hr. }
    assert (Hlast : forall name : string,
              last_named (c :: cs) name =
              match last_named cs name with
              | Some c' => Some c'
              | None =>
                  if supported_control c && String.eqb (toParamName (ctl_name c)) name
                  then Some c else None
              end).
    { intros name. unfold last_named. cbn [rev].
      apply (find_snoc (fun c0 => supported_control c0
                                  && String.eqb (toParamName (ctl_name c0)) name)). }
    assert (Hstep : forall (p' : P) (w2 : world K),
              supported_control c = true ->
              let res := createParameters_controls drv server cs
                           (set_control_id self (toParamName (ctl_name c)) (ctl_id c))
                           p' w2 in
              (forall why, fst (fst (fst res)) = Broke why -> why = QUERYCTRL_OVERRUN) /\
              camera_ (snd (fst (fst res))) = camera_ self /\
              (registry_listed self -> registry_listed (snd (fst (fst res)))) /\
              (fst (fst (fst res)) = Finished tt ->
               forall name : string,
                 control_name_to_id_ (snd (fst (fst res))) !! name =
                 match last_named (c :: cs) name with
                 | Some c' => Some (ctl_id c')
                 | None => control_name_to_id_ self !! name
                 end)).
    { intros p' w2 Hsup res. subst res.
      destruct (IH (set_control_id self (toParamName (ctl_name c)) (ctl_id c)) p' w2
                  (Hcs _ eq_refl)) as (H1 & H2 & H3 & H4).
      split; [exact H1 |]. split; [exact H2 |]. split; [auto |].
      intros He name. rewrite (H4 He name), Hlast.
      destruct (last_named cs name) as [c'|]; [reflexivity |].
      rewrite Hsup. cbn [andb control_name_to_id_ set_control_id].
      destruct (String.eqb_spec (toParamName (ctl_name c)) name) as [-> | Hne].
      - apply lookup_insert_eq.
      - apply lookup_insert_ne. exact Hne. }
    rewrite createParameters_controls_cons. cbv zeta.
    destruct ((ctl_type c =? V4L2_CTRL_TYPE_INTEGER) || (ctl_type c =? V4L2_CTRL_TYPE_MENU))
      eqn:Eint.
    + assert (Hsup : supported_control c = true)
        by (unfold supported_control; rewrite Eint; reflexivity).
      destruct (getControlValue drv (camera_ self) (ctl_id c) w) as [current w1].
      destruct (declare_integer server _ current p) as [[value|] p'].
      * pose proof (setControlValue_listed_outcome (camera_ self) (ctl_id c) (s32 value)
                      w1 Hc) as Hout.
        destruct (setControlValue drv (camera_ self) (ctl_id c) (s32 value) w1) as [out w2].
        cbn [fst] in Hout. destruct out as [b | why]; [apply (Hstep p' w2 Hsup) |].
        destruct Hout as [Hout | Hout]; [discriminate |]. inversion Hout; subst why.
        cbn [fst snd]. split; [intros why H; inversion H; reflexivity |].
        split; [reflexivity |]. split; [auto | discriminate].
      * cbn [fst snd]. repeat split; auto; discriminate.
    + destruct (ctl_type c =? V4L2_CTRL_TYPE_BOOLEAN) eqn:Ebool.
      * assert (Hsup : supported_control c = true)
          by (unfold supported_control; rewrite Ebool; apply orb_true_r).
        destruct (getControlValue drv (camera_ self) (ctl_id c) w) as [current w1].
        destruct (declare_bool server _ _ p) as [[value|] p'].
        -- pose proof (setControlValue_listed_outcome (camera_ self) (ctl_id c)
                         (if value then 1 else 0) w1 Hc) as Hout.
           destruct (setControlValue drv (camera_ self) (ctl_id c) _ w1) as [out w2].
           cbn [fst] in Hout. destruct out as [b | why]; [apply (Hstep p' w2 Hsup) |].
           destruct Hout as [Hout | Hout]; [discriminate |]. inversion Hout; subst why.
           cbn [fst snd]. split; [intros why H; inversion H; reflexivity |].
           split; [reflexivity |]. split; [auto | discriminate].
        -- cbn [fst snd]. repeat split; auto; discriminate.
      * destruct (IH self p w (Hcs self eq_refl)) as (H1 & H2 & H3 & H4).
        split; [exact H1 |]. split; [exact H2 |]. split; [exact H3 |].
        intros He name. rewrite (H4 He name), Hlast.
        destruct (last_named cs name) as [c'|]; [reflexivity |].
        unfold supported_control. rewrite Eint, Ebool. reflexivity.
Qed.

End NodeControls.

Section NodeParameters.
Context {K P : Type} (drv : Driver K) (server : ParameterServer P)
        (cinfo_ : CameraInfoManager).

(** X15. The loop of [createParameters] over the controls of the device
    never reads through the end iterator in [setControlValue]: every id it
    sets is taken from the list [setControlValue] searches.  The one
    undefined behaviour it can run into is the overrun of the settability
    query.  It leaves the device object as it is, and if every id of the
    registry was the id of a listed control before, that is still so
    after. *)
Theorem createParameters_controls_never_reads_end_iterator
    (self : V4L2Camera) (p : P) (w : world K) :
  let res := createParameters_controls drv server (controls_ (camera_ self)) self p w in
  (forall why : string, fst (fst (fst res)) = Broke why -> why = QUERYCTRL_OVERRUN) /\
  fst (fst (fst res)) <> Broke END_ITERATOR_READ /\
  camera_ (snd (fst (fst res))) = camera_ self /\
  (registry_listed self -> registry_listed (snd (fst (fst res)))).
Proof.
  cbv zeta.
  destruct (createParameters_controls_invariant drv server (controls_ (camera_ self))
              self p w) as (H1 & H2 & H3 & _).
  - intros c Hc. apply in_map. exact Hc.
  - split; [exact H1 |]. split; [| split; [exact H2 | exact H3]].
    intros H. apply H1 in H. discriminate H.
Qed.

(** X16. When the loop of [createParameters] over the controls of the
    device finishes, the registry maps a parameter name to the id of the
    last control in the list that is an integer, a menu or a boolean and
    whose name gives that parameter name; names that no such control gives
    are as they were.  Controls of other types are not registered. *)
Theorem createParameters_controls_registers_last
    (self : V4L2Camera) (p : P) (w : world K) (name : string) :
  let res := createParameters_controls drv server (controls_ (camera_ self)) self p w in
  fst (fst (fst res)) = Finished tt ->
  control_name_to_id_ (snd (fst (fst res))) !! name =
  match last_named (controls_ (camera_ self)) name with
  | Some c => Some (ctl_id c)
  | None => control_name_to_id_ self !! name
  end.
Proof.
  cbv zeta. intros Hdone.
  destruct (createParameters_controls_invariant drv server (controls_ (camera_ self))
              self p w) as (_ & _ & _ & H4).
  - intros c Hc. apply in_map. exact Hc.
  - apply H4. exact Hdone.
Qed.

Lemma handleParameter_control (self : V4L2Camera) (param : RclParameter) (id : Z)
    (w : world K) :
  control_name_to_id_ self !! get_name param = Some id ->
  handleParameter drv cinfo_ self param w =
  match get_value param with
  | PARAMETER_BOOL b =>
      (passed_on (fst (setControlValue drv (camera_ self) id (if b then 1 else 0) w)),
       self, snd (setControlValue drv (camera_ self) id (if b then 1 else 0) w))
  | PARAMETER_INTEGER i =>
      (passed_on (fst (setControlValue drv (camera_ self) id (s32 i) w)),
       self, snd (setControlValue drv (camera_ self) id (s32 i) w))
  | _ => (Finished false, self, w)
  end.
Proof.
  intros Hreg. unfold handleParameter. cbv zeta. rewrite Hreg.
  destruct (get_value param); try reflexivity; unfold bind;
    destruct (setControlValue drv _ _ _ w); reflexivity.
Qed.

(** X17. If every id of the registry is the id of a listed control,
    [handleParameter] never reads through the end iterator, whatever the
    parameter: the one undefined behaviour it can run into is the overrun of
    the settability query.  And a parameter registered for a control is
    never reported as set: the call returns false or has no defined
    result. *)
Theorem handleParameter_never_reads_end_iterator
    (self : V4L2Camera) (param : RclParameter) (w : world K) :
  registry_listed self ->
  (forall why : string,
     fst (fst (handleParameter drv cinfo_ self param w)) = Broke why ->
     why = QUERYCTRL_OVERRUN) /\
  (forall id : Z,
     control_name_to_id_ self !! get_name param = Some id ->
     fst (fst (handleParameter drv cinfo_ self param w)) <> Finished true).
Proof.
  intros Hreg.
  destruct (control_name_to_id_ self !! get_name param) as [id|] eqn:E.
  - rewrite (handleParameter_control self param id w E).
    pose proof (Hreg _ _ E) as Hin.
    assert (Hset : forall value : Z,
              passed_on (fst (setControlValue drv (camera_ self) id value w)) = Finished false
              \/ passed_on (fst (setControlValue drv (camera_ self) id value w))
                 = Broke QUERYCTRL_OVERRUN).
    { intros value.
      destruct (setControlValue_listed_outcome drv (camera_ self) id value w Hin) as [-> | ->];
        [left | right]; reflexivity. }
    destruct (get_value param) as [| b | i | | s | | | size | |]; cbn [fst];
      try (split; [discriminate | intros _ _; discriminate]).
    + destruct (Hset (if b then 1 else 0)) as [-> | ->];
        (split; [intros why H; inversion H; reflexivity | intros _ _; discriminate]).
    + destruct (Hset (s32 i)) as [-> | ->];
        (split; [intros why H; inversion H; reflexivity | intros _ _; discriminate]).
  - split; [| intros id Hid; discriminate Hid].
    intros why. unfold handleParameter. cbv zeta. rewrite E.
    destruct (String.eqb _ "output_encoding").
    { destruct (get_value param); discriminate. }
    destruct (String.eqb _ "size").
    { unfold bind. destruct (stop drv (camera_ self) w) as [[ok camera] w1].
      destruct (get_value param) as [| b | i | | s | | | size | |]; try discriminate.
      destruct (requestImageSize drv camera size w1) as [[success camera2] w2].
      destruct (start drv camera2 w2) as [[ok3 camera3] w3]. discriminate. }
    destruct (String.eqb _ "camera_info_url").
    { destruct (get_value param); try discriminate.
      destruct (validateURL cinfo_ s); discriminate. }
    discriminate.
Qed.

(** X18. A parameter whose name is neither registered for a control nor
    one of "output_encoding", "size" and "camera_info_url" is refused:
    [handleParameter] returns false, calls nothing and changes nothing. *)
Theorem handleParameter_unknown_name
    (self : V4L2Camera) (param : RclParameter) (w : world K) :
  control_name_to_id_ self !! get_name param = None ->
  get_name param <> "output_encoding" ->
  get_name param <> "size" ->
  get_name param <> "camera_info_url" ->
  handleParameter drv cinfo_ self param w = (Finished false, self, w).
Proof.
  intros Hreg H1 H2 H3. unfold handleParameter. cbv zeta. rewrite Hreg.
  apply String.eqb_neq in H1, H2, H3. rewrite H1, H2, H3. reflexivity.
Qed.

(** X20. The callback for a batch of parameters does not stop at a
    parameter that is refused: the rest of the batch is handled all the
    same, on the state the refused one left, and the batch then reports
    failure. *)
Theorem on_parameters_set_continues_after_refusal
    (p : RclParameter) (parameters : list RclParameter) (successful : bool)
    (self : V4L2Camera) (w : world K) :
  fst (fst (handleParameter drv cinfo_ self p w)) = Finished false ->
  let self1 := snd (fst (handleParameter drv cinfo_ self p w)) in
  let w1 := snd (handleParameter drv cinfo_ self p w) in
  on_parameters_set drv cinfo_ (p :: parameters) successful self w
  = on_parameters_set drv cinfo_ parameters false self1 w1 /\
  forall b : bool,
    fst (fst (on_parameters_set drv cinfo_ (p :: parameters) successful self w))
    = Finished b -> b = false.
Proof.
  intros Hp self1 w1.
  assert (Hfalse : forall ps s n w0 b,
            s = false ->
            fst (fst (on_parameters_set drv cinfo_ ps s n w0)) = Finished b -> b = false).
  { induction ps as [|q ps IH]; intros s n w0 b Hs; cbn [on_parameters_set].
    - unfold ret. cbn. intros H. inversion H. congruence.
    - unfold bind at 1. destruct (handleParameter drv cinfo_ n q w0) as [[e n1] w2].
      destruct e as [b0 | what | why]; try discriminate.
      apply IH. rewrite Hs. reflexivity. }
  assert (Hrun : on_parameters_set drv cinfo_ (p :: parameters) successful self w
                 = on_parameters_set drv cinfo_ parameters false self1 w1).
  { cbn [on_parameters_set]. unfold bind at 1. subst self1 w1.
    destruct (handleParameter drv cinfo_ self p w) as [[e n1] w2]. cbn [fst snd] in *.
    subst e. rewrite andb_false_r. reflexivity. }
  split; [exact Hrun |].
  intros b. rewrite Hrun. apply Hfalse. reflexivity.
Qed.

End NodeParameters.

(** ** Witnesses for the parameters of the node *)

Lemma registry_listed_check (self : V4L2Camera) :
  forallb (fun kv : string * Z =>
             existsb (Z.eqb (snd kv)) (map ctl_id (controls_ (camera_ self))))
          (map_to_list (control_name_to_id_ self)) = true ->
  registry_listed self.
Proof.
  intros H name id Hl. apply elem_of_map_to_list in Hl. apply list_elem_of_In in Hl.
  rewrite forallb_forall in H. specialize (H _ Hl). cbn [snd] in H.
  apply existsb_exists in H. destruct H as (x & Hx & Heq).
  apply Z.eqb_eq in Heq. subst x. exact Hx.
Qed.

Lemma pool_recorded_check {K : Type} (camera : V4l2CameraDevice) (w : world K) :
  forallb (fun x : Z * Z =>
             existsb (fun b => (buf_start b =? fst x) && (buf_length b =? snd x))
                     (buffers_ camera))
          (live_mappings (trace w)) = true ->
  pool_recorded camera w.
Proof.
  intros H x Hx. rewrite forallb_forall in H. specialize (H _ Hx).
  apply existsb_exists in H. destruct H as (b & Hb & Heq).
  apply andb_true_iff in Heq. destruct Heq as [H1 H2].
  apply Z.eqb_eq in H1, H2. exists b. split; [exact Hb |].
  unfold region. destruct x as [a l]. cbn [fst snd] in *. congruence.
Qed.

(** On the simulated camera the first control, brightness, can be set:
    the loop ends there, in the overrun. *)
Lemma createParameters_controls_never_reads_end_iterator_witness :
  let self := NodeBench.fresh in
  let w := snd (Sim.opened Sim.camera) in
  let res := createParameters_controls Sim.driver defaults_server
               (controls_ (camera_ self)) self tt w in
  fst (fst (fst res)) = Broke QUERYCTRL_OVERRUN /\
  (forall why : string, fst (fst (fst res)) = Broke why -> why = QUERYCTRL_OVERRUN) /\
  fst (fst (fst res)) <> Broke END_ITERATOR_READ /\
  camera_ (snd (fst (fst res))) = camera_ self /\
  (registry_listed self -> registry_listed (snd (fst (fst res)))).
Proof.
  intros self w res. split; [vm_compute; reflexivity |].
  exact (createParameters_controls_never_reads_end_iterator Sim.driver defaults_server
           self tt w).
Defined.

(** While the device answers no control query the loop finishes, and both
    controls are registered. *)
Lemma createParameters_controls_registers_last_witness :
  let self := NodeBench.fresh in
  let w := NodeBench.unplugged in
  let res := createParameters_controls Sim.driver defaults_server
               (controls_ (camera_ self)) self tt w in
  fst (fst (fst res)) = Finished tt /\
  control_name_to_id_ (snd (fst (fst res))) !! "contrast" = Some (qc_id Sim.contrast).
Proof.
  intros self w res.
  assert (H : fst (fst (fst res)) = Finished tt) by (vm_compute; reflexivity).
  split; [exact H |].
  exact (createParameters_controls_registers_last Sim.driver defaults_server self tt w
           "contrast" H).
Defined.

(** Brightness is registered and the device answers the settability
    query: setting the parameter ends in the overrun. *)
Lemma handleParameter_never_reads_end_iterator_witness :
  let self := fst NodeBench.configured in
  let w := snd NodeBench.configured in
  let e := fst (fst (handleParameter Sim.driver no_cinfo self NodeBench.brightness_300 w)) in
  registry_listed self /\
  control_name_to_id_ self !! "brightness" = Some (qc_id Sim.brightness) /\
  e = Broke QUERYCTRL_OVERRUN /\
  (forall why : string, e = Broke why -> why = QUERYCTRL_OVERRUN) /\
  e <> Finished true.
Proof.
  intros self w e.
  assert (H : registry_listed self)
    by (apply registry_listed_check; vm_compute; reflexivity).
  assert (Hb : control_name_to_id_ self !! "brightness" = Some (qc_id Sim.brightness))
    by (vm_compute; reflexivity).
  split; [exact H |]. split; [exact Hb |]. split; [vm_compute; reflexivity |].
  destruct (handleParameter_never_reads_end_iterator Sim.driver no_cinfo self
              NodeBench.brightness_300 w H) as [H1 H2].
  split; [exact H1 | exact (H2 _ Hb)].
Defined.

Lemma handleParameter_unknown_name_witness :
  let self := fst NodeBench.configured in
  let w := snd NodeBench.configured in
  control_name_to_id_ self !! get_name NodeBench.zoom_2 = None /\
  handleParameter Sim.driver no_cinfo self NodeBench.zoom_2 w = (Finished false, self, w).
Proof.
  intros self w.
  assert (H : control_name_to_id_ self !! get_name NodeBench.zoom_2 = None)
    by (vm_compute; reflexivity).
  split; [exact H |].
  apply (handleParameter_unknown_name Sim.driver no_cinfo self NodeBench.zoom_2 w H);
    vm_compute; discriminate.
Defined.

(** The unknown parameter is refused, the encoding after it is still set,
    and the batch reports failure. *)
Lemma on_parameters_set_continues_after_refusal_witness :
  let self := fst NodeBench.configured in
  let w := snd NodeBench.configured in
  let batch := [NodeBench.zoom_2; NodeBench.encoding_mono8] in
  fst (fst (handleParameter Sim.driver no_cinfo self NodeBench.zoom_2 w)) = Finished false /\
  fst (fst (on_parameters_set Sim.driver no_cinfo batch true self w)) = Finished false /\
  output_encoding_ (snd (fst (on_parameters_set Sim.driver no_cinfo batch true self w)))
  = "mono8" /\
  on_parameters_set Sim.driver no_cinfo batch true self w
  = on_parameters_set Sim.driver no_cinfo [NodeBench.encoding_mono8] false
      (snd (fst (handleParameter Sim.driver no_cinfo self NodeBench.zoom_2 w)))
      (snd (handleParameter Sim.driver no_cinfo self NodeBench.zoom_2 w)).
Proof.
  intros self w batch.
  assert (H : fst (fst (handleParameter Sim.driver no_cinfo self NodeBench.zoom_2 w))
              = Finished false) by (vm_compute; reflexivity).
  split; [exact H |]. split; [vm_compute; reflexivity |].
  split; [vm_compute; reflexivity |].
  exact (proj1 (on_parameters_set_continues_after_refusal Sim.driver no_cinfo
                  NodeBench.zoom_2 [NodeBench.encoding_mono8] true self w H)).
Defined.

(** ** Changing the size while streaming *)

Section SizeChange.
Context {K : Type} (drv : Driver K) (cinfo_ : CameraInfoManager).

Lemma requestImageSize_keeps_pool (self : V4l2CameraDevice) (size : list Z) (w : world K) :
  buffers_ (snd (fst (requestImageSize drv self size w))) = buffers_ self /\
  live_mappings (trace (snd (requestImageSize drv self size w))) = live_mappings (trace w).
Proof.
  unfold requestImageSize.
  destruct size as [|s0 [|s1 [|s2 rest]]]; try (split; reflexivity).
  destruct (_ && _); [split; reflexivity |].
  rewrite requestDataFormat_trace. rewrite requestDataFormat_run.
  destruct (drv_s_fmt drv _ _ _) as [[r reply] k'].
  split; [destruct (IOCTL_FAILED r); reflexivity |].
  rewrite live_mappings_app. reflexivity.
Qed.

(** X21. A change of the "size" parameter keeps the pool consistent: if
    every live mapping was the region of a buffer of the list before, and
    the stream-disable request of the [stop] it begins with succeeds, then
    after [handleParameter] every live mapping is again the region of a
    buffer of the list, whether the value was well-typed, whether the
    device took the size and whether the restart succeeded (on a system
    where [munmap] does not fail). *)
Theorem size_change_keeps_pool_recorded
    (self : V4L2Camera) (param : RclParameter) (w : world K) :
  control_name_to_id_ self !! get_name param = None ->
  get_name param = "size" ->
  (forall (a l : Z) (k : K), fst (drv_munmap drv a l k) = 0) ->
  pool_recorded (camera_ self) w ->
  IOCTL_FAILED (streamoff_answer drv (camera_ self) w) = false ->
  pool_recorded (camera_ (snd (fst (handleParameter drv cinfo_ self param w))))
                (snd (handleParameter drv cinfo_ self param w)).
Proof.
  intros Hreg Hname Hmunmap Hrec Hoff.
  destruct (stop_releases_recorded drv (camera_ self) w Hmunmap Hrec Hoff)
    as [Hlive Hbufs].
  unfold handleParameter. cbv zeta. rewrite Hreg, Hname.
  change (String.eqb "size" "output_encoding") with false.
  change (String.eqb "size" "size") with true. cbv iota.
  destruct (get_value param) as [| b | i | | s | | | size | |]; unfold bind;
    destruct (stop drv (camera_ self) w) as [[ok camera] w1]; cbn [fst snd] in Hlive, Hbufs;
    try (unfold ret, pool_recorded; cbn [fst snd camera_ set_camera]; intros x Hx;
         rewrite Hlive in Hx; destruct Hx).
  pose proof (requestImageSize_keeps_pool camera size w1) as [_ Hlive2].
  destruct (requestImageSize drv camera size w1) as [[success camera2] w2].
  cbn [fst snd] in Hlive2. rewrite Hlive in Hlive2.
  pose proof (start_live_recorded drv camera2 w2 Hlive2) as Hstart.
  destruct (start drv camera2 w2) as [[ok3 camera3] w3].
  unfold ret. cbn [fst snd camera_ set_camera] in *. exact Hstart.
Qed.

End SizeChange.

Lemma size_change_keeps_pool_recorded_witness :
  let self := fst NodeRun.running in
  let w := snd NodeRun.running in
  let after := handleParameter Sim.driver no_cinfo self NodeBench.size_16x8 w in
  control_name_to_id_ self !! get_name NodeBench.size_16x8 = None /\
  length (live_mappings (trace w)) = 4%nat /\
  pool_recorded (camera_ self) w /\
  IOCTL_FAILED (streamoff_answer Sim.driver (camera_ self) w) = false /\
  fst (fst after) = Finished true /\
  length (live_mappings (trace (snd after))) = 4%nat /\
  pool_recorded (camera_ (snd (fst after))) (snd after).
Proof.
  intros self w after.
  assert (H0 : control_name_to_id_ self !! get_name NodeBench.size_16x8 = None)
    by (vm_compute; reflexivity).
  assert (H1 : get_name NodeBench.size_16x8 = "size") by reflexivity.
  assert (H2 : forall (a l : Z) (k : Sim.state), fst (drv_munmap Sim.driver a l k) = 0)
    by (intros; reflexivity).
  assert (H3 : pool_recorded (camera_ self) w)
    by (apply pool_recorded_check; vm_compute; reflexivity).
  assert (H4 : IOCTL_FAILED (streamoff_answer Sim.driver (camera_ self) w) = false)
    by (vm_compute; reflexivity).
  split; [exact H0 |]. split; [vm_compute; reflexivity |]. split; [exact H3 |].
  split; [exact H4 |]. split; [vm_compute; reflexivity |].
  split; [vm_compute; reflexivity |].
  exact (size_change_keeps_pool_recorded Sim.driver no_cinfo self NodeBench.size_16x8 w
           H0 H1 H2 H3 H4).
Defined.

(** ** The capture thread *)

Section Thread.
Context {K : Type} (drv : Driver K).
Context (cvtColor : Image -> string -> option Image)
        (getCameraInfo : CameraInfo)
        (use_intra_process_comms : bool)
        (camera_frame_id_ : string).

(** X22. A turn of the capture loop does not check what [capture]
    returned: when the dequeue fails, or the requeue after it, the turn
    dereferences the null pointer, having published nothing and made no
    call but those of [capture]. *)
Theorem capture_iteration_dereferences_null
    (self : V4L2Camera) (stamp : Z) (w : world K) :
  let r0 := fst (fst (dequeue_answer drv (camera_ self) w)) in
  let r1 := fst (fst (requeue_answer drv (camera_ self) w)) in
  IOCTL_FAILED r0 = true \/ IOCTL_FAILED r1 = true ->
  (exists why : string,
     fst (capture_iteration drv cvtColor getCameraInfo use_intra_process_comms
            camera_frame_id_ self stamp w) = Broke why) /\
  snd (capture_iteration drv cvtColor getCameraInfo use_intra_process_comms
         camera_frame_id_ self stamp w) = snd (capture drv (camera_ self) w).
Proof.
  cbv zeta. unfold capture_iteration, bind, requeue_answer.
  rewrite capture_run. cbv zeta.
  destruct (dequeue_answer drv (camera_ self) w) as [[r0 b0] k0]. cbn [fst snd].
  destruct (IOCTL_FAILED r0) eqn:E0.
  { intros _. unfold ret. cbn [fst snd]. split; [eexists; reflexivity | reflexivity]. }
  destruct (drv_qbuf drv (fd_ (camera_ self)) b0 k0) as [[r1 b1] k1]. cbn [fst snd].
  intros [H | H]; [discriminate |]. rewrite H.
  unfold ret. cbn [fst snd]. split; [eexists; reflexivity | reflexivity].
Qed.

(** X23. What a turn of the capture loop publishes with the camera
    transport is consistent: the camera info has the width and the height
    of the image published with it and the stamp of the image, and it is
    either the camera info of the manager or, when that was of another
    size, an empty one of the image's size.  Without the camera transport
    the turn publishes the image alone. *)
Theorem capture_iteration_publishes_matching_info
    (self : V4L2Camera) (stamp : Z) (w : world K) (p : publication) :
  fst (capture_iteration drv cvtColor getCameraInfo use_intra_process_comms
         camera_frame_id_ self stamp w) = Finished p ->
  match p with
  | PublishedImage img s f =>
      use_intra_process_comms = true /\ s = stamp /\ f = camera_frame_id_
  | PublishedCamera img s f ci =>
      use_intra_process_comms = false /\ s = stamp /\ f = camera_frame_id_ /\
      checkCameraInfo img ci = true /\ ci_stamp ci = stamp /\
      (ci = set_ci_stamp getCameraInfo stamp \/
       (checkCameraInfo img getCameraInfo = false /\
        ci_distortion_model ci = ""))
  end.
Proof.
  unfold capture_iteration, bind.
  destruct (capture drv (camera_ self) w) as [out w1].
  destruct out as [[img0|] | why]; unfold ret; cbn [fst]; try discriminate.
  destruct (if negb (String.eqb (img_encoding img0) (output_encoding_ self))
            then cvtColor img0 (output_encoding_ self) else Some img0) as [img|];
    [| discriminate].
  destruct use_intra_process_comms.
  - intros H. inversion H. subst p. auto.
  - cbv zeta. intros H. inversion H. subst p. clear H.
    split; [reflexivity |]. split; [reflexivity |]. split; [reflexivity |].
    destruct (checkCameraInfo img getCameraInfo) eqn:Echeck; cbn [negb].
    + split; [exact Echeck |]. split; [reflexivity |]. left. reflexivity.
    + split; [| split; [reflexivity | right; split; reflexivity]].
      unfold checkCameraInfo, set_ci_stamp. cbn [ci_width ci_height].
      rewrite !Z.eqb_refl. reflexivity.
Qed.

End Thread.

Lemma capture_iteration_dereferences_null_witness :
  let self := fst NodeBench.configured in
  let w := snd NodeBench.configured in
  IOCTL_FAILED (fst (fst (dequeue_answer Sim.driver (camera_ self) w))) = true /\
  exists why : string,
    fst (capture_iteration Sim.driver ThreadBench.relabel ThreadBench.uncalibrated false
           "camera" self 7 w) = Broke why.
Proof.
  intros self w.
  assert (H : IOCTL_FAILED (fst (fst (dequeue_answer Sim.driver (camera_ self) w))) = true)
    by (vm_compute; reflexivity).
  split; [exact H |].
  exact (proj1 (capture_iteration_dereferences_null Sim.driver ThreadBench.relabel
                  ThreadBench.uncalibrated false "camera" self 7 w (or_introl H))).
Defined.

Lemma capture_iteration_publishes_matching_info_witness :
  let self := fst NodeRun.running in
  let w := snd NodeRun.running in
  exists (img : Image) (ci : CameraInfo),
    fst (capture_iteration Sim.driver ThreadBench.relabel ThreadBench.uncalibrated false
           "camera" self 7 w) = Finished (PublishedCamera img 7 "camera" ci) /\
    img_encoding img = "rgb8" /\
    checkCameraInfo img ci = true /\ ci_stamp ci = 7.
Proof.
  intros self w.
  assert (H : exists (img : Image) (ci : CameraInfo),
             fst (capture_iteration Sim.driver ThreadBench.relabel
                    ThreadBench.uncalibrated false "camera" self 7 w)
             = Finished (PublishedCamera img 7 "camera" ci) /\
             img_encoding img = "rgb8").
  { vm_compute. eexists _, _. split; reflexivity. }
  destruct H as (img & ci & H & Henc). exists img, ci.
  split; [exact H |]. split; [exact Henc |].
  pose proof (capture_iteration_publishes_matching_info Sim.driver ThreadBench.relabel
                ThreadBench.uncalibrated false "camera" self 7 w _ H) as Hp.
  cbv beta iota in Hp. destruct Hp as (_ & _ & _ & Hcheck & Hstamp & _).
  split; [exact Hcheck | exact Hstamp].
Defined.

(** ** The first control that can be set *)

Section FirstSettable.
Context {K P : Type} (drv : Driver K) (server : ParameterServer P).

Lemma getControlValue_run (self : V4l2CameraDevice) (id : Z) (w : world K) :
  getControlValue drv self id w =
  let rq := {| vc_id := id; vc_value := 0 |} in
  let '(r, ctrl, k) := drv_g_ctrl drv (fd_ self) rq (kern w) in
  (if IOCTL_FAILED r then 0 else vc_value ctrl,
   World k (trace w ++ [EvIoctl (fd_ self) (VIDIOC_G_CTRL rq) r])).
Proof.
  unfold getControlValue, ioctl_G_CTRL, call1, bind, ret.
  destruct (drv_g_ctrl drv (fd_ self) _ (kern w)) as [[r ctrl] k].
  destruct (IOCTL_FAILED r); reflexivity.
Qed.

(** X24. The loop of [createParameters] ends, undefined, at the first
    integer or menu control the device says can be set: once the value of
    the control is read and the parameter declared, the settability query
    of [setControlValue] is answered and overruns.  The query is the last
    call of the loop; the control is not registered and the controls after
    it are not looked at. *)
Theorem createParameters_controls_overruns_at_settable_control
    (c : Control) (rest : list Control) (self : V4L2Camera) (p : P) (w : world K) :
  let camera := camera_ self in
  let current := fst (getControlValue drv camera (ctl_id c) w) in
  let w1 := snd (getControlValue drv camera (ctl_id c) w) in
  let res := createParameters_controls drv server (c :: rest) self p w in
  (ctl_type c =? V4L2_CTRL_TYPE_INTEGER) || (ctl_type c =? V4L2_CTRL_TYPE_MENU) = true ->
  fst (declare_integer server (toParamName (ctl_name c)) current p) <> None ->
  IOCTL_FAILED (fst (fst (settable_answer drv camera (ctl_id c) w1))) = false ->
  fst (fst (fst res)) = Broke QUERYCTRL_OVERRUN /\
  snd (fst (fst res)) = self /\
  trace (snd res)
  = trace w ++ [EvIoctl (fd_ camera) (VIDIOC_G_CTRL {| vc_id := ctl_id c; vc_value := 0 |})
                  (fst (fst (drv_g_ctrl drv (fd_ camera)
                               {| vc_id := ctl_id c; vc_value := 0 |} (kern w))));
                EvIoctl (fd_ camera)
                  (VIDIOC_QUERYCTRL (set_qc_id zero_queryctrl (ctl_id c)))
                  (fst (fst (settable_answer drv camera (ctl_id c) w1)))].
Proof.
  cbv zeta. intros Hty Hdecl Hq.
  rewrite createParameters_controls_cons. cbv zeta. rewrite Hty.
  assert (Htr : trace (snd (getControlValue drv (camera_ self) (ctl_id c) w))
                = trace w ++ [EvIoctl (fd_ (camera_ self))
                                (VIDIOC_G_CTRL {| vc_id := ctl_id c; vc_value := 0 |})
                                (fst (fst (drv_g_ctrl drv (fd_ (camera_ self))
                                             {| vc_id := ctl_id c; vc_value := 0 |}
                                             (kern w))))]).
  { rewrite getControlValue_run. cbv zeta.
    destruct (drv_g_ctrl drv _ _ (kern w)) as [[r ctrl] k]. reflexivity. }
  destruct (getControlValue drv (camera_ self) (ctl_id c) w) as [current w1].
  cbn [fst snd] in *.
  destruct (declare_integer server _ current p) as [[value|] p']; cbn [fst] in Hdecl;
    [| exfalso; apply Hdecl; reflexivity].
  rewrite setControlValue_run.
  destruct (settable_answer drv (camera_ self) (ctl_id c) w1) as [[r1 q] k1].
  cbv zeta. cbn [fst snd] in *. rewrite Hq. cbn [fst snd trace].
  split; [reflexivity |]. split; [reflexivity |].
  rewrite Htr, <- app_assoc. reflexivity.
Qed.

End FirstSettable.

(** Brightness is the first control of the simulated camera and can be
    set: the loop ends there and contrast is not looked at. *)
Lemma createParameters_controls_overruns_at_settable_control_witness :
  let self := NodeBench.fresh in
  let w := snd (Sim.opened Sim.camera) in
  let c := Control_of Sim.brightness ∅ in
  let rest := [Control_of Sim.contrast ∅] in
  let res := createParameters_controls Sim.driver defaults_server (c :: rest) self tt w in
  controls_ (camera_ self) = c :: rest /\
  fst (fst (fst res)) = Broke QUERYCTRL_OVERRUN /\
  control_name_to_id_ (snd (fst (fst res))) = ∅ /\
  length (trace (snd res)) = (length (trace w) + 2)%nat.
Proof.
  intros self w c rest res.
  destruct (createParameters_controls_overruns_at_settable_control Sim.driver
              defaults_server c rest self tt w eq_refl) as (H1 & H2 & H3).
  - vm_compute. discriminate.
  - reflexivity.
  - split; [vm_compute; reflexivity |]. split; [exact H1 |].
    split; [subst res; rewrite H2; reflexivity |].
    subst res. rewrite H3, length_app. reflexivity.
Defined.

(** ** Opening a device that answers from tables *)

Section OpenTables.
Context {K : Type} (drv : Driver K).

Lemma open_probe_fd (self : V4l2CameraDevice) (w : world K) :
  fd_ (fst (open_probe drv self w)) = fd_ self.
Proof.
  unfold open_probe, ioctl_QUERYCAP, ioctl_G_FMT, call1, bind, ret.
  destruct (drv_querycap drv (fd_ self) (capabilities_ self) (kern w)) as [[rc cap] k1].
  cbn [kern trace fd_ set_capabilities].
  destruct (drv_g_fmt drv _ _ k1) as [[rf fmt] k2]. reflexivity.
Qed.

(** X25. On a device whose path opens and which then enumerates a table
    of formats and answers control queries from a table (ids going up from
    above the user class, every control enabled, none a menu), [open]
    returns success once it has more fuel than either table has entries,
    and the object then holds the descriptor [open(2)] gave, the capabilities
    and the current format the device answered, and exactly the two tables,
    whatever it held before. *)
Theorem open_fills_object_from_device
    (fuel : nat) (self : V4l2CameraDevice) (w : world K)
    (fs : list ImageFormat) (cs : list v4l2_queryctrl) :
  let fd := open_answer drv self w in
  let probed := open_probe drv (set_fd self fd) (world_after_open drv self w) in
  0 <= fd ->
  enumerates_formats drv fd (kern (snd probed)) fs ->
  Z.of_nat (length fs) < 2 ^ 32 ->
  answers_controls drv fd (kern (snd probed)) cs ->
  ascending V4L2_CID_USER_CLASS cs ->
  Forall plain_control cs ->
  (length fs < fuel)%nat ->
  (length cs < fuel)%nat ->
  fst (open drv fuel self w)
  = Some (true, set_controls (set_image_formats (fst probed) fs)
                  (map (fun c => Control_of c ∅) cs)) /\
  fd_ (fst probed) = fd.
Proof.
  cbv zeta. intros Hfd Hfs Hsmall Hcs Hasc Hplain Hfuel1 Hfuel2.
  pose proof (open_probe_fd (set_fd self (open_answer drv self w))
                (world_after_open drv self w)) as Hkeep.
  cbn [fd_ set_fd] in Hkeep.
  split; [| exact Hkeep].
  rewrite open_run. cbv zeta.
  apply Z.ltb_ge in Hfd. rewrite Hfd.
  destruct (open_probe drv (set_fd self (open_answer drv self w))
              (world_after_open drv self w)) as [self0 [k tr]].
  cbn [fst snd kern] in *.
  unfold listImageFormats, bind, ret.
  match goal with |- context [listImageFormats_loop drv fuel ?fd ?d ?acc ?w0] =>
    destruct (listImageFormats_loop_table drv fd k fs
                ltac:(rewrite Hkeep; exact Hfs) Hsmall (length fs) fuel d acc tr)
      as (tr1 & Hrun1 & _); [cbn; lia | cbn; lia | exact Hfuel1 |]
  end.
  rewrite Hrun1. cbn [option_map].
  unfold listControls, bind, ret.
  match goal with |- context [listControls_loop drv fuel ?fd ?q ?acc ?w0] =>
    destruct (listControls_loop_table drv fd k cs
                ltac:(cbn [fd_ set_image_formats]; rewrite Hkeep; exact Hcs)
                cs [] V4L2_CID_USER_CLASS fuel q acc tr1)
      as (tr2 & Hrun2 & _);
      [reflexivity | reflexivity | vm_compute; split; [discriminate | reflexivity]
      | constructor | exact Hasc | exact Hplain | exact Hfuel2 |]
  end.
  rewrite Hrun2. cbn [option_map]. reflexivity.
Qed.

End OpenTables.

Lemma open_fills_object_from_device_witness :
  let fs := map ImageFormat_of (Sim.formats Sim.camera) in
  let cs := Sim.controls Sim.camera in
  let probed := open_probe Sim.driver (set_fd Sim.device0 3)
                  (world_after_open Sim.driver Sim.device0 (Sim.boot Sim.camera)) in
  0 <= open_answer Sim.driver Sim.device0 (Sim.boot Sim.camera) /\
  fst (open Sim.driver 3 Sim.device0 (Sim.boot Sim.camera))
  = Some (true, set_controls (set_image_formats (fst probed) fs)
                  (map (fun c => Control_of c ∅) cs)) /\
  fd_ (fst probed) = 3.
Proof.
  intros fs cs probed.
  assert (H0 : 0 <= open_answer Sim.driver Sim.device0 (Sim.boot Sim.camera))
    by (vm_compute; discriminate).
  assert (H1 : enumerates_formats Sim.driver 3 Sim.camera fs).
  { apply Sim_enumerates_formats. intros [|[|i]] e He; cbn in He; inversion He.
    reflexivity. }
  assert (H2 : Z.of_nat (length fs) < 2 ^ 32) by (vm_compute; reflexivity).
  assert (H3 : answers_controls Sim.driver 3 Sim.camera cs)
    by apply Sim_answers_controls.
  assert (H4 : ascending V4L2_CID_USER_CLASS cs)
    by (vm_compute; repeat split; reflexivity).
  assert (H5 : Forall plain_control cs)
    by (repeat constructor; vm_compute; discriminate).
  assert (H6 : (length fs < 3)%nat) by (vm_compute; lia).
  assert (H7 : (length cs < 3)%nat) by (vm_compute; lia).
  split; [exact H0 |].
  exact (open_fills_object_from_device Sim.driver 3 Sim.device0 (Sim.boot Sim.camera)
           fs cs H0 H1 H2 H3 H4 H5 H6 H7).
Defined.
